(** * GeneralPreferenceModelTrainer: a shallow embedding of
      [openrlhf/trainer/gpm_trainer.py]

    The trainer is a Python class whose methods call out to a model, a
    family of loss functions and a distributed strategy.  The embedding
    keeps the control flow of [__init__], [fit],
    [save_logs_and_checkpoints], [evaluate], [concatenated_forward] and
    [concatenated_inputs] as it is written, and treats the collaborators
    as functions of the history of calls made so far.

    Conventions.
    - Python [int] is [Z]; [//] and [%] are [Z.div] and [Z.modulo] (both
      floor towards minus infinity, as in Python) guarded by an explicit
      [ZeroDivisionError].
    - Python [float] metrics are idealised as exact rationals [Q].
    - A raised exception is an [outcome]; the effects performed before
      the raise are kept.
    - Local variables of [fit] whose being bound depends on the path
      taken live in a store of options; reading an unbound one raises
      [UnboundLocalError], a subclass of [NameError]. *)

From Stdlib Require Import String ZArith QArith List Bool Lia Arith.
From Stdlib Require Import DecimalString.
From Stdlib Require Import Lqa.
From Stdlib Require Import SpecFloat.
Import ListNotations.

Open Scope Z_scope.

(** ** Exceptions and outcomes *)

Inductive exn : Type :=
| AssertionError (msg : string)
| UnboundLocalError (name : string)
| ZeroDivisionError
| ValueError
| TypeError
| IndexError
| AttributeError
| RuntimeError
| OverflowError.

(** [UnboundLocalError] is the only subclass of [NameError] here. *)
Definition is_NameError (e : exn) : bool :=
  match e with
  | UnboundLocalError _ => true
  | _ => false
  end.

Inductive outcome (A : Type) : Type :=
| Ok (a : A)
| Raise (e : exn).

Arguments Ok {A} a.
Arguments Raise {A} e.

Definition raised {A} (o : outcome A) : bool :=
  match o with
  | Ok _ => false
  | Raise _ => true
  end.

Definition obind {A B} (o : outcome A) (k : A -> outcome B) : outcome B :=
  match o with
  | Ok a => k a
  | Raise e => Raise e
  end.

(** ** Python integer arithmetic *)

Definition py_floordiv (a b : Z) : outcome Z :=
  if b =? 0 then Raise ZeroDivisionError else Ok (a / b).

Definition py_mod (a b : Z) : outcome Z :=
  if b =? 0 then Raise ZeroDivisionError else Ok (a mod b).

(** [str(n)] for an [int]. *)
Definition py_str (n : Z) : string :=
  NilZero.string_of_int (Z.to_int n).

(** [l[a:b]] for [0 <= a] and [0 <= b]. *)
Definition slice {A} (a b : nat) (l : list A) : list A :=
  skipn a (firstn b l).

(** A slice bound [i] on a dimension of size [len]: negative bounds
    count from the end, and every bound is clamped into [0, len]. *)
Definition norm_bound (i : Z) (len : nat) : nat :=
  if i <? 0 then Z.to_nat (Z.max 0 (Z.of_nat len + i))
  else Nat.min (Z.to_nat i) len.

(** ** Rank-2 integer tensors

    Token ids and attention masks after [squeeze(1)] have shape
    [(batch, seq)].  The shape is kept beside the data because a tensor
    with no row still has a number of columns. *)

Record Tensor : Type := mkTensor {
  t_rows : nat;
  t_cols : nat;
  t_data : list (list Z)
}.

Definition wf_tensor (t : Tensor) : Prop :=
  length (t_data t) = t_rows t /\
  Forall (fun r => length r = t_cols t) (t_data t).

(** [tensor.size(dim)] for a rank-2 tensor. *)
Definition size (t : Tensor) (dim : Z) : outcome nat :=
  if (dim =? -1) || (dim =? 1) then Ok (t_cols t)
  else if (dim =? 0) || (dim =? -2) then Ok (t_rows t)
  else Raise IndexError.

(** [pad_value * torch.ones(rows, cols, dtype=tensor.dtype)] *)
Definition full (rows cols : nat) (pad_value : Z) : Tensor :=
  mkTensor rows cols (repeat (repeat (pad_value * 1) cols) rows).

(** [torch.cat([a, b], dim=-1)]: the rows of [a] extended by those of
    [b]; the number of rows must agree. *)
Definition cat_cols (a b : Tensor) : outcome Tensor :=
  if Nat.eqb (t_rows a) (t_rows b)
  then Ok (mkTensor (t_rows a) (t_cols a + t_cols b)
             (map (fun p => fst p ++ snd p) (combine (t_data a) (t_data b))))
  else Raise RuntimeError.

(** [torch.cat((a, b), dim=0)]: the rows of [a] followed by those of
    [b]; the number of columns must agree. *)
Definition cat_rows (a b : Tensor) : outcome Tensor :=
  if Nat.eqb (t_cols a) (t_cols b)
  then Ok (mkTensor (t_rows a + t_rows b) (t_cols a) (t_data a ++ t_data b))
  else Raise RuntimeError.

Definition cat (a b : Tensor) (dim : Z) : outcome Tensor :=
  if (dim =? -1) || (dim =? 1) then cat_cols a b
  else if (dim =? 0) || (dim =? -2) then cat_rows a b
  else Raise IndexError.

(** ** [pad_to_length] (nested in [concatenated_inputs])

<<
    def pad_to_length(tensor, length, pad_value, dim=-1):
        if tensor.size(dim) >= length:
            return tensor
        else:
            pad_size = list(tensor.shape)
            pad_size[dim] = length - tensor.size(dim)
            # left pad
            return torch.cat([pad_value * torch.ones(pad_size), tensor], dim=dim)
>> *)

(** [pad_size = list(tensor.shape); pad_size[dim] = n] *)
Definition pad_size (t : Tensor) (dim : Z) (n : nat) : outcome (nat * nat) :=
  if (dim =? -1) || (dim =? 1) then Ok (t_rows t, n)
  else if (dim =? 0) || (dim =? -2) then Ok (n, t_cols t)
  else Raise IndexError.

Definition pad_to_length_dim (tensor : Tensor) (len : Z) (pad_value : Z)
    (dim : Z) : outcome Tensor :=
  obind (size tensor dim) (fun sz =>
  if Z.of_nat sz >=? len then Ok tensor
  else
    obind (pad_size tensor dim (Z.to_nat (len - Z.of_nat sz))) (fun ps =>
    cat (full (fst ps) (snd ps) pad_value) tensor dim)).

(** The two call sites use the default [dim=-1]. *)
Definition pad_to_length (tensor : Tensor) (len : Z) (pad_value : Z)
    : outcome Tensor :=
  pad_to_length_dim tensor len pad_value (-1).

(** ** [concatenated_inputs]

<<
    max_length = max(chosen_ids.shape[1], reject_ids.shape[1])
    inputs_ids = torch.cat((pad_to_length(chosen_ids, max_length, pad_token_id),
                            pad_to_length(reject_ids, max_length, pad_token_id)), dim=0)
    max_length = max(c_mask.shape[1], r_mask.shape[1])
    att_masks = torch.cat((pad_to_length(c_mask, max_length, 0),
                           pad_to_length(r_mask, max_length, 0)), dim=0)
    return inputs_ids, att_masks
>> *)
Definition concatenated_inputs (pad_token_id : Z)
    (chosen_ids c_mask reject_ids r_mask : Tensor) : outcome (Tensor * Tensor) :=
  let max_length := Z.of_nat (Nat.max (t_cols chosen_ids) (t_cols reject_ids)) in
  obind (pad_to_length chosen_ids max_length pad_token_id) (fun pc =>
  obind (pad_to_length reject_ids max_length pad_token_id) (fun pr =>
  obind (cat pc pr 0) (fun inputs_ids =>
  let max_length := Z.of_nat (Nat.max (t_cols c_mask) (t_cols r_mask)) in
  obind (pad_to_length c_mask max_length 0) (fun pcm =>
  obind (pad_to_length r_mask max_length 0) (fun prm =>
  obind (cat pcm prm 0) (fun att_masks =>
  Ok (inputs_ids, att_masks))))))).

(** ** Loss functions

    The classes the trainer imports and tests with [isinstance].  Only
    the first four are built by [__init__];
    [HighDimGeneralPreferenceRegressionMoELoss] appears in [isinstance]
    tests and in commented-out lines. *)

Inductive LossFn : Type :=
| PairWiseLoss (tau : Q)
| GeneralPreferenceLoss (tau : Q)
| HighDimGeneralPreferenceLoss (tau : Q) (value_head_dim : Z)
| HighDimGeneralPreferenceMoELoss (value_head_dim : Z) (softmax_tau : Q)
| HighDimGeneralPreferenceRegressionMoELoss
    (value_head_dim : Z) (target_margin : Q) (softmax_tau : Q).

Inductive PtxLossFn : Type :=
| SFTSumLoss (beta : Q)
| DPORefFreeLoss (beta : Q) (margin : Q).

Definition is_HighDimGeneralPreferenceRegressionMoELoss (f : LossFn) : bool :=
  match f with
  | HighDimGeneralPreferenceRegressionMoELoss _ _ _ => true
  | _ => false
  end.

Definition is_HighDimGeneralPreferenceMoELoss (f : LossFn) : bool :=
  match f with
  | HighDimGeneralPreferenceMoELoss _ _ => true
  | _ => false
  end.

Definition is_DPORefFreeLoss (f : PtxLossFn) : bool :=
  match f with
  | DPORefFreeLoss _ _ => true
  | _ => false
  end.

(** ** Configuration *)

(** [args.save_steps] is an [int] until [fit] replaces [-1] by
    [float("inf")]. *)
Inductive steps : Type :=
| Finite (n : Z)
| Infinite.

Record Args : Type := mkArgs {
  add_prompt_head : bool;
  reward_scaler_beta : Q;
  margin_loss : bool;
  compute_fp32_loss : bool;
  packing_samples : bool;
  use_wandb : bool;
  add_pretrain_loss : bool;
  ptx_loss_coef : Q;
  eval_steps : Z;
  save_steps : steps;
  logging_steps : Z;
  train_batch_size : Z;
  ckpt_path : string;
  max_ckpt_num : Z;
  max_ckpt_mem : Z
}.

Definition set_eval_steps (a : Args) (v : Z) : Args :=
  mkArgs (add_prompt_head a) (reward_scaler_beta a) (margin_loss a)
    (compute_fp32_loss a) (packing_samples a) (use_wandb a)
    (add_pretrain_loss a) (ptx_loss_coef a) v (save_steps a)
    (logging_steps a) (train_batch_size a) (ckpt_path a) (max_ckpt_num a)
    (max_ckpt_mem a).

Definition set_save_steps (a : Args) (v : steps) : Args :=
  mkArgs (add_prompt_head a) (reward_scaler_beta a) (margin_loss a)
    (compute_fp32_loss a) (packing_samples a) (use_wandb a)
    (add_pretrain_loss a) (ptx_loss_coef a) (eval_steps a) v
    (logging_steps a) (train_batch_size a) (ckpt_path a) (max_ckpt_num a)
    (max_ckpt_mem a).

Record Strategy : Type := mkStrategy {
  s_args : Args;
  accumulated_gradient : Z;
  is_rank_0 : bool;
  (** [Some g] when the strategy has the attribute [ring_attn_group]. *)
  ring_attn_group : option nat
}.

(** ** Batches and tensors exchanged with the model *)

Inductive Batch : Type :=
| NonPackedBatch (chosen_ids c_mask reject_ids r_mask : Tensor)
    (margin : list Q) (chosen_response_len : list Z)
| PackedBatch (packed_input_ids packed_attention_masks : Tensor)
    (packed_seq_lens : list Z) (margin : list Q)
    (chosen_response_lens : list Z).

(** Rows of rewards: one score vector per sequence. *)
Definition Values : Type := list (list Q).

(** [outputs["last_hidden_state"]], of shape [(batch, seq, hidden)]. *)
Record Hidden : Type := mkHidden {
  h_seq : nat;
  h_rows : list (list (list Q))
}.

(** [outputs] is [None] or carries the last hidden state. *)
Definition Outputs : Type := option Hidden.

Definition Logits : Type := list (list (list Q)).

(** [concatenated_forward] receives tensors on the padded path and, on
    the packed path, the list of sequence lengths in [reject_ids] and
    [None] in [r_mask]. *)
Inductive pyarg : Type :=
| PTensor (t : Tensor)
| PList (l : list Z)
| PNone.

Record ForwardCall : Type := mkForwardCall {
  fc_input_ids : pyarg;
  fc_attention_mask : pyarg;
  fc_return_output : bool;
  fc_ring_attn_group : option nat;
  (** [None] when the keyword is not passed. *)
  fc_packed_seq_lens : option pyarg
}.

(** Positional arguments of a call [self.loss_fn(...)]. *)
Inductive LossArg : Type :=
| LRewards (v : Values)
| LHidden (h : list (list Q))
| LMargin (m : option (list Q)).

(** Positional arguments of a call [self.ptx_loss_fn(...)]. *)
Inductive PtxArg : Type :=
| PLogits (l : Logits)
| PLabel (t : Tensor)
| PMask (t : Tensor).

Definition Metrics : Type := list (string * Q).

(** ** Calls to the collaborators, in the order they are made *)

Inductive event : Type :=
| EPrint (s : string)
| EWandbInit
| ESetEpoch (epoch : Z) (consumed_samples : Z)
| EModelTrain
| EModelEval
| ENoGradEnter
| ENoGradExit
| ECustomForward (c : ForwardCall)
| ELossFn (f : LossFn) (args : list LossArg)
| EModelForward (ids mask : Tensor)
| EPtxLossFn (args : list PtxArg)
| EBackward (loss : Q)
| EOptimizerStep
| EAllReduce (m : Metrics)
| EWandbLog (m : Metrics)
| ESaveCkpt (tag : string) (client_states : list (string * Z))
| EEmptyCache
| EWandbFinish.

(** The collaborators answer as functions of the calls made so far
    (the last one being the call itself), so that a model whose weights
    change at each optimizer step, or that behaves differently in
    evaluation mode, is covered. *)
Record Collaborators : Type := mkCollaborators {
  custom_forward : list event -> ForwardCall -> Values * Outputs;
  (** [(loss.item(), probs)] *)
  loss_fn_call : list event -> LossFn -> list LossArg -> Q * list Q;
  model_forward : list event -> Tensor -> Tensor -> Logits;
  ptx_loss_fn_call : list event -> PtxLossFn -> list PtxArg -> Q;
  get_last_lr : list event -> Q;
  all_reduce : list event -> Metrics -> Metrics
}.

(** ** The trainer object *)

Record Trainer : Type := mkTrainer {
  strategy : Strategy;
  epochs : Z;
  train_dataloader : list Batch;
  (** [isinstance(self.train_dataloader.sampler, GroupDistributedSampler)] *)
  sampler_is_group : bool;
  eval_dataloader : list Batch;
  pad_token_id : Z;
  is_general_preference : bool;
  self_packing_samples : bool;
  loss_fn : LossFn;
  ptx_loss_fn : PtxLossFn;
  self_margin_loss : bool;
  self_compute_fp32_loss : bool;
  _wandb : bool;
  self_add_pretrain_loss : bool
}.

(** ** [GeneralPreferenceModelTrainer.__init__]

<<
    if is_general_preference:
        if value_head_dim == 2 and not self.args.add_prompt_head:
            self.loss_fn = GeneralPreferenceLoss(tau)
            self.strategy.print("GeneralPreference Loss")
        else:
            assert value_head_dim % 2 == 0, "Dimension of value head ..."
            if self.args.add_prompt_head:
                self.loss_fn = HighDimGeneralPreferenceMoELoss(model=..., value_head_dim=value_head_dim, softmax_tau=tau)
            else:
                self.loss_fn = HighDimGeneralPreferenceLoss(tau, value_head_dim)
    else:
        self.loss_fn = PairWiseLoss(tau)
        self.strategy.print("LogSigmoid Loss")
>> *)

Definition odd_dim_message : string :=
  "Dimension of value head for general preference model can not be odd!".

(** The loss selected, with what is printed on the way. *)
Definition select_loss_fn (is_general_preference : bool) (tau : Q)
    (value_head_dim : Z) (add_prompt_head : bool)
    : outcome LossFn * list event :=
  if is_general_preference then
    if (value_head_dim =? 2) && negb add_prompt_head then
      (Ok (GeneralPreferenceLoss tau), [EPrint "GeneralPreference Loss"])
    else
      if negb (value_head_dim mod 2 =? 0) then
        (Raise (AssertionError odd_dim_message), [])
      else if add_prompt_head then
        (Ok (HighDimGeneralPreferenceMoELoss value_head_dim tau), [])
      else
        (Ok (HighDimGeneralPreferenceLoss tau value_head_dim), [])
  else
    (Ok (PairWiseLoss tau), [EPrint "LogSigmoid Loss"]).

Definition __init__ (strategy : Strategy)
    (train_dataloader : list Batch) (sampler_is_group : bool)
    (eval_dataloader : list Batch) (pad_token_id : Z)
    (max_epochs : Z) (is_general_preference : bool) (tau : Q)
    (value_head_dim : Z) (packing_samples_arg : bool)
    : outcome Trainer * list event :=
  let args := s_args strategy in
  match select_loss_fn is_general_preference tau value_head_dim
          (add_prompt_head args) with
  | (Raise e, evs) => (Raise e, evs)
  | (Ok loss_fn, evs) =>
      let ptx_loss_fn := SFTSumLoss (reward_scaler_beta args) in
      let wandb := use_wandb args && is_rank_0 strategy in
      let add_pretrain :=
        if add_pretrain_loss args
        then (if Qle_bool (ptx_loss_coef args) 0 then false else true)
        else false in
      (Ok (mkTrainer strategy max_epochs train_dataloader sampler_is_group
             eval_dataloader pad_token_id is_general_preference
             (packing_samples args) loss_fn ptx_loss_fn
             (margin_loss args) (compute_fp32_loss args) wandb add_pretrain),
       evs ++ (if wandb then [EWandbInit] else []))
  end.

(** ** Local variables of a method

    The names whose being bound depends on the branch taken.  [None] is
    an unbound name. *)

Record Locals : Type := mkLocals {
  l_chosen_ids : option Tensor;
  l_c_mask : option Tensor;
  l_reject_ids : option Tensor;
  l_r_mask : option Tensor;
  l_packed_input_ids : option Tensor;
  l_packed_attention_masks : option Tensor;
  l_packed_seq_lens : option (list Z)
}.

(** The frame of a method that has just been entered. *)
Definition fresh_locals : Locals :=
  mkLocals None None None None None None None.

Definition bind_non_packed (l : Locals) (chosen_ids c_mask reject_ids r_mask : Tensor)
    : Locals :=
  mkLocals (Some chosen_ids) (Some c_mask) (Some reject_ids) (Some r_mask)
    (l_packed_input_ids l) (l_packed_attention_masks l) (l_packed_seq_lens l).

Definition bind_packed (l : Locals) (ids masks : Tensor) (lens : list Z) : Locals :=
  mkLocals (l_chosen_ids l) (l_c_mask l) (l_reject_ids l) (l_r_mask l)
    (Some ids) (Some masks) (Some lens).

Definition bind_chosen_ids (l : Locals) (chosen_ids : Tensor) : Locals :=
  mkLocals (Some chosen_ids) (l_c_mask l) (l_reject_ids l) (l_r_mask l)
    (l_packed_input_ids l) (l_packed_attention_masks l) (l_packed_seq_lens l).

(** ** The monad of a method body

    A computation reads the calls made before it started and the
    locals, and returns an outcome, the locals it leaves and the calls
    it made itself.  What was done before an exception is kept. *)

Definition M (A : Type) : Type :=
  list event -> Locals -> outcome A * Locals * list event.

Definition ret {A} (a : A) : M A :=
  fun _ l => (Ok a, l, []).

Definition raise {A} (e : exn) : M A :=
  fun _ l => (Raise e, l, []).

Definition bind {A B} (m : M A) (k : A -> M B) : M B :=
  fun h l =>
    match m h l with
    | (Ok a, l1, ev1) =>
        match k a (h ++ ev1) l1 with
        | (r, l2, ev2) => (r, l2, ev1 ++ ev2)
        end
    | (Raise e, l1, ev1) => (Raise e, l1, ev1)
    end.

Declare Scope monad_scope.
Delimit Scope monad_scope with monad.

Notation "x <- m ;; k" := (bind m (fun x => k))
  (at level 100, m at next level, right associativity) : monad_scope.
Notation "' p <- m ;; k" := (bind m (fun x => match x with p => k end))
  (at level 100, p pattern, m at next level, right associativity) : monad_scope.
Notation "m ;; k" := (bind m (fun _ => k))
  (at level 100, right associativity) : monad_scope.

Open Scope monad_scope.

Definition lift {A} (o : outcome A) : M A :=
  fun _ l => (o, l, []).

Definition emit (e : event) : M unit :=
  fun _ l => (Ok tt, l, [e]).

(** The answer of a collaborator to the call just recorded. *)
Definition ask {A} (f : list event -> A) : M A :=
  fun h l => (Ok (f h), l, []).

(** Binding local names. *)
Definition modify_locals (g : Locals -> Locals) : M unit :=
  fun _ l => (Ok tt, g l, []).

(** Reading a local name. *)
Definition read_local {A} (name : string) (field : Locals -> option A) : M A :=
  fun _ l =>
    match field l with
    | Some v => (Ok v, l, [])
    | None => (Raise (UnboundLocalError name), l, [])
    end.

(** A method call: the callee starts from a frame of its own and the
    caller's locals are untouched. *)
Definition call_method {A} (m : M A) : M A :=
  fun h l =>
    match m h fresh_locals with
    | (r, _, ev) => (r, l, ev)
    end.

(** [with torch.no_grad(): body]; the context is left on an exception
    too. *)
Definition with_no_grad {A} (body : M A) : M A :=
  fun h l =>
    match body (h ++ [ENoGradEnter]) l with
    | (r, l1, ev) => (r, l1, ENoGradEnter :: ev ++ [ENoGradExit])
    end.

(** [for x in xs: s = body(x, s)] *)
Fixpoint for_each {A S} (body : A -> S -> M S) (xs : list A) (s : S) : M S :=
  match xs with
  | [] => ret s
  | x :: xs' => s1 <- body x s ;; for_each body xs' s1
  end.

(** ** Tensor helpers used by [fit] and [evaluate] *)

Definition sumQ (l : list Q) : Q := fold_right Qplus 0%Q l.

(** [t.mean().item()]; the mean of no element is [nan] in torch and is
    left as [0] here. *)
Definition mean (l : list Q) : Q :=
  (sumQ l / inject_Z (Z.of_nat (length l)))%Q.

(** [(probs > 0.5).float()] *)
Definition gt_half (probs : list Q) : list Q :=
  map (fun p => if Qle_bool p (1 # 2) then 0%Q else 1%Q) probs.

(** [t.item()] needs a tensor of one element. *)
Definition item (t : list Q) : outcome Q :=
  match t with
  | [x] => Ok x
  | _ => Raise RuntimeError
  end.

(** [a / n] with [n] an [int]. *)
Definition py_truediv (a : Q) (n : Z) : outcome Q :=
  if n =? 0 then Raise ZeroDivisionError else Ok (a / inject_Z n)%Q.

(** [outputs["last_hidden_state"]] *)
Definition last_hidden_state (outputs : Outputs) : outcome Hidden :=
  match outputs with
  | Some hs => Ok hs
  | None => Raise TypeError
  end.

Fixpoint gather_rows (rows : list (list (list Q))) (index : list Z)
    : outcome (list (list Q)) :=
  match index with
  | [] => Ok []
  | i :: index' =>
      match rows with
      | [] => Raise RuntimeError
      | row :: rows' =>
          if i <? 0 then Raise RuntimeError
          else
            match nth_error row (Z.to_nat i) with
            | None => Raise RuntimeError
            | Some v => obind (gather_rows rows' index') (fun vs => Ok (v :: vs))
            end
      end
  end.

(** The rows [t[:batch_size, :, :]] of the hidden state, expanded to
    one row per index when there is a single one, then
    [torch.gather(t, dim=1, index).squeeze(1)]: for each sample the
    hidden vector at its index. *)
Definition gather_prompt (hs : Hidden) (batch_size : nat) (index : list Z)
    : outcome (list (list Q)) :=
  let chosen_last_hidden_states := firstn batch_size (h_rows hs) in
  let expanded :=
    match chosen_last_hidden_states with
    | [row] => repeat row (length index)
    | _ => chosen_last_hidden_states
    end in
  gather_rows expanded index.

(** [torch.where(mask.bool(), ids, ignore_index)] *)
Definition where_mask (mask ids : Tensor) (ignore_index : Z) : Tensor :=
  mkTensor (t_rows ids) (t_cols ids)
    (map (fun p =>
            map (fun q => if fst q =? 0 then ignore_index else snd q)
                (combine (fst p) (snd p)))
         (combine (t_data mask) (t_data ids))).

(** [t[:, :n]] and [t[:, n:]] *)
Definition cols_to (t : Tensor) (n : Z) : Tensor :=
  let k := norm_bound n (t_cols t) in
  mkTensor (t_rows t) k (map (firstn k) (t_data t)).

Definition cols_from (t : Tensor) (n : Z) : Tensor :=
  let k := norm_bound n (t_cols t) in
  mkTensor (t_rows t) (t_cols t - k) (map (skipn k) (t_data t)).

(** [len(x)] *)
Definition py_len (x : pyarg) : outcome nat :=
  match x with
  | PTensor t => Ok (t_rows t)
  | PList l => Ok (length l)
  | PNone => Raise TypeError
  end.

Definition prefix_keys (ns : string) (m : Metrics) : Metrics :=
  map (fun kv => ((ns ++ fst kv)%string, snd kv)) m.

Section Methods.

Variable C : Collaborators.

(** [self.ptx_loss_fn.IGNORE_INDEX], a constant of the loss class. *)
Variable IGNORE_INDEX : Z.

Variable self : Trainer.

(** ** [concatenated_forward]

<<
    if not self.packing_samples:
        input_ids, att_masks = self.concatenated_inputs(chosen_ids, c_mask, reject_ids, r_mask)
        all_values, outputs = model.custom_forward(input_ids, attention_mask=att_masks, return_output=return_output)
        chosen_rewards = all_values[: chosen_ids.shape[0]]
        rejected_rewards = all_values[chosen_ids.shape[0] :]
    else:
        all_values, outputs = model.custom_forward(
            chosen_ids, attention_mask=c_mask, return_output=return_output,
            ring_attn_group=..., packed_seq_lens=reject_ids)
        num_sequences = len(reject_ids)
        num_chosen = num_sequences // 2
        chosen_rewards = all_values[:num_chosen]
        rejected_rewards = all_values[num_chosen:num_sequences]
    return chosen_rewards, rejected_rewards, outputs
>> *)
Definition concatenated_forward (chosen_ids c_mask reject_ids r_mask : pyarg)
    (return_output : bool) : M (Values * Values * Outputs) :=
  if negb (self_packing_samples self) then
    match chosen_ids, c_mask, reject_ids, r_mask with
    | PTensor ci, PTensor cm, PTensor ri, PTensor rm =>
        ' (input_ids, att_masks) <-
            lift (concatenated_inputs (pad_token_id self) ci cm ri rm) ;;
        let call := mkForwardCall (PTensor input_ids) (PTensor att_masks)
                      return_output None None in
        emit (ECustomForward call) ;;
        ' (all_values, outputs) <- ask (fun h => custom_forward C h call) ;;
        let chosen_rewards := firstn (t_rows ci) all_values in
        let rejected_rewards := skipn (t_rows ci) all_values in
        ret (chosen_rewards, rejected_rewards, outputs)
    | _, _, _, _ => raise AttributeError
    end
  else
    let call := mkForwardCall chosen_ids c_mask return_output
                  (ring_attn_group (strategy self)) (Some reject_ids) in
    emit (ECustomForward call) ;;
    ' (all_values, outputs) <- ask (fun h => custom_forward C h call) ;;
    num_sequences <- lift (py_len reject_ids) ;;
    let num_chosen := (num_sequences / 2)%nat in
    let chosen_rewards := firstn num_chosen all_values in
    let rejected_rewards := slice num_chosen num_sequences all_values in
    ret (chosen_rewards, rejected_rewards, outputs).

(** [preference_loss, probs = self.loss_fn(...)] *)
Definition call_loss_fn (args : list LossArg) : M (Q * list Q) :=
  emit (ELossFn (loss_fn self) args) ;;
  ask (fun h => loss_fn_call C h (loss_fn self) args).

(** ** [evaluate]: one batch of the loop (lines 438-486)

<<
    if not self.packing_samples:
        chosen_ids, c_mask, reject_ids, r_mask, margin, chosen_response_len = data
    else:
        packed_input_ids, packed_attention_masks, packed_seq_lens, margin, chosen_response_lens = data
    margin = torch.tensor(margin)
    return_output = True if isinstance(self.loss_fn, HighDimGeneralPreferenceRegressionMoELoss) else False
    if not self.packing_samples:
        chosen_reward, reject_reward, outputs = self.concatenated_forward(
            self.model, chosen_ids, c_mask, reject_ids, r_mask, return_output)
    else:
        chosen_reward, reject_reward, outputs = self.concatenated_forward(
            self.model, packed_input_ids, packed_attention_masks, packed_seq_lens, None, return_output)
    if isinstance(self.loss_fn, HighDimGeneralPreferenceRegressionMoELoss):
        chosen_last_hidden_states = outputs["last_hidden_state"][: chosen_ids.shape[0], :, :]
        prompt_len = chosen_last_hidden_states.size(1) - chosen_response_len
        ...
        prompt_hidden_state = torch.gather(chosen_last_hidden_states, dim=1, index=prompt_len_expanded).squeeze(1)
        preference_loss, prob = self.loss_fn(chosen_reward, reject_reward, prompt_hidden_state, margin)
    else:
        preference_loss, prob = self.loss_fn(chosen_reward, reject_reward, margin)
    loss = preference_loss
    loss_sum += loss.item()
    prob_sum += prob.item()
>> *)

(** Unpacking [data] into the names of the padded or of the packed
    path; a tuple of the other arity is a [ValueError]. *)
Definition unpack_batch (data : Batch) : M (list Q * list Z) :=
  if negb (self_packing_samples self) then
    match data with
    | NonPackedBatch chosen_ids c_mask reject_ids r_mask margin chosen_response_len =>
        modify_locals (fun l =>
          bind_non_packed l chosen_ids c_mask reject_ids r_mask) ;;
        ret (margin, chosen_response_len)
    | PackedBatch _ _ _ _ _ => raise ValueError
    end
  else
    match data with
    | PackedBatch packed_input_ids packed_attention_masks packed_seq_lens
        margin chosen_response_lens =>
        modify_locals (fun l =>
          bind_packed l packed_input_ids packed_attention_masks
            packed_seq_lens) ;;
        ret (margin, chosen_response_lens)
    | NonPackedBatch _ _ _ _ _ _ => raise ValueError
    end.

(** The forward call on the names the current path has bound. *)
Definition forward_current_path (return_output : bool)
    : M (Values * Values * Outputs) :=
  if negb (self_packing_samples self) then
    chosen_ids <- read_local "chosen_ids" l_chosen_ids ;;
    c_mask <- read_local "c_mask" l_c_mask ;;
    reject_ids <- read_local "reject_ids" l_reject_ids ;;
    r_mask <- read_local "r_mask" l_r_mask ;;
    concatenated_forward (PTensor chosen_ids) (PTensor c_mask)
      (PTensor reject_ids) (PTensor r_mask) return_output
  else
    packed_input_ids <- read_local "packed_input_ids" l_packed_input_ids ;;
    packed_attention_masks <-
      read_local "packed_attention_masks" l_packed_attention_masks ;;
    packed_seq_lens <- read_local "packed_seq_lens" l_packed_seq_lens ;;
    concatenated_forward (PTensor packed_input_ids)
      (PTensor packed_attention_masks) (PList packed_seq_lens) PNone
      return_output.

Definition evaluate_batch (data : Batch) (sums : Q * Q) : M (Q * Q) :=
  let '(loss_sum, prob_sum) := sums in
  ' (margin, chosen_response_len) <- unpack_batch data ;;
  let margin := Some margin in
  let return_output :=
    if is_HighDimGeneralPreferenceRegressionMoELoss (loss_fn self)
    then true else false in
  ' (chosen_reward, reject_reward, outputs) <-
      forward_current_path return_output ;;
  ' (preference_loss, prob) <-
      (if is_HighDimGeneralPreferenceRegressionMoELoss (loss_fn self) then
         hs <- lift (last_hidden_state outputs) ;;
         chosen_ids <- read_local "chosen_ids" l_chosen_ids ;;
         let prompt_len :=
           map (fun crl => Z.of_nat (h_seq hs) - crl) chosen_response_len in
         prompt_hidden_state <-
           lift (gather_prompt hs (t_rows chosen_ids) prompt_len) ;;
         call_loss_fn [LRewards chosen_reward; LRewards reject_reward;
                       LHidden prompt_hidden_state; LMargin margin]
       else
         call_loss_fn [LRewards chosen_reward; LRewards reject_reward;
                       LMargin margin]) ;;
  let loss := preference_loss in
  p <- lift (item prob) ;;
  ret ((loss_sum + loss)%Q, (prob_sum + p)%Q).

(** ** [evaluate]

<<
    self.model.eval()
    with torch.no_grad():
        loss_sum = 0
        prob_sum = 0
        for data in eval_dataloader: ...
        loss_mean = loss_sum / self.eval_dataloader.__len__()
        prob_mean = prob_sum / self.eval_dataloader.__len__()
        bar_dict = {"eval_loss_mean": loss_mean, "prob_mean": prob_mean}
        logs = self.strategy.all_reduce(bar_dict)
        if self._wandb is not None and self.strategy.is_rank_0():
            logs = {"eval/%s" % k: v for k, v in {**logs, "global_step": steps}.items()}
            self._wandb.log(logs)
    self.model.train()
    torch.cuda.empty_cache()
    if self.strategy.is_rank_0():
        return loss_mean
>> *)
Definition evaluate (eval_dataloader_arg : list Batch) (steps : Z)
    : M (option Q) :=
  call_method (
    emit EModelEval ;;
    loss_mean <- with_no_grad (
      ' (loss_sum, prob_sum) <-
          for_each evaluate_batch eval_dataloader_arg (0%Q, 0%Q) ;;
      let n := Z.of_nat (length (eval_dataloader self)) in
      loss_mean <- lift (py_truediv loss_sum n) ;;
      prob_mean <- lift (py_truediv prob_sum n) ;;
      let bar_dict := [("eval_loss_mean"%string, loss_mean);
                       ("prob_mean"%string, prob_mean)] in
      emit (EAllReduce bar_dict) ;;
      logs <- ask (fun h => all_reduce C h bar_dict) ;;
      (if _wandb self && is_rank_0 (strategy self) then
         emit (EWandbLog (prefix_keys "eval/"
                 (logs ++ [("global_step"%string, inject_Z steps)])))
       else ret tt) ;;
      ret loss_mean) ;;
    emit EModelTrain ;;
    emit EEmptyCache ;;
    ret (if is_rank_0 (strategy self) then Some loss_mean else None)).

(** ** [save_logs_and_checkpoints]

<<
    if global_step % args.logging_steps == 0:
        logs_dict = self.strategy.all_reduce(logs_dict)
        step_bar.set_postfix(logs_dict)
        if self._wandb is not None and self.strategy.is_rank_0():
            logs = {"train/%s" % k: v for k, v in {**logs_dict, "global_step": global_step}.items()}
            self._wandb.log(logs)
    if global_step % args.eval_steps == 0:
        self.evaluate(self.eval_dataloader, global_step)
    if global_step % args.save_steps == 0:
        tag = f"global_step{global_step}"
        self.strategy.save_ckpt(self.model, args.ckpt_path, tag, args.max_ckpt_num, args.max_ckpt_mem, client_states)
>> *)

(** [global_step % s == 0]; with [s] infinite the remainder is
    [global_step] itself when it is not negative, and infinite
    otherwise. *)
Definition divides (s : steps) (global_step : Z) : outcome bool :=
  match s with
  | Finite n => obind (py_mod global_step n) (fun r => Ok (r =? 0))
  | Infinite => Ok (global_step =? 0)
  end.

Definition checkpoint_tag (global_step : Z) : string :=
  ("global_step" ++ py_str global_step)%string.

Definition save_logs_and_checkpoints (args : Args) (global_step : Z)
    (logs_dict : Metrics) (client_states : list (string * Z)) : M unit :=
  log_now <- lift (divides (Finite (logging_steps args)) global_step) ;;
  (if log_now : bool then
     emit (EAllReduce logs_dict) ;;
     logs_dict <- ask (fun h => all_reduce C h logs_dict) ;;
     if _wandb self && is_rank_0 (strategy self) then
       emit (EWandbLog (prefix_keys "train/"
               (logs_dict ++ [("global_step"%string, inject_Z global_step)])))
     else ret tt
   else ret tt) ;;
  eval_now <- lift (divides (Finite (eval_steps args)) global_step) ;;
  (if eval_now : bool then
     _ <- evaluate (eval_dataloader self) global_step ;; ret tt
   else ret tt) ;;
  save_now <- lift (divides (save_steps args) global_step) ;;
  if save_now : bool then
    let tag := checkpoint_tag global_step in
    emit (ESaveCkpt tag client_states)
  else ret tt.

(** ** [fit]: the state carried from one micro-batch to the next *)

Record LoopState : Type := mkLoop {
  step : Z;
  acc_mean : Q;
  prob_mean : Q;
  loss_mean : Q
}.

(** Lines 207-211 and again 287-291:
<<
    acc = (probs > 0.5).float().mean().item()
    acc_mean = acc_mean * 0.9 + 0.1 * acc
    prob_mean = prob_mean * 0.9 + 0.1 * probs.mean().item()
    loss_mean = loss_mean * 0.9 + 0.1 * preference_loss.item()
>> *)
Definition accuracy (probs : list Q) : Q := mean (gt_half probs).

Definition ema (m x : Q) : Q := (m * (9 # 10) + (1 # 10) * x)%Q.

Definition ema_update (ls : LoopState) (preference_loss : Q) (probs : list Q)
    : LoopState :=
  let acc := accuracy probs in
  mkLoop (step ls)
    (ema (acc_mean ls) acc)
    (ema (prob_mean ls) (mean probs))
    (ema (loss_mean ls) preference_loss).

(** [True if isinstance(self.loss_fn, HighDimGeneralPreferenceRegressionMoELoss)
     or isinstance(self.loss_fn, HighDimGeneralPreferenceMoELoss) else False] *)
Definition needs_prompt_hidden_state : bool :=
  is_HighDimGeneralPreferenceRegressionMoELoss (loss_fn self)
  || is_HighDimGeneralPreferenceMoELoss (loss_fn self).

(** Lines 187-205: the loss on the rewards of the first forward pass.
<<
    if isinstance(self.loss_fn, (HighDimGeneralPreferenceRegressionMoELoss, HighDimGeneralPreferenceMoELoss)):
        last_hidden_states = outputs["last_hidden_state"]
        batch_size = len(packed_seq_lens) // 2 if self.packing_samples else chosen_ids.shape[0]
        chosen_last_hidden_states = last_hidden_states[:batch_size, :, :]
        prompt_end_index = chosen_last_hidden_states.size(1) - chosen_response_len - 1
        ...
        preference_loss, probs = self.loss_fn(chosen_reward, reject_reward, prompt_hidden_state, margin)
    else:
        preference_loss, probs = self.loss_fn(chosen_reward, reject_reward, margin)
>> *)
Definition preference_loss_first (margin : option (list Q))
    (chosen_response_len : list Z) (chosen_reward reject_reward : Values)
    (outputs : Outputs) : M (Q * list Q) :=
  if needs_prompt_hidden_state then
    last_hidden_states <- lift (last_hidden_state outputs) ;;
    batch_size <-
      (if self_packing_samples self then
         packed_seq_lens <- read_local "packed_seq_lens" l_packed_seq_lens ;;
         ret (length packed_seq_lens / 2)%nat
       else
         chosen_ids <- read_local "chosen_ids" l_chosen_ids ;;
         ret (t_rows chosen_ids)) ;;
    let prompt_end_index :=
      map (fun crl => Z.of_nat (h_seq last_hidden_states) - crl - 1)
          chosen_response_len in
    prompt_hidden_state <-
      lift (gather_prompt last_hidden_states batch_size prompt_end_index) ;;
    call_loss_fn [LRewards chosen_reward; LRewards reject_reward;
                  LHidden prompt_hidden_state; LMargin margin]
  else
    call_loss_fn [LRewards chosen_reward; LRewards reject_reward;
                  LMargin margin].

(** Lines 271-285: the same, with
    [outputs["last_hidden_state"][: chosen_ids.shape[0], :, :]] on both
    paths. *)
Definition preference_loss_second (margin : option (list Q))
    (chosen_response_len : list Z) (chosen_reward reject_reward : Values)
    (outputs : Outputs) : M (Q * list Q) :=
  if needs_prompt_hidden_state then
    hs <- lift (last_hidden_state outputs) ;;
    chosen_ids <- read_local "chosen_ids" l_chosen_ids ;;
    let prompt_end_index :=
      map (fun crl => Z.of_nat (h_seq hs) - crl - 1) chosen_response_len in
    prompt_hidden_state <-
      lift (gather_prompt hs (t_rows chosen_ids) prompt_end_index) ;;
    call_loss_fn [LRewards chosen_reward; LRewards reject_reward;
                  LHidden prompt_hidden_state; LMargin margin]
  else
    call_loss_fn [LRewards chosen_reward; LRewards reject_reward;
                  LMargin margin].

(** [output = self.model.forward(ids, attention_mask=mask)];
    [label = torch.where(mask.bool(), ids, IGNORE_INDEX)];
    [output["logits"]] *)
Definition forward_logits (ids mask : Tensor) : M (Logits * Tensor) :=
  emit (EModelForward ids mask) ;;
  logits <- ask (fun h => model_forward C h ids mask) ;;
  ret (logits, where_mask mask ids IGNORE_INDEX).

Definition call_ptx_loss_fn (args : list PtxArg) : M Q :=
  emit (EPtxLossFn args) ;;
  ask (fun h => ptx_loss_fn_call C h (ptx_loss_fn self) args).

(** [self.ptx_loss_fn(ptx_log_probs, ptx_label, mask.bool())] on one
    sequence tensor. *)
Definition ptx_single (ids mask : Tensor) : M Q :=
  ' (ptx_log_probs, ptx_label) <- forward_logits ids mask ;;
  call_ptx_loss_fn [PLogits ptx_log_probs; PLabel ptx_label; PMask mask].

(** Lines 216-230 and 296-313: chosen against rejected, padded path. *)
Definition ptx_pair_non_packed : M Q :=
  chosen_ids <- read_local "chosen_ids" l_chosen_ids ;;
  c_mask <- read_local "c_mask" l_c_mask ;;
  ' (chosen_log_probs, chosen_label) <- forward_logits chosen_ids c_mask ;;
  reject_ids <- read_local "reject_ids" l_reject_ids ;;
  r_mask <- read_local "r_mask" l_r_mask ;;
  ' (rejected_log_probs, rejected_label) <- forward_logits reject_ids r_mask ;;
  call_ptx_loss_fn [PLogits chosen_log_probs; PLabel chosen_label; PMask c_mask;
                    PLogits rejected_log_probs; PLabel rejected_label;
                    PMask r_mask].

(** Lines 232-239 and 346-353: the chosen sequences as bound. *)
Definition ptx_chosen_bound : M Q :=
  chosen_ids <- read_local "chosen_ids" l_chosen_ids ;;
  c_mask <- read_local "c_mask" l_c_mask ;;
  ptx_single chosen_ids c_mask.

(** Lines 247-252, 316-324 and 356-361: the chosen part of a packed
    buffer; [chosen_ids] is rebound.
<<
    num_sequences = len(packed_seq_lens)
    num_chosen = num_sequences // 2
    chosen_seq_lens = packed_seq_lens[:num_chosen]
    chosen_total_len = sum(chosen_seq_lens)
    chosen_ids = packed_input_ids[:, :chosen_total_len]
    chosen_attn_mask = packed_attention_masks[:, :chosen_total_len]
>> *)
Definition split_packed_chosen : M (Z * Tensor * Tensor) :=
  packed_seq_lens <- read_local "packed_seq_lens" l_packed_seq_lens ;;
  let num_sequences := length packed_seq_lens in
  let num_chosen := (num_sequences / 2)%nat in
  let chosen_seq_lens := firstn num_chosen packed_seq_lens in
  let chosen_total_len := fold_right Z.add 0 chosen_seq_lens in
  packed_input_ids <- read_local "packed_input_ids" l_packed_input_ids ;;
  let chosen_ids := cols_to packed_input_ids chosen_total_len in
  modify_locals (fun l => bind_chosen_ids l chosen_ids) ;;
  packed_attention_masks <-
    read_local "packed_attention_masks" l_packed_attention_masks ;;
  let chosen_attn_mask := cols_to packed_attention_masks chosen_total_len in
  ret (chosen_total_len, chosen_ids, chosen_attn_mask).

(** Lines 247-265 and 356-370. *)
Definition ptx_chosen_packed : M Q :=
  ' (_, chosen_ids, chosen_attn_mask) <- split_packed_chosen ;;
  ptx_single chosen_ids chosen_attn_mask.

(** Lines 316-343: chosen against rejected, packed path. *)
Definition ptx_pair_packed : M Q :=
  ' (chosen_total_len, chosen_ids, chosen_attn_mask) <- split_packed_chosen ;;
  packed_input_ids <- read_local "packed_input_ids" l_packed_input_ids ;;
  let rejected_ids := cols_from packed_input_ids chosen_total_len in
  packed_attention_masks <-
    read_local "packed_attention_masks" l_packed_attention_masks ;;
  let rejected_attn_mask := cols_from packed_attention_masks chosen_total_len in
  ' (chosen_logits, chosen_label) <- forward_logits chosen_ids chosen_attn_mask ;;
  ' (rejected_logits, rejected_label) <-
      forward_logits rejected_ids rejected_attn_mask ;;
  call_ptx_loss_fn [PLogits chosen_logits; PLabel chosen_label;
                    PMask chosen_attn_mask; PLogits rejected_logits;
                    PLabel rejected_label; PMask rejected_attn_mask].

(** Lines 213-265: between the two loss computations.
<<
    if args.add_pretrain_loss:
        if isinstance(self.ptx_loss_fn, DPORefFreeLoss):
            if not self.packing_samples: ... chosen_reward_ptx_loss = self.ptx_loss_fn(6 arguments)
            else: ... chosen_reward_ptx_loss = self.ptx_loss_fn(ptx_log_probs, ptx_label, c_mask.bool())
    else:
        chosen_reward, reject_reward, outputs = self.concatenated_forward(
            self.model, packed_input_ids, packed_attention_masks, packed_seq_lens, None, return_output)
        if args.add_pretrain_loss: ...
>> *)
Definition second_forward (args : Args) (return_output : bool)
    (current : Values * Values * Outputs) : M (Values * Values * Outputs) :=
  if add_pretrain_loss args then
    (if is_DPORefFreeLoss (ptx_loss_fn self) then
       (if negb (self_packing_samples self) then
          _ <- ptx_pair_non_packed ;; ret tt
        else
          _ <- ptx_chosen_bound ;; ret tt)
     else ret tt) ;;
    ret current
  else
    packed_input_ids <- read_local "packed_input_ids" l_packed_input_ids ;;
    packed_attention_masks <-
      read_local "packed_attention_masks" l_packed_attention_masks ;;
    packed_seq_lens <- read_local "packed_seq_lens" l_packed_seq_lens ;;
    recomputed <-
      concatenated_forward (PTensor packed_input_ids)
        (PTensor packed_attention_masks) (PList packed_seq_lens) PNone
        return_output ;;
    (if add_pretrain_loss args then
       _ <- ptx_chosen_packed ;; ret tt
     else ret tt) ;;
    ret recomputed.

(** Lines 293-374: the loss handed to [backward].
<<
    if args.add_pretrain_loss:
        if isinstance(self.ptx_loss_fn, DPORefFreeLoss):
            if not self.packing_samples: ...
            else: ...
        else:
            if not self.packing_samples: ...
            else: ...
        loss = (1 - args.ptx_loss_coef) * preference_loss + chosen_reward_ptx_loss * args.ptx_loss_coef
    else:
        loss = preference_loss
>> *)
Definition total_loss (args : Args) (preference_loss : Q) : M Q :=
  if add_pretrain_loss args then
    chosen_reward_ptx_loss <-
      (if is_DPORefFreeLoss (ptx_loss_fn self) then
         if negb (self_packing_samples self) then ptx_pair_non_packed
         else ptx_pair_packed
       else
         if negb (self_packing_samples self) then ptx_chosen_bound
         else ptx_chosen_packed) ;;
    ret ((1 - ptx_loss_coef args) * preference_loss
         + chosen_reward_ptx_loss * ptx_loss_coef args)%Q
  else
    ret preference_loss.

(** Lines 392-396:
<<
    if step % self.strategy.accumulated_gradient == 0:
        global_step = step // self.strategy.accumulated_gradient
        client_states = {"consumed_samples": global_step * args.train_batch_size}
        self.save_logs_and_checkpoints(args, global_step, step_bar, logs_dict, client_states)
>> *)
Definition cadence (args : Args) (step : Z) (logs_dict : Metrics) : M unit :=
  r <- lift (py_mod step (accumulated_gradient (strategy self))) ;;
  if r =? 0 then
    global_step <- lift (py_floordiv step (accumulated_gradient (strategy self))) ;;
    let client_states :=
      [("consumed_samples"%string, global_step * train_batch_size args)] in
    save_logs_and_checkpoints args global_step logs_dict client_states
  else ret tt.

(** What lines 158-211 leave for the rest of the iteration. *)
Record Forwarded : Type := mkForwarded {
  f_margin : option (list Q);
  f_chosen_response_len : list Z;
  f_chosen_reward : Values;
  f_reject_reward : Values;
  f_outputs : Outputs;
  f_ls : LoopState
}.

(** Lines 158-211: unpacking, forward pass, loss, moving averages. *)
Definition forward_and_loss (data : Batch) (ls : LoopState) : M Forwarded :=
  let return_output := if needs_prompt_hidden_state then true else false in
  (* 160-180 *)
  ' (margin, chosen_response_len) <- unpack_batch data ;;
  ' (chosen_reward, reject_reward, outputs) <-
      forward_current_path return_output ;;
  (* 182-185 *)
  let margin := if self_margin_loss self then Some margin else None in
  (* 187-211 *)
  ' (preference_loss, probs) <-
      preference_loss_first margin chosen_response_len chosen_reward
        reject_reward outputs ;;
  let ls := ema_update ls preference_loss probs in
  ret (mkForwarded margin chosen_response_len chosen_reward reject_reward
         outputs ls).

(** Lines 213-291: second forward pass, loss and moving averages again. *)
Definition second_loss (args : Args) (f : Forwarded)
    : M (Q * list Q * LoopState) :=
  let return_output := if needs_prompt_hidden_state then true else false in
  (* 213-265 *)
  ' (chosen_reward, reject_reward, outputs) <-
      second_forward args return_output
        (f_chosen_reward f, f_reject_reward f, f_outputs f) ;;
  (* 267-269: [.float()] leaves a rational as it is *)
  (* 271-291 *)
  ' (preference_loss, probs) <-
      preference_loss_second (f_margin f) (f_chosen_response_len f)
        chosen_reward reject_reward outputs ;;
  ret (preference_loss, probs, ema_update (f_ls f) preference_loss probs).

(** Lines 376-399: backward, optimizer step, logs, cadence, [step += 1]. *)
Definition step_and_log (args : Args) (preference_loss : Q) (probs : list Q)
    (ls : LoopState) (loss : Q) : M LoopState :=
  (* 376-379 *)
  emit (EBackward loss) ;;
  emit EOptimizerStep ;;
  (* 382-390 *)
  lr <- ask (fun h => get_last_lr C h) ;;
  let logs_dict :=
    [("loss"%string, preference_loss);
     ("loss_mean"%string, loss_mean ls);
     ("lr"%string, lr);
     ("acc"%string, accuracy probs);
     ("acc_mean"%string, acc_mean ls);
     ("probs"%string, mean probs);
     ("prob_mean"%string, prob_mean ls)] in
  (* 392-396 *)
  cadence args (step ls) logs_dict ;;
  (* 398 *)
  ret (mkLoop (step ls + 1) (acc_mean ls) (prob_mean ls) (loss_mean ls)).

(** The body of [for data in self.train_dataloader] (lines 158-399). *)
Definition train_step (args : Args) (data : Batch) (ls : LoopState)
    : M LoopState :=
  f <- forward_and_loss data ls ;;
  ' (preference_loss, probs, ls) <- second_loss args f ;;
  (* 293-374 *)
  loss <- total_loss args preference_loss ;;
  step_and_log args preference_loss probs ls loss.

(** Lines 152-155, at the top of every epoch:
<<
    self.model.train()
    acc_mean = 0
    prob_mean = 0
    loss_mean = 0
>> *)
Definition epoch_prologue (ls : LoopState) : LoopState :=
  mkLoop (step ls) 0 0 0.

(** The body of [for epoch in range(start_epoch, self.epochs)]. *)
Definition train_epoch (args : Args) (start_epoch consumed_samples : Z)
    (epoch : Z) (ls : LoopState) : M LoopState :=
  (if sampler_is_group self then
     emit (ESetEpoch epoch
             (if epoch >? start_epoch then 0 else consumed_samples))
   else ret tt) ;;
  emit EModelTrain ;;
  for_each (train_step args) (train_dataloader self) (epoch_prologue ls).

(** [range(a, b)] *)
Definition py_range (a b : Z) : list Z :=
  map (fun i => a + Z.of_nat i) (seq 0 (Z.to_nat (b - a))).

(** Lines 128-136: what [fit] derives from its arguments before the
    loop; [num_update_steps_per_epoch] defaults to [None].
<<
    if args.eval_steps == -1:
        args.eval_steps = num_update_steps_per_epoch
    if args.save_steps == -1:
        args.save_steps = float("inf")
    step = consumed_samples // args.train_batch_size * self.strategy.accumulated_gradient + 1
    start_epoch = consumed_samples // args.train_batch_size // num_update_steps_per_epoch
    consumed_samples = consumed_samples % (num_update_steps_per_epoch * args.train_batch_size)
>> *)
Record Resume : Type := mkResume {
  r_args : Args;
  r_step : Z;
  r_start_epoch : Z;
  r_consumed_samples : Z
}.

Definition restore (args : Args) (consumed_samples : Z)
    (num_update_steps_per_epoch : option Z) : outcome Resume :=
  obind (py_floordiv consumed_samples (train_batch_size args)) (fun q =>
  let step := q * accumulated_gradient (strategy self) + 1 in
  match num_update_steps_per_epoch with
  | None => Raise TypeError
  | Some s =>
      let args :=
        if eval_steps args =? -1 then set_eval_steps args s else args in
      let args :=
        match save_steps args with
        | Finite n => if n =? -1 then set_save_steps args Infinite else args
        | Infinite => args
        end in
      obind (py_floordiv q s) (fun start_epoch =>
      obind (py_mod consumed_samples (s * train_batch_size args)) (fun consumed =>
      Ok (mkResume args step start_epoch consumed)))
  end).

(** ** [fit] *)
Definition fit (args : Args) (consumed_samples : Z)
    (num_update_steps_per_epoch : option Z) : M LoopState :=
  r <- lift (restore args consumed_samples num_update_steps_per_epoch) ;;
  ls <- for_each
          (train_epoch (r_args r) (r_start_epoch r) (r_consumed_samples r))
          (py_range (r_start_epoch r) (epochs self))
          (mkLoop (r_step r) 0 0 0) ;;
  (if _wandb self && is_rank_0 (strategy self) then emit EWandbFinish
   else ret tt) ;;
  ret ls.

End Methods.

(** ** Concrete collaborators, trainers and batches

    Used to run the methods on explicit inputs. *)

Definition ex_rows (call : ForwardCall) : nat :=
  match fc_packed_seq_lens call with
  | Some x => match py_len x with Ok n => n | Raise _ => 0%nat end
  | None => match fc_input_ids call with PTensor t => t_rows t | _ => 0%nat end
  end.

Definition ex_cols (call : ForwardCall) : nat :=
  match fc_input_ids call with PTensor t => t_cols t | _ => 0%nat end.

(** One reward per sequence, [1, 2, ...]; when asked for, a hidden
    state whose vector at position [j] of every row is [[j]]. *)
Definition ex_custom_forward (_ : list event) (call : ForwardCall)
    : Values * Outputs :=
  (map (fun i => [inject_Z (Z.of_nat i)]) (seq 1 (ex_rows call)),
   if fc_return_output call
   then Some (mkHidden (ex_cols call)
                (repeat (map (fun j => [inject_Z (Z.of_nat j)])
                             (seq 0 (ex_cols call)))
                        (ex_rows call)))
   else None).

(** Every loss call answers loss [1] and a single probability [3/4]. *)
Definition ex_collaborators : Collaborators :=
  mkCollaborators
    ex_custom_forward
    (fun _ _ _ => (1%Q, [(3 # 4)%Q]))
    (fun _ _ _ => [])
    (fun _ _ _ => (1 # 2)%Q)
    (fun _ => (1 # 1000)%Q)
    (fun _ m => m).

Definition ex_ignore_index : Z := -100.

Definition ex_args (packing pretrain prompt_head : bool) : Args :=
  mkArgs prompt_head 1 false false packing false pretrain (1 # 10)
    1 (Finite 1) 1 128 "ckpt" 3 1000.

Definition ex_strategy (packing pretrain prompt_head : bool) : Strategy :=
  mkStrategy (ex_args packing pretrain prompt_head) 2 true None.

(** Two chosen and two rejected sequences packed in one row. *)
Definition ex_packed_batch : Batch :=
  PackedBatch (mkTensor 1 44 [repeat 7 44]) (mkTensor 1 44 [repeat 1 44])
    [10; 12; 10; 12] [0%Q; 0%Q] [3; 4].

(** One pair; the rejected sequence is one token shorter. *)
Definition ex_non_packed_batch : Batch :=
  NonPackedBatch (mkTensor 1 3 [[5; 6; 7]]) (mkTensor 1 3 [[1; 1; 1]])
    (mkTensor 1 2 [[8; 9]]) (mkTensor 1 2 [[1; 1]]) [0%Q] [1].

(** Packed samples, pairwise loss, two micro-batches per epoch, two
    epochs, gradient accumulation over two micro-batches. *)
Definition ex_packed_trainer : Trainer :=
  mkTrainer (ex_strategy true false false) 2
    [ex_packed_batch; ex_packed_batch] true [ex_packed_batch] 0
    false true (PairWiseLoss (1 # 10)) (SFTSumLoss 1) false false false false.

(** Padded samples, pairwise loss, no auxiliary loss. *)
Definition ex_non_packed_trainer : Trainer :=
  mkTrainer (ex_strategy false false false) 2
    [ex_non_packed_batch] true [ex_non_packed_batch] 0
    false false (PairWiseLoss (1 # 10)) (SFTSumLoss 1) false false false false.

(** Padded samples, prompt head, value head of dimension 4, auxiliary
    loss on. *)
Definition ex_moe_trainer : Trainer :=
  mkTrainer (ex_strategy false true true) 2
    [ex_non_packed_batch] true [ex_non_packed_batch] 0
    true false (HighDimGeneralPreferenceMoELoss 4 (1 # 10)) (SFTSumLoss 1)
    false false false true.

(** As [ex_moe_trainer], with the regression form of the
    mixture-of-experts loss, which [__init__] never selects. *)
Definition ex_regression_moe_trainer : Trainer :=
  mkTrainer (ex_strategy false true true) 2
    [ex_non_packed_batch] true [ex_non_packed_batch] 0
    true false (HighDimGeneralPreferenceRegressionMoELoss 4 1 (1 # 10))
    (SFTSumLoss 1) false false false true.

(** As [ex_packed_trainer], with no validation batch. *)
Definition ex_empty_eval_trainer : Trainer :=
  mkTrainer (ex_strategy true false false) 2
    [ex_packed_batch; ex_packed_batch] true [] 0
    false true (PairWiseLoss (1 # 10)) (SFTSumLoss 1) false false false false.

(** The calls to the loss function and to the model among some
    events. *)
Definition loss_calls (evs : list event) : list (list LossArg) :=
  flat_map (fun e => match e with ELossFn _ args => [args] | _ => [] end) evs.

Definition return_outputs (evs : list event) : list bool :=
  flat_map (fun e => match e with
                     | ECustomForward c => [fc_return_output c]
                     | _ => []
                     end) evs.

(** The events of a computation, and its outcome. *)
Definition events_of {A} (r : outcome A * Locals * list event) : list event :=
  snd r.

Definition outcome_of {A} (r : outcome A * Locals * list event) : outcome A :=
  fst (fst r).

Definition locals_of {A} (r : outcome A * Locals * list event) : Locals :=
  snd (fst r).

(** Events that only [save_logs_and_checkpoints] and [evaluate]
    produce inside a training iteration. *)
Definition is_cadence_event (e : event) : bool :=
  match e with
  | EAllReduce _ | EWandbLog _ | ESaveCkpt _ _
  | EModelEval | EModelTrain | ENoGradEnter | ENoGradExit | EEmptyCache => true
  | _ => false
  end.

Definition is_optimizer_step (e : event) : bool :=
  match e with
  | EOptimizerStep => true
  | _ => false
  end.

Definition is_backward (e : event) : bool :=
  match e with
  | EBackward _ => true
  | _ => false
  end.

(** ** Properties of computations *)

(** Every call made by [m] satisfies [P]. *)
Definition emits_only {A} (P : event -> Prop) (m : M A) : Prop :=
  forall h l, Forall P (events_of (m h l)).

(** [m] leaves the local name read by [field] as it found it. *)
Definition preserves {A B} (field : Locals -> option B) (m : M A) : Prop :=
  forall h l, field (locals_of (m h l)) = field l.

(** Started from locals satisfying [Inv], [m] makes only calls
    satisfying [P] and, when it returns, leaves locals satisfying
    [Inv]. *)
Definition guarded {A} (Inv : Locals -> Prop) (P : event -> Prop) (m : M A)
    : Prop :=
  forall h l,
    Inv l ->
    Forall P (events_of (m h l)) /\
    (raised (outcome_of (m h l)) = false -> Inv (locals_of (m h l))).

(** Neither [strategy.backward] nor [strategy.optimizer_step]. *)
Definition no_training_step (e : event) : Prop :=
  is_optimizer_step e = false /\ is_backward e = false.

Definition packed_unbound (l : Locals) : Prop :=
  l_packed_input_ids l = None.

(** Calls to the model and to the loss functions. *)
Definition is_compute_event (e : event) : bool :=
  match e with
  | ECustomForward _ | ELossFn _ _ | EModelForward _ _ | EPtxLossFn _ => true
  | _ => false
  end.

(** What [evaluate] may do: compute, switch modes, reduce and log. *)
Definition is_evaluate_event (e : event) : bool :=
  match e with
  | ECustomForward _ | ELossFn _ _
  | EModelEval | EModelTrain | ENoGradEnter | ENoGradExit
  | EAllReduce _ | EWandbLog _ | EEmptyCache => true
  | _ => false
  end.

(** ** Further event classes *)

(** Calls made for the auxiliary loss only: [self.model.forward] and
    [self.ptx_loss_fn]. *)
Definition is_auxiliary_event (e : event) : bool :=
  match e with
  | EModelForward _ _ | EPtxLossFn _ => true
  | _ => false
  end.

Definition is_save_ckpt (e : event) : bool :=
  match e with
  | ESaveCkpt _ _ => true
  | _ => false
  end.

Definition is_wandb_event (e : event) : bool :=
  match e with
  | EWandbInit | EWandbLog _ | EWandbFinish => true
  | _ => false
  end.

Definition is_model_train (e : event) : bool :=
  match e with
  | EModelTrain => true
  | _ => false
  end.

Definition is_all_reduce (e : event) : bool :=
  match e with
  | EAllReduce _ => true
  | _ => false
  end.

(** ** The entry point [train] of [openrlhf/cli/train_gpm.py] *)

(** A Python [float] is an IEEE 754 binary64 number: [spec_float] with
    53 bits of precision and exponents below 1024. *)
Definition float_one : spec_float :=
  S754_finite false 4503599627370496 (-52).

(** [float(n)] as [n * x] computes it for an [int] [n]: rounded to the
    nearest float, ties to even; past the largest float it is an
    [OverflowError]. *)
Definition float_of_int (n : Z) : outcome spec_float :=
  match binary_normalize 53 1024 n 0 false with
  | S754_infinity _ => Raise OverflowError
  | x => Ok x
  end.

(** [n * x] for an [int] [n] and a [float] [x]. *)
Definition mul_int_float (n : Z) (x : spec_float) : outcome spec_float :=
  obind (float_of_int n) (fun fn => Ok (SFmul 53 1024 fn x)).

(** [int(x)] for a [float] truncates towards zero; an infinity is an
    [OverflowError] and a nan a [ValueError]. *)
Definition py_int (x : spec_float) : outcome Z :=
  match x with
  | S754_zero _ => Ok 0
  | S754_infinity _ => Raise OverflowError
  | S754_nan => Raise ValueError
  | S754_finite s m e =>
      let magnitude :=
        if 0 <=? e then Z.pos m * 2 ^ e else Z.pos m / 2 ^ (- e) in
      Ok (if s then - magnitude else magnitude)
  end.

(** [dataset.select(indices)]: the rows at the indices, in order.  A
    negative index counts from the end; an index outside the dataset
    is an [IndexError]. *)
Fixpoint select {A} (data : list A) (indices : list Z) : outcome (list A) :=
  match indices with
  | [] => Ok []
  | i :: rest =>
      let j := if i <? 0 then i + Z.of_nat (length data) else i in
      if j <? 0 then Raise IndexError
      else
        match nth_error data (Z.to_nat j) with
        | None => Raise IndexError
        | Some x => obind (select data rest) (fun xs => Ok (x :: xs))
        end
  end.

(** Lines 57-65:
<<
    total_data_length = min(args.max_samples, len(total_data))
    if args.train_split_ratio < 1:
        split_index = int(total_data_length * args.train_split_ratio)
        train_data = total_data.select(range(split_index))
        eval_data = total_data.select(range(split_index, total_data_length))
    else:
        train_data = total_data
        eval_data = None
>> *)
Definition split_train_eval {A} (total_data : list A) (max_samples : Z)
    (train_split_ratio : spec_float) : outcome (list A * option (list A)) :=
  let total_data_length := Z.min max_samples (Z.of_nat (length total_data)) in
  if SFltb train_split_ratio float_one then
    obind (mul_int_float total_data_length train_split_ratio) (fun product =>
    obind (py_int product) (fun split_index =>
    obind (select total_data (py_range 0 split_index)) (fun train_data =>
    obind (select total_data (py_range split_index total_data_length))
      (fun eval_data =>
    Ok (train_data, Some eval_data)))))
  else
    Ok (total_data, None).

(** Line 105:
    [num_update_steps_per_epoch = len(train_dataset) // args.train_batch_size] *)
Definition cli_num_update_steps_per_epoch (train_dataset_len : Z) (args : Args)
    : outcome Z :=
  py_floordiv train_dataset_len (train_batch_size args).

(** Lines 105 and 157: the steps per epoch handed to
    [trainer.fit(args, consumed_samples, num_update_steps_per_epoch)]. *)
Definition cli_fit (C : Collaborators) (IGNORE_INDEX : Z) (self : Trainer)
    (args : Args) (train_dataset_len consumed_samples : Z) : M LoopState :=
  bind (lift (cli_num_update_steps_per_epoch train_dataset_len args))
    (fun num_update_steps_per_epoch =>
       fit C IGNORE_INDEX self args consumed_samples
         (Some num_update_steps_per_epoch)).

(** ** Further concrete inputs *)

(** The defaults of the command line for the three cadences:
    [--eval_steps -1 --save_steps -1 --logging_steps 1]. *)
Definition ex_default_args (packing pretrain : bool) : Args :=
  mkArgs false 1 false false packing false pretrain (1 # 10)
    (-1) (Finite (-1)) 1 128 "ckpt" 3 1000.

(** The auxiliary loss asked for with a coefficient of zero. *)
Definition ex_zero_coef_args : Args :=
  mkArgs false 1 false false false false true 0
    1 (Finite 1) 1 128 "ckpt" 3 1000.

(** A process that is not rank 0, with wandb asked for. *)
Definition ex_rank1_strategy : Strategy :=
  mkStrategy
    (mkArgs false 1 false false true true false (1 # 10)
       1 (Finite 1) 1 128 "ckpt" 3 1000)
    2 false None.

(** Packed samples with the prompt head. *)
Definition ex_packed_moe_trainer : Trainer :=
  mkTrainer (ex_strategy true false true) 2
    [ex_packed_batch; ex_packed_batch] true [ex_packed_batch] 0
    true true (HighDimGeneralPreferenceMoELoss 4 (1 # 10)) (SFTSumLoss 1)
    false false false false.

(** A loss that returns one probability per pair of a batch of two. *)
Definition ex_per_sample_collaborators : Collaborators :=
  mkCollaborators
    ex_custom_forward
    (fun _ _ _ => (1%Q, [(3 # 4)%Q; (1 # 4)%Q]))
    (fun _ _ _ => [])
    (fun _ _ _ => (1 # 2)%Q)
    (fun _ => (1 # 1000)%Q)
    (fun _ m => m).

(** The auxiliary loss asked for with a coefficient of zero, padded
    samples. *)
Definition ex_zero_coef_strategy : Strategy :=
  mkStrategy ex_zero_coef_args 2 true None.

Definition ex_zero_coef_trainer : Trainer :=
  mkTrainer ex_zero_coef_strategy 1 [ex_non_packed_batch] true
    [ex_non_packed_batch] 0 true false (GeneralPreferenceLoss (1 # 10))
    (SFTSumLoss 1) false false false false.

(** Whenever [m] returns, it has made a call satisfying [P]. *)
Definition calls {A} (P : event -> Prop) (m : M A) : Prop :=
  forall h l a l' ev, m h l = (Ok a, l', ev) -> Exists P ev.

Definition is_model_forward (e : event) : Prop :=
  exists ids mask, e = EModelForward ids mask.

Definition is_ptx_loss_fn (e : event) : Prop :=
  exists a, e = EPtxLossFn a.

Definition chosen_unbound (l : Locals) : Prop :=
  l_chosen_ids l = None.

(** The float [0.29], that is [5224175567749775 / 2^54]. *)
Definition ex_ratio_029 : spec_float :=
  S754_finite false 5224175567749775 (-54).

(** [self.evaluate(eval_dataloader, steps)] for an argument that may
    be [None], as the command line leaves it without a validation
    split: line 429 evaluates [eval_dataloader.__len__()] for the
    progress bar before anything else. *)
Definition evaluate_argument (C : Collaborators) (self : Trainer)
    (eval_dataloader_arg : option (list Batch)) (steps : Z)
    : M (option Q) :=
  match eval_dataloader_arg with
  | None => raise AttributeError
  | Some loader => evaluate C self loader steps
  end.

Definition is_loss_fn (e : event) : bool :=
  match e with
  | ELossFn _ _ => true
  | _ => false
  end.

(** The losses [self.loss_fn] returned at its calls among the events
    [evs] made after [h], in order. *)
Fixpoint loss_answers (C : Collaborators) (h evs : list event) : list Q :=
  match evs with
  | [] => []
  | e :: evs' =>
      match e with
      | ELossFn f a => [fst (loss_fn_call C (h ++ [e]) f a)]
      | _ => []
      end ++ loss_answers C (h ++ [e]) evs'
  end.

(** A loss that returns [1] at its first call, [2] at its second, and
    so on, with one probability. *)
Definition ex_counting_collaborators : Collaborators :=
  mkCollaborators
    ex_custom_forward
    (fun h _ _ =>
       (inject_Z (Z.of_nat (length (filter is_loss_fn h))), [(3 # 4)%Q]))
    (fun _ _ _ => [])
    (fun _ _ _ => (1 # 2)%Q)
    (fun _ => (1 # 1000)%Q)
    (fun _ m => m).

(** The packed trainer with two validation batches. *)
Definition ex_two_eval_batches_trainer : Trainer :=
  mkTrainer (ex_strategy true false false) 2
    [ex_packed_batch; ex_packed_batch] true [ex_packed_batch; ex_packed_batch]
    0 false true (PairWiseLoss (1 # 10)) (SFTSumLoss 1)
    false false false false.

(** * Properties *)

(** ** Padding *)

Lemma prepend_rows :
  forall (pad : list Z) (data : list (list Z)) (n : nat),
    length data = n ->
    map (fun p => fst p ++ snd p) (combine (repeat pad n) data)
    = map (fun row => pad ++ row) data.
Proof.
  intros pad data.
  induction data as [| row data IH]; intros n Hn.
  - destruct n; reflexivity.
  - destruct n as [| n]; [discriminate |].
    simpl. f_equal. apply IH. simpl in Hn. lia.
Qed.

Lemma pad_to_length_unchanged :
  forall (tensor : Tensor) (len pad_value : Z),
    len <= Z.of_nat (t_cols tensor) ->
    pad_to_length tensor len pad_value = Ok tensor.
Proof.
  intros tensor len pad_value Hle.
  unfold pad_to_length, pad_to_length_dim, size. simpl.
  destruct (Z.of_nat (t_cols tensor) >=? len) eqn:E; [reflexivity |].
  rewrite Z.geb_leb in E. apply Z.leb_gt in E. lia.
Qed.

Lemma pad_to_length_below :
  forall (tensor : Tensor) (len pad_value : Z),
    Z.of_nat (t_cols tensor) < len ->
    pad_to_length tensor len pad_value
    = Ok (mkTensor (t_rows tensor)
            (Z.to_nat (len - Z.of_nat (t_cols tensor)) + t_cols tensor)
            (map (fun p => fst p ++ snd p)
               (combine
                  (repeat (repeat (pad_value * 1)
                             (Z.to_nat (len - Z.of_nat (t_cols tensor))))
                          (t_rows tensor))
                  (t_data tensor)))).
Proof.
  intros tensor len pad_value Hlt.
  unfold pad_to_length, pad_to_length_dim, size. simpl.
  destruct (Z.of_nat (t_cols tensor) >=? len) eqn:E.
  - rewrite Z.geb_leb in E. apply Z.leb_le in E. lia.
  - unfold cat, cat_cols. simpl. rewrite Nat.eqb_refl. reflexivity.
Qed.

(** Padding never fails, whatever the shapes. *)
Lemma pad_to_length_total :
  forall (tensor : Tensor) (len pad_value : Z),
    exists padded,
      pad_to_length tensor len pad_value = Ok padded /\
      t_rows padded = t_rows tensor /\
      t_cols padded = Nat.max (t_cols tensor) (Z.to_nat len).
Proof.
  intros tensor len pad_value.
  destruct (Z_lt_le_dec (Z.of_nat (t_cols tensor)) len) as [Hlt | Hle].
  - rewrite pad_to_length_below by assumption.
    eexists. split; [reflexivity |]. simpl. split; [reflexivity | lia].
  - rewrite pad_to_length_unchanged by assumption.
    eexists. split; [reflexivity |]. split; [reflexivity | lia].
Qed.

(** The two halves always have the same width once padded, so the
    concatenation along the batch dimension never fails. *)
Lemma concatenated_inputs_total :
  forall pad_token_id chosen_ids c_mask reject_ids r_mask,
    exists input_ids att_masks,
      concatenated_inputs pad_token_id chosen_ids c_mask reject_ids r_mask
      = Ok (input_ids, att_masks).
Proof.
  intros pad chosen_ids c_mask reject_ids r_mask.
  unfold concatenated_inputs.
  destruct (pad_to_length_total chosen_ids
              (Z.of_nat (Nat.max (t_cols chosen_ids) (t_cols reject_ids))) pad)
    as (pc & Epc & _ & Hpc).
  destruct (pad_to_length_total reject_ids
              (Z.of_nat (Nat.max (t_cols chosen_ids) (t_cols reject_ids))) pad)
    as (pr & Epr & _ & Hpr).
  destruct (pad_to_length_total c_mask
              (Z.of_nat (Nat.max (t_cols c_mask) (t_cols r_mask))) 0)
    as (pcm & Epcm & _ & Hpcm).
  destruct (pad_to_length_total r_mask
              (Z.of_nat (Nat.max (t_cols c_mask) (t_cols r_mask))) 0)
    as (prm & Eprm & _ & Hprm).
  rewrite Epc, Epr. simpl.
  unfold cat at 1. simpl. unfold cat_rows.
  replace (t_cols pc =? t_cols pr)%nat with true
    by (symmetry; apply Nat.eqb_eq; lia).
  simpl. rewrite Epcm, Eprm. simpl.
  unfold cat. simpl. unfold cat_rows.
  replace (t_cols pcm =? t_cols prm)%nat with true
    by (symmetry; apply Nat.eqb_eq; lia).
  simpl. eauto.
Qed.

(** C10. [pad_to_length] returns a tensor already as long as the
    target unchanged; a shorter one comes back with exactly the target
    length, every row being the fill value repeated on the left
    followed by the original row; padding a second time changes
    nothing. *)
Theorem pad_to_length_left_pads_idempotent :
  forall (tensor : Tensor) (len pad_value : Z),
    wf_tensor tensor ->
    (len <= Z.of_nat (t_cols tensor) ->
       pad_to_length tensor len pad_value = Ok tensor) /\
    (Z.of_nat (t_cols tensor) < len ->
       exists padded,
         pad_to_length tensor len pad_value = Ok padded /\
         Z.of_nat (t_cols padded) = len /\
         t_rows padded = t_rows tensor /\
         t_data padded
         = map (fun row =>
                  repeat pad_value (Z.to_nat len - t_cols tensor) ++ row)
               (t_data tensor) /\
         wf_tensor padded) /\
    (forall padded,
       pad_to_length tensor len pad_value = Ok padded ->
       pad_to_length padded len pad_value = Ok padded).
Proof.
  intros tensor len pad_value [Hrows Hcols].
  split; [apply pad_to_length_unchanged |].
  split.
  - intros Hlt. rewrite pad_to_length_below by assumption.
    eexists. split; [reflexivity |]. simpl.
    rewrite Z.mul_1_r, prepend_rows by assumption.
    replace (Z.to_nat (len - Z.of_nat (t_cols tensor)))
      with (Z.to_nat len - t_cols tensor)%nat by lia.
    split; [lia |]. split; [reflexivity |]. split; [reflexivity |].
    split; simpl.
    + rewrite length_map. assumption.
    + apply Forall_map.
      apply Forall_impl with (2 := Hcols).
      intros row Hrow. rewrite length_app, repeat_length. lia.
  - intros padded Hpad.
    destruct (Z_lt_le_dec (Z.of_nat (t_cols tensor)) len) as [Hlt | Hle].
    + rewrite pad_to_length_below in Hpad by assumption.
      injection Hpad as <-. apply pad_to_length_unchanged. simpl. lia.
    + rewrite pad_to_length_unchanged in Hpad by assumption.
      injection Hpad as <-. apply pad_to_length_unchanged. assumption.
Qed.

Lemma pad_to_length_left_pads_idempotent_witness :
  wf_tensor (mkTensor 1 2 [[8; 9]]) /\
  pad_to_length (mkTensor 1 2 [[8; 9]]) 2 0 = Ok (mkTensor 1 2 [[8; 9]]) /\
  (exists padded,
     pad_to_length (mkTensor 1 2 [[8; 9]]) 3 0 = Ok padded /\
     Z.of_nat (t_cols padded) = 3 /\
     t_rows padded = 1%nat /\
     t_data padded = [[0; 8; 9]] /\
     wf_tensor padded) /\
  pad_to_length (mkTensor 1 3 [[0; 8; 9]]) 3 0 = Ok (mkTensor 1 3 [[0; 8; 9]]).
Proof.
  assert (Hwf : wf_tensor (mkTensor 1 2 [[8; 9]])).
  { split; [reflexivity | repeat constructor]. }
  split; [exact Hwf |].
  destruct (pad_to_length_left_pads_idempotent (mkTensor 1 2 [[8; 9]]) 2 0 Hwf)
    as (Hsame & _ & _).
  destruct (pad_to_length_left_pads_idempotent (mkTensor 1 2 [[8; 9]]) 3 0 Hwf)
    as (_ & Hpad & Hagain).
  split; [apply Hsame; simpl; lia |].
  split; [apply Hpad; simpl; lia |].
  apply Hagain. reflexivity.
Defined.

(** ** The monad *)

Section MonadFacts.

Context {A B : Type}.

Lemma bind_ok_inv :
  forall (m : M A) (k : A -> M B) h l b l2 ev,
    bind m k h l = (Ok b, l2, ev) ->
    exists a l1 ev1 ev2,
      m h l = (Ok a, l1, ev1) /\
      k a (h ++ ev1) l1 = (Ok b, l2, ev2) /\
      ev = ev1 ++ ev2.
Proof.
  intros m k h l b l2 ev Hbind. unfold bind in Hbind.
  destruct (m h l) as [[[a | e] l1] ev1]; [| discriminate].
  destruct (k a (h ++ ev1) l1) as [[r l2'] ev2] eqn:Hk.
  injection Hbind as -> -> <-.
  exists a, l1, ev1, ev2. auto.
Qed.

Lemma bind_raise_left :
  forall (m : M A) (k : A -> M B) h l e l1 ev1,
    m h l = (Raise e, l1, ev1) ->
    bind m k h l = (Raise e, l1, ev1).
Proof.
  intros m k h l e l1 ev1 Hm. unfold bind. rewrite Hm. reflexivity.
Qed.

Lemma bind_ok_left :
  forall (m : M A) (k : A -> M B) h l a l1 ev1,
    m h l = (Ok a, l1, ev1) ->
    bind m k h l
    = (outcome_of (k a (h ++ ev1) l1), locals_of (k a (h ++ ev1) l1),
       ev1 ++ events_of (k a (h ++ ev1) l1)).
Proof.
  intros m k h l a l1 ev1 Hm. unfold bind. rewrite Hm.
  destruct (k a (h ++ ev1) l1) as [[r l2] ev2]. reflexivity.
Qed.

Variable P : event -> Prop.

Lemma emits_bind :
  forall (m : M A) (k : A -> M B),
    emits_only P m -> (forall a, emits_only P (k a)) ->
    emits_only P (bind m k).
Proof.
  intros m k Hm Hk h l. unfold bind.
  specialize (Hm h l). destruct (m h l) as [[[a | e] l1] ev1]; [| exact Hm].
  specialize (Hk a (h ++ ev1) l1).
  destruct (k a (h ++ ev1) l1) as [[r l2] ev2].
  unfold events_of in *. simpl in *. apply Forall_app. auto.
Qed.

Lemma emits_ret : forall a : A, emits_only P (ret a).
Proof. intros a h l. constructor. Qed.

Lemma emits_raise : forall e, emits_only P (@raise A e).
Proof. intros e h l. constructor. Qed.

Lemma emits_lift : forall o : outcome A, emits_only P (lift o).
Proof. intros o h l. constructor. Qed.

Lemma emits_ask : forall f : list event -> A, emits_only P (ask f).
Proof. intros f h l. constructor. Qed.

Lemma emits_read_local :
  forall name (field : Locals -> option A), emits_only P (read_local name field).
Proof.
  intros name field h l. unfold read_local.
  destruct (field l); constructor.
Qed.

Lemma emits_call_method :
  forall m : M A, emits_only P m -> emits_only P (call_method m).
Proof.
  intros m Hm h l. unfold call_method.
  specialize (Hm h fresh_locals).
  destruct (m h fresh_locals) as [[r l1] ev]. exact Hm.
Qed.

Lemma emits_with_no_grad :
  forall m : M A,
    P ENoGradEnter -> P ENoGradExit ->
    emits_only P m -> emits_only P (with_no_grad m).
Proof.
  intros m Henter Hexit Hm h l. unfold with_no_grad.
  specialize (Hm (h ++ [ENoGradEnter]) l).
  destruct (m (h ++ [ENoGradEnter]) l) as [[r l1] ev].
  unfold events_of in *. simpl in *.
  constructor; [assumption |]. apply Forall_app. auto.
Qed.

Lemma emits_weaken :
  forall (Q : event -> Prop) (m : M A),
    (forall e, Q e -> P e) -> emits_only Q m -> emits_only P m.
Proof.
  intros Q m HQP Hm h l. apply Forall_impl with (1 := HQP). apply Hm.
Qed.

End MonadFacts.

Lemma emits_emit :
  forall (P : event -> Prop) e, P e -> emits_only P (emit e).
Proof. intros P e He h l. repeat constructor. exact He. Qed.

Lemma emits_modify_locals :
  forall (P : event -> Prop) g, emits_only P (modify_locals g).
Proof. intros P g h l. constructor. Qed.

Lemma emits_for_each :
  forall {A S} (P : event -> Prop) (body : A -> S -> M S) xs s,
    (forall x s, emits_only P (body x s)) ->
    emits_only P (for_each body xs s).
Proof.
  intros A S P body xs. induction xs as [| x xs IH]; intros s Hbody; simpl.
  - apply emits_ret.
  - apply emits_bind; [apply Hbody |]. intros s1. apply IH. exact Hbody.
Qed.

Lemma emits_bind_lift_ok :
  forall {A B} (P : event -> Prop) (a : A) (k : A -> M B),
    emits_only P (k a) -> emits_only P (bind (lift (Ok a)) k).
Proof.
  intros A B P a k Hk h l. unfold bind, lift.
  specialize (Hk (h ++ []) l).
  destruct (k a (h ++ []) l) as [[r l2] ev2]. exact Hk.
Qed.

Lemma emits_bind_lift_raise :
  forall {A B} (P : event -> Prop) (e : exn) (k : A -> M B),
    emits_only P (bind (lift (Raise e)) k).
Proof. intros A B P e k h l. constructor. Qed.

(** Follows the shape of a computation down to its primitive calls. *)
Ltac emits_step :=
  match goal with
  | |- emits_only _ (bind (lift (Raise _)) _) => apply emits_bind_lift_raise
  | |- emits_only _ (bind (lift (Ok _)) _) =>
      apply emits_bind_lift_ok; cbv beta
  | |- emits_only _ (bind _ _) => apply emits_bind; [| intros]
  | |- emits_only _ (ret _) => apply emits_ret
  | |- emits_only _ (raise _) => apply emits_raise
  | |- emits_only _ (lift _) => apply emits_lift
  | |- emits_only _ (ask _) => apply emits_ask
  | |- emits_only _ (modify_locals _) => apply emits_modify_locals
  | |- emits_only _ (read_local _ _) => apply emits_read_local
  | |- emits_only _ (emit _) => apply emits_emit; auto
  | |- emits_only _ (call_method _) => apply emits_call_method
  | |- emits_only _ (with_no_grad _) => apply emits_with_no_grad; auto
  | |- emits_only _ (for_each _ _ _) => apply emits_for_each; intros
  | |- emits_only _ (if ?b then _ else _) => destruct b
  | |- emits_only _ (match ?x with _ => _ end) => destruct x
  end.

Ltac emits := repeat emits_step.

Section MethodFacts.

Variable C : Collaborators.
Variable IGNORE_INDEX : Z.
Variable self : Trainer.
Variable P : event -> Prop.

Hypothesis P_custom_forward : forall c, P (ECustomForward c).
Hypothesis P_loss_fn : forall f args, P (ELossFn f args).
Hypothesis P_model_forward : forall ids mask, P (EModelForward ids mask).
Hypothesis P_ptx_loss_fn : forall args, P (EPtxLossFn args).

Lemma emits_concatenated_forward :
  forall chosen_ids c_mask reject_ids r_mask return_output,
    emits_only P
      (concatenated_forward C self chosen_ids c_mask reject_ids r_mask
         return_output).
Proof. intros. unfold concatenated_forward. emits. Qed.

Lemma emits_call_loss_fn :
  forall args, emits_only P (call_loss_fn C self args).
Proof. intros. unfold call_loss_fn. emits. Qed.

Lemma emits_unpack_batch :
  forall data, emits_only P (unpack_batch self data).
Proof. intros. unfold unpack_batch. emits. Qed.

Lemma emits_forward_current_path :
  forall return_output, emits_only P (forward_current_path C self return_output).
Proof.
  intros. unfold forward_current_path.
  emits; apply emits_concatenated_forward.
Qed.

Lemma emits_forward_and_loss :
  forall data ls, emits_only P (forward_and_loss C self data ls).
Proof.
  intros. unfold forward_and_loss, preference_loss_first.
  emits;
    first [apply emits_unpack_batch | apply emits_forward_current_path
          | apply emits_call_loss_fn].
Qed.

Lemma emits_forward_logits :
  forall ids mask, emits_only P (forward_logits C IGNORE_INDEX ids mask).
Proof. intros. unfold forward_logits. emits. Qed.

Lemma emits_call_ptx_loss_fn :
  forall args, emits_only P (call_ptx_loss_fn C self args).
Proof. intros. unfold call_ptx_loss_fn. emits. Qed.

Lemma emits_ptx :
  emits_only P (ptx_pair_non_packed C IGNORE_INDEX self) /\
  emits_only P (ptx_chosen_bound C IGNORE_INDEX self) /\
  emits_only P (ptx_chosen_packed C IGNORE_INDEX self) /\
  emits_only P (ptx_pair_packed C IGNORE_INDEX self).
Proof.
  unfold ptx_pair_non_packed, ptx_chosen_bound, ptx_chosen_packed,
    ptx_pair_packed, ptx_single, split_packed_chosen.
  repeat split; emits;
    first [apply emits_forward_logits | apply emits_call_ptx_loss_fn].
Qed.

Lemma emits_second_loss :
  forall args f, emits_only P (second_loss C IGNORE_INDEX self args f).
Proof.
  intros. destruct emits_ptx as (H1 & H2 & H3 & H4).
  unfold second_loss, second_forward, preference_loss_second.
  emits;
    first [assumption | apply emits_concatenated_forward
          | apply emits_call_loss_fn].
Qed.

Lemma emits_total_loss :
  forall args preference_loss,
    emits_only P (total_loss C IGNORE_INDEX self args preference_loss).
Proof.
  intros. destruct emits_ptx as (H1 & H2 & H3 & H4).
  unfold total_loss. emits; assumption.
Qed.

(** *** [evaluate] and the cadence *)

Hypothesis P_model_eval : P EModelEval.
Hypothesis P_model_train : P EModelTrain.
Hypothesis P_no_grad_enter : P ENoGradEnter.
Hypothesis P_no_grad_exit : P ENoGradExit.
Hypothesis P_all_reduce : forall m, P (EAllReduce m).
Hypothesis P_wandb_log : forall m, P (EWandbLog m).
Hypothesis P_empty_cache : P EEmptyCache.

Lemma emits_evaluate_batch :
  forall data sums, emits_only P (evaluate_batch C self data sums).
Proof.
  intros data [loss_sum prob_sum]. unfold evaluate_batch.
  emits;
    first [apply emits_unpack_batch | apply emits_forward_current_path
          | apply emits_call_loss_fn].
Qed.

Lemma emits_evaluate :
  forall eval_dataloader_arg steps,
    emits_only P (evaluate C self eval_dataloader_arg steps).
Proof.
  intros. unfold evaluate. emits. apply emits_evaluate_batch.
Qed.

Lemma emits_save_logs_and_checkpoints :
  forall args global_step logs_dict client_states,
    P (ESaveCkpt (checkpoint_tag global_step) client_states) ->
    emits_only P
      (save_logs_and_checkpoints C self args global_step logs_dict
         client_states).
Proof.
  intros. unfold save_logs_and_checkpoints.
  emits; apply emits_evaluate.
Qed.

Lemma emits_cadence :
  forall args step logs_dict,
    P (ESaveCkpt
         (checkpoint_tag (step / accumulated_gradient (strategy self)))
         [("consumed_samples"%string,
           step / accumulated_gradient (strategy self) * train_batch_size args)]) ->
    emits_only P (cadence C self args step logs_dict).
Proof.
  intros args step logs_dict Hsave. unfold cadence, py_mod, py_floordiv.
  destruct (accumulated_gradient (strategy self) =? 0); cbv iota; emits.
  apply emits_save_logs_and_checkpoints. exact Hsave.
Qed.

End MethodFacts.

(** ** Loss dispatch *)

(** C1. At construction the loss is selected by
    [(is_general_preference, value_head_dim, add_prompt_head)]:
    pairwise log-sigmoid when [is_general_preference] is false; the
    general-preference pairwise loss for dimension 2 without prompt
    head; otherwise the high-dimensional loss, in its mixture-of-experts
    form when the prompt head is on; and construction raises
    [AssertionError] when [is_general_preference] holds and the
    dimension is odd. *)
Theorem loss_dispatch_at_construction :
  forall (strategy : Strategy) (train_dataloader : list Batch)
         (sampler_is_group : bool) (eval_dataloader : list Batch)
         (pad_token_id max_epochs : Z) (is_general_preference : bool)
         (tau : Q) (value_head_dim : Z) (packing_samples_arg : bool),
    let prompt_head := add_prompt_head (s_args strategy) in
    let built :=
      fst (__init__ strategy train_dataloader sampler_is_group
             eval_dataloader pad_token_id max_epochs is_general_preference
             tau value_head_dim packing_samples_arg) in
    (is_general_preference = false ->
       exists t, built = Ok t /\ loss_fn t = PairWiseLoss tau) /\
    (is_general_preference = true -> value_head_dim = 2 ->
     prompt_head = false ->
       exists t, built = Ok t /\ loss_fn t = GeneralPreferenceLoss tau) /\
    (is_general_preference = true ->
     ~ (value_head_dim = 2 /\ prompt_head = false) ->
     Z.even value_head_dim = true ->
       exists t, built = Ok t /\
         loss_fn t = if prompt_head
                     then HighDimGeneralPreferenceMoELoss value_head_dim tau
                     else HighDimGeneralPreferenceLoss tau value_head_dim) /\
    (is_general_preference = true -> Z.odd value_head_dim = true ->
     value_head_dim <> 2 ->
       exists msg, built = Raise (AssertionError msg)).
Proof.
  intros strategy tdl sg edl pad epochs g tau d pk prompt_head built.
  subst built prompt_head. unfold __init__, select_loss_fn.
  repeat split.
  - intros ->. simpl. eexists. split; reflexivity.
  - intros -> -> ->. simpl. eexists. split; reflexivity.
  - intros -> Hnot Heven.
    destruct ((d =? 2) && negb (add_prompt_head (s_args strategy))) eqn:E.
    + exfalso. apply Hnot. apply andb_prop in E. destruct E as [E1 E2].
      apply Z.eqb_eq in E1. apply negb_true_iff in E2. auto.
    + rewrite Zmod_even, Heven. simpl.
      destruct (add_prompt_head (s_args strategy));
        simpl; eexists; split; reflexivity.
  - intros -> Hodd Hne.
    destruct ((d =? 2) && negb (add_prompt_head (s_args strategy))) eqn:E.
    + apply andb_prop in E. destruct E as [E1 _].
      apply Z.eqb_eq in E1. contradiction.
    + rewrite Zmod_odd, Hodd. simpl.
      eexists. reflexivity.
Qed.

Lemma loss_dispatch_at_construction_witness :
  (exists t,
     fst (__init__ (ex_strategy false false false) [] true [] 0 2 false
            (1 # 10) 3 false) = Ok t /\
     loss_fn t = PairWiseLoss (1 # 10)) /\
  (exists t,
     fst (__init__ (ex_strategy false false false) [] true [] 0 2 true
            (1 # 10) 2 false) = Ok t /\
     loss_fn t = GeneralPreferenceLoss (1 # 10)) /\
  (exists t,
     fst (__init__ (ex_strategy false true true) [] true [] 0 2 true
            (1 # 10) 4 false) = Ok t /\
     loss_fn t = HighDimGeneralPreferenceMoELoss 4 (1 # 10)) /\
  (exists t,
     fst (__init__ (ex_strategy false false false) [] true [] 0 2 true
            (1 # 10) 4 false) = Ok t /\
     loss_fn t = HighDimGeneralPreferenceLoss (1 # 10) 4) /\
  (exists msg,
     fst (__init__ (ex_strategy false false false) [] true [] 0 2 true
            (1 # 10) 3 false) = Raise (AssertionError msg)).
Proof.
  destruct (loss_dispatch_at_construction (ex_strategy false false false)
              [] true [] 0 2 false (1 # 10) 3 false) as (Hpair & _).
  destruct (loss_dispatch_at_construction (ex_strategy false false false)
              [] true [] 0 2 true (1 # 10) 2 false) as (_ & Hgp & _).
  destruct (loss_dispatch_at_construction (ex_strategy false true true)
              [] true [] 0 2 true (1 # 10) 4 false) as (_ & _ & Hmoe & _).
  destruct (loss_dispatch_at_construction (ex_strategy false false false)
              [] true [] 0 2 true (1 # 10) 4 false) as (_ & _ & Hhigh & _).
  destruct (loss_dispatch_at_construction (ex_strategy false false false)
              [] true [] 0 2 true (1 # 10) 3 false) as (_ & _ & _ & Hodd).
  split; [apply Hpair; reflexivity |].
  split; [apply Hgp; reflexivity |].
  split.
  { apply Hmoe; [reflexivity | | reflexivity].
    intros [H _]. discriminate H. }
  split.
  { apply Hhigh; [reflexivity | | reflexivity].
    intros [H _]. discriminate H. }
  apply Hodd; [reflexivity | reflexivity | discriminate].
Defined.

(** ** Packed split *)

Lemma concatenated_forward_packed :
  forall (C : Collaborators) (self : Trainer),
    self_packing_samples self = true ->
    forall ids masks r_mask lens return_output h l,
      let call := mkForwardCall ids masks return_output
                    (ring_attn_group (strategy self)) (Some (PList lens)) in
      let answer := custom_forward C (h ++ [ECustomForward call]) call in
      concatenated_forward C self ids masks (PList lens) r_mask
        return_output h l
      = (Ok (firstn (length lens / 2) (fst answer),
             slice (length lens / 2) (length lens) (fst answer),
             snd answer), l, [ECustomForward call]).
Proof.
  intros C self Hpack ids masks r_mask lens ro h l call answer.
  subst call answer.
  unfold concatenated_forward. rewrite Hpack. simpl.
  unfold bind, emit, ask, lift, ret. simpl.
  destruct (custom_forward C _ _) as [vals outs]. reflexivity.
Qed.

(** C9. On the packed path the rows of the forward pass are split at
    [len(packed_seq_lens) // 2]: the chosen rewards are the rows before
    that index and the rejected rewards the rows from it up to
    [len(packed_seq_lens)].  With one row per sequence and an even
    count, the two halves have the same size and together are the
    whole output.  The index is computed from the number of lengths
    alone: any other packed call with as many lengths splits at the
    same index. *)
Theorem packed_split_is_half_of_lengths :
  forall (C : Collaborators) (self : Trainer)
         (packed_input_ids packed_attention_masks r_mask : pyarg)
         (packed_seq_lens : list Z) (return_output : bool)
         (h : list event) (l : Locals),
    self_packing_samples self = true ->
    let call :=
      mkForwardCall packed_input_ids packed_attention_masks return_output
        (ring_attn_group (strategy self)) (Some (PList packed_seq_lens)) in
    let answer := custom_forward C (h ++ [ECustomForward call]) call in
    let all_values := fst answer in
    let num_chosen := (length packed_seq_lens / 2)%nat in
    let chosen := firstn num_chosen all_values in
    let rejected := slice num_chosen (length packed_seq_lens) all_values in
    concatenated_forward C self packed_input_ids packed_attention_masks
      (PList packed_seq_lens) r_mask return_output h l
    = (Ok (chosen, rejected, snd answer), l, [ECustomForward call]) /\
    (length all_values = length packed_seq_lens ->
     Nat.even (length packed_seq_lens) = true ->
       chosen ++ rejected = all_values /\
       length chosen = num_chosen /\ length rejected = num_chosen) /\
    (forall ids' masks' r_mask' lens' return_output' h' l',
       length lens' = length packed_seq_lens ->
       exists values' outputs' evs',
         concatenated_forward C self ids' masks' (PList lens') r_mask'
           return_output' h' l'
         = (Ok (firstn num_chosen values',
                slice num_chosen (length packed_seq_lens) values',
                outputs'), l', evs')).
Proof.
  intros C self ids masks r_mask lens ro h l Hpack
    call answer all_values num_chosen chosen rejected.
  pose proof (concatenated_forward_packed C self Hpack) as Hrun.
  split; [apply Hrun |].
  split.
  - intros Hlen Heven. subst chosen rejected. unfold slice.
    rewrite <- Hlen, firstn_all, firstn_skipn.
    split; [reflexivity |].
    apply Nat.even_spec in Heven. destruct Heven as [k Hk].
    assert (Hhalf : num_chosen = k).
    { subst num_chosen. rewrite Hk, Nat.mul_comm. apply Nat.div_mul. lia. }
    rewrite length_firstn, length_skipn, Hlen, Hhalf. lia.
  - intros ids' masks' r_mask' lens' ro' h' l' Hlen.
    rewrite Hrun. subst num_chosen. rewrite <- Hlen.
    eexists _, _, _. reflexivity.
Qed.

Lemma packed_split_is_half_of_lengths_witness :
  concatenated_forward ex_collaborators ex_packed_trainer
    (PTensor (mkTensor 1 44 [repeat 7 44]))
    (PTensor (mkTensor 1 44 [repeat 1 44]))
    (PList [10; 12; 10; 12]) PNone false [] fresh_locals
  = (Ok ([[1%Q]; [inject_Z 2]], [[inject_Z 3]; [inject_Z 4]], None),
     fresh_locals,
     [ECustomForward
        (mkForwardCall (PTensor (mkTensor 1 44 [repeat 7 44]))
           (PTensor (mkTensor 1 44 [repeat 1 44])) false None
           (Some (PList [10; 12; 10; 12])))]).
Proof.
  destruct (packed_split_is_half_of_lengths ex_collaborators
              ex_packed_trainer (PTensor (mkTensor 1 44 [repeat 7 44]))
              (PTensor (mkTensor 1 44 [repeat 1 44])) PNone
              [10; 12; 10; 12] false [] fresh_locals eq_refl)
    as (Hrun & _).
  exact Hrun.
Defined.

(** ** Resume and checkpoints *)

Lemma restore_ok :
  forall (self : Trainer) (args : Args) (k s : Z),
    train_batch_size args <> 0 -> s <> 0 ->
    exists args',
      restore self args k (Some s)
      = Ok (mkResume args'
              (k / train_batch_size args
               * accumulated_gradient (strategy self) + 1)
              (k / train_batch_size args / s)
              (k mod (s * train_batch_size args))) /\
      train_batch_size args' = train_batch_size args.
Proof.
  intros self args k s HB HS.
  assert (HSB : s * train_batch_size args <> 0)
    by (apply Z.neq_mul_0; auto).
  apply Z.eqb_neq in HB, HS, HSB.
  unfold restore, py_floordiv, py_mod. rewrite HB.
  cbn [obind]. rewrite HS. cbn [obind].
  destruct (eval_steps args =? -1);
    destruct (save_steps args) as [n |] eqn:Hsave; try destruct (n =? -1);
    unfold set_save_steps, set_eval_steps;
    cbn [train_batch_size save_steps]; try rewrite Hsave;
    try destruct (n =? -1);
    cbn [train_batch_size]; rewrite HSB; cbn [obind];
    eexists; split; reflexivity.
Qed.

(** Outside these bounds [fit] stops before the loop: a zero batch
    size or a zero number of steps per epoch is a
    [ZeroDivisionError], a missing number of steps a [TypeError]. *)
Lemma restore_outside_domain :
  forall (self : Trainer) (args : Args) (k : Z),
    (train_batch_size args = 0 ->
     forall s, restore self args k s = Raise ZeroDivisionError) /\
    (train_batch_size args <> 0 ->
     restore self args k (Some 0) = Raise ZeroDivisionError /\
     restore self args k None = Raise TypeError).
Proof.
  intros self args k. unfold restore, py_floordiv. split.
  - intros -> s. reflexivity.
  - intros HB. apply Z.eqb_neq in HB. rewrite HB. split; reflexivity.
Qed.

Lemma train_epoch_sets_epoch_first :
  forall C IGNORE_INDEX self args start_epoch consumed epoch ls h l,
    sampler_is_group self = true ->
    exists evs,
      events_of (train_epoch C IGNORE_INDEX self args start_epoch consumed
                   epoch ls h l)
      = ESetEpoch epoch (if epoch >? start_epoch then 0 else consumed) :: evs.
Proof.
  intros C IGN self args start_epoch consumed epoch ls h l Hgroup.
  unfold train_epoch. rewrite Hgroup.
  erewrite bind_ok_left by reflexivity.
  simpl. eexists. reflexivity.
Qed.

(** ** Local names left untouched *)

Section PreservesFacts.

Context {A B F : Type}.
Variable field : Locals -> option F.

Lemma preserves_bind :
  forall (m : M A) (k : A -> M B),
    preserves field m -> (forall a, preserves field (k a)) ->
    preserves field (bind m k).
Proof.
  intros m k Hm Hk h l. unfold bind.
  specialize (Hm h l). destruct (m h l) as [[[a | e] l1] ev1]; [| exact Hm].
  specialize (Hk a (h ++ ev1) l1).
  destruct (k a (h ++ ev1) l1) as [[r l2] ev2].
  unfold locals_of in *. simpl in *. congruence.
Qed.

Lemma preserves_ret : forall a : A, preserves field (ret a).
Proof. intros a h l. reflexivity. Qed.

Lemma preserves_raise : forall e, preserves field (@raise A e).
Proof. intros e h l. reflexivity. Qed.

Lemma preserves_lift : forall o : outcome A, preserves field (lift o).
Proof. intros o h l. reflexivity. Qed.

Lemma preserves_ask : forall f : list event -> A, preserves field (ask f).
Proof. intros f h l. reflexivity. Qed.

Lemma preserves_read_local :
  forall name (fld : Locals -> option A), preserves field (read_local name fld).
Proof.
  intros name fld h l. unfold read_local. destruct (fld l); reflexivity.
Qed.

End PreservesFacts.

Lemma preserves_emit :
  forall {F} (field : Locals -> option F) e, preserves field (emit e).
Proof. intros F field e h l. reflexivity. Qed.

Lemma preserves_modify_locals :
  forall {F} (field : Locals -> option F) g,
    (forall l, field (g l) = field l) ->
    preserves field (modify_locals g).
Proof. intros F field g Hg h l. apply Hg. Qed.

Ltac preserves_step :=
  match goal with
  | |- preserves _ (bind _ _) => apply preserves_bind; [| intros]
  | |- preserves _ (ret _) => apply preserves_ret
  | |- preserves _ (raise _) => apply preserves_raise
  | |- preserves _ (lift _) => apply preserves_lift
  | |- preserves _ (ask _) => apply preserves_ask
  | |- preserves _ (emit _) => apply preserves_emit
  | |- preserves _ (read_local _ _) => apply preserves_read_local
  | |- preserves _ (modify_locals _) =>
      apply preserves_modify_locals; intros; reflexivity
  | |- preserves _ (if ?b then _ else _) => destruct b
  | |- preserves _ (match ?x with _ => _ end) => destruct x
  end.

Ltac preserves_tac := repeat preserves_step.

Lemma preserves_concatenated_forward :
  forall {F} (field : Locals -> option F) C self chosen_ids c_mask
         reject_ids r_mask return_output,
    preserves field
      (concatenated_forward C self chosen_ids c_mask reject_ids r_mask
         return_output).
Proof. intros. unfold concatenated_forward. preserves_tac. Qed.

(** On the padded path the first half of the iteration binds none of
    the packed names. *)
Lemma forward_and_loss_keeps_packed_unbound :
  forall C self data ls,
    self_packing_samples self = false ->
    preserves l_packed_input_ids (forward_and_loss C self data ls).
Proof.
  intros C self data ls Hpack.
  unfold forward_and_loss, unpack_batch, forward_current_path,
    preference_loss_first, call_loss_fn.
  rewrite Hpack. cbn [negb].
  preserves_tac; apply preserves_concatenated_forward.
Qed.

(** ** The unbound packed names *)

Lemma second_loss_reads_unbound_name :
  forall C IGNORE_INDEX self args f h l,
    add_pretrain_loss args = false ->
    l_packed_input_ids l = None ->
    second_loss C IGNORE_INDEX self args f h l
    = (Raise (UnboundLocalError "packed_input_ids"), l, []).
Proof.
  intros C IGN self args f h l Hpre Hunbound.
  unfold second_loss, second_forward. rewrite Hpre.
  unfold bind, read_local. rewrite Hunbound. reflexivity.
Qed.

Lemma train_step_after_first_loss :
  forall C IGNORE_INDEX self args data ls h l,
    self_packing_samples self = false ->
    add_pretrain_loss args = false ->
    l_packed_input_ids l = None ->
    forall f l1 ev1,
      forward_and_loss C self data ls h l = (Ok f, l1, ev1) ->
      train_step C IGNORE_INDEX self args data ls h l
      = (Raise (UnboundLocalError "packed_input_ids"), l1, ev1).
Proof.
  intros C IGN self args data ls h l Hpack Hpre Hunbound f l1 ev1 Hfirst.
  pose proof (forward_and_loss_keeps_packed_unbound C self data ls Hpack h l)
    as Hkeep.
  rewrite Hfirst in Hkeep. unfold locals_of in Hkeep. simpl in Hkeep.
  unfold train_step. rewrite (bind_ok_left _ _ _ _ _ _ _ Hfirst).
  erewrite (bind_raise_left (second_loss C IGN self args f)).
  2: { apply second_loss_reads_unbound_name; congruence. }
  unfold outcome_of, locals_of, events_of. simpl.
  rewrite app_nil_r. reflexivity.
Qed.

Lemma train_step_never_returns :
  forall C IGNORE_INDEX self args data ls h l,
    self_packing_samples self = false ->
    add_pretrain_loss args = false ->
    l_packed_input_ids l = None ->
    exists e l1 ev1,
      train_step C IGNORE_INDEX self args data ls h l = (Raise e, l1, ev1) /\
      Forall no_training_step ev1 /\
      l_packed_input_ids l1 = None.
Proof.
  intros C IGN self args data ls h l Hpack Hpre Hunbound.
  pose proof (forward_and_loss_keeps_packed_unbound C self data ls Hpack h l)
    as Hkeep.
  assert (Hev : emits_only no_training_step (forward_and_loss C self data ls))
    by (apply emits_forward_and_loss; intros; split; reflexivity).
  specialize (Hev h l).
  destruct (forward_and_loss C self data ls h l) as [[[f | e] l1] ev1] eqn:Hfirst;
    unfold locals_of, events_of in *; simpl in *.
  - exists (UnboundLocalError "packed_input_ids"), l1, ev1.
    split; [| split; [assumption | congruence]].
    eapply train_step_after_first_loss; eassumption.
  - exists e, l1, ev1.
    split; [| split; [assumption | congruence]].
    unfold train_step. apply bind_raise_left. exact Hfirst.
Qed.

(** On the padded path with a loss that needs no hidden state, the
    first half of the iteration returns. *)
Lemma forward_and_loss_returns :
  forall C self chosen_ids c_mask reject_ids r_mask margin
         chosen_response_len ls h l,
    self_packing_samples self = false ->
    needs_prompt_hidden_state self = false ->
    exists f l1 ev1,
      forward_and_loss C self
        (NonPackedBatch chosen_ids c_mask reject_ids r_mask margin
           chosen_response_len) ls h l
      = (Ok f, l1, ev1).
Proof.
  intros C self chosen_ids c_mask reject_ids r_mask margin crl ls h l
    Hpack Hloss.
  destruct (concatenated_inputs_total (pad_token_id self) chosen_ids c_mask
              reject_ids r_mask) as (input_ids & att_masks & Hcat).
  unfold forward_and_loss, unpack_batch, forward_current_path,
    preference_loss_first, call_loss_fn, concatenated_forward.
  rewrite Hpack, Hloss. cbn [negb].
  unfold bind, modify_locals, read_local, ret, lift, emit, ask.
  cbn. rewrite Hcat. cbn.
  destruct (custom_forward C _ _) as [all_values outputs]. cbn.
  destruct (loss_fn_call C _ _ _) as [preference_loss probs]. cbn.
  eexists _, _, _. reflexivity.
Qed.

(** ** Loops under an invariant on the locals *)

Lemma guarded_bind :
  forall {A B} Inv P (m : M A) (k : A -> M B),
    guarded Inv P m -> (forall a, guarded Inv P (k a)) ->
    guarded Inv P (bind m k).
Proof.
  intros A B Inv P m k Hm Hk h l Hinv. unfold bind.
  destruct (Hm h l Hinv) as [Hev Hret].
  destruct (m h l) as [[[a | e] l1] ev1];
    unfold events_of, outcome_of, locals_of in *; simpl in *.
  - destruct (Hk a (h ++ ev1) l1 (Hret eq_refl)) as [Hev2 Hret2].
    destruct (k a (h ++ ev1) l1) as [[r l2] ev2]; simpl in *.
    split; [apply Forall_app; auto | exact Hret2].
  - split; [exact Hev | discriminate].
Qed.

Lemma guarded_ret :
  forall {A} Inv P (a : A), guarded Inv P (ret a).
Proof. intros A Inv P a h l Hinv. split; [constructor | auto]. Qed.

Lemma guarded_lift :
  forall {A} Inv P (o : outcome A), guarded Inv P (lift o).
Proof. intros A Inv P o h l Hinv. split; [constructor | auto]. Qed.

Lemma guarded_emit :
  forall Inv (P : event -> Prop) e, P e -> guarded Inv P (emit e).
Proof.
  intros Inv P e He h l Hinv. split; [repeat constructor; exact He | auto].
Qed.

Lemma guarded_for_each :
  forall {A S} Inv P (body : A -> S -> M S) xs s,
    (forall x s, guarded Inv P (body x s)) ->
    guarded Inv P (for_each body xs s).
Proof.
  intros A S Inv P body xs. induction xs as [| x xs IH]; intros s Hbody; simpl.
  - apply guarded_ret.
  - apply guarded_bind; [apply Hbody |]. intros s1. apply IH. exact Hbody.
Qed.

Lemma guarded_train_step :
  forall C IGNORE_INDEX self args data ls,
    self_packing_samples self = false ->
    add_pretrain_loss args = false ->
    guarded packed_unbound no_training_step
      (train_step C IGNORE_INDEX self args data ls).
Proof.
  intros C IGN self args data ls Hpack Hpre h l Hinv.
  destruct (train_step_never_returns C IGN self args data ls h l Hpack Hpre Hinv)
    as (e & l1 & ev1 & Hrun & Hev & _).
  rewrite Hrun. split; [exact Hev | discriminate].
Qed.

Lemma restore_keeps_add_pretrain_loss :
  forall self args k s r,
    restore self args k s = Ok r ->
    add_pretrain_loss (r_args r) = add_pretrain_loss args.
Proof.
  intros self args k s r. unfold restore, py_floordiv, py_mod.
  destruct (train_batch_size args =? 0); [discriminate |]. cbn [obind].
  destruct s as [s |]; [| discriminate].
  destruct (s =? 0); [discriminate |]. cbn [obind].
  match goal with
  | |- context [if ?c then Raise ZeroDivisionError else _] => destruct c
  end; [discriminate |].
  cbn [obind]. intros Hr. injection Hr as <-. cbn [r_args].
  destruct (eval_steps args =? -1);
    destruct (save_steps args) as [n |] eqn:Hsave;
    unfold set_save_steps, set_eval_steps; cbn [save_steps];
    try rewrite Hsave; try destruct (n =? -1); reflexivity.
Qed.

Lemma guarded_bind_lift_ok :
  forall {A B} Inv P (a : A) (k : A -> M B),
    guarded Inv P (k a) -> guarded Inv P (bind (lift (Ok a)) k).
Proof.
  intros A B Inv P a k Hk h l Hinv. unfold bind, lift.
  destruct (Hk (h ++ []) l Hinv) as [Hev Hret].
  destruct (k a (h ++ []) l) as [[r l2] ev2]. split; assumption.
Qed.

Lemma guarded_bind_lift_raise :
  forall {A B} Inv P (e : exn) (k : A -> M B),
    guarded Inv P (bind (lift (Raise e)) k).
Proof.
  intros A B Inv P e k h l Hinv. split; [constructor | discriminate].
Qed.

(** With padded samples and no auxiliary loss, [fit] never reaches
    [strategy.backward] or [strategy.optimizer_step]. *)
Lemma guarded_fit :
  forall C IGNORE_INDEX self args k s,
    self_packing_samples self = false ->
    add_pretrain_loss args = false ->
    guarded packed_unbound no_training_step
      (fit C IGNORE_INDEX self args k s).
Proof.
  intros C IGN self args k s Hpack Hpre. unfold fit.
  destruct (restore self args k s) as [r | e] eqn:Hr;
    [| apply guarded_bind_lift_raise].
  pose proof (restore_keeps_add_pretrain_loss self args k s r Hr) as Hpre'.
  rewrite Hpre in Hpre'.
  apply guarded_bind_lift_ok. apply guarded_bind.
  - apply guarded_for_each. intros epoch ls. unfold train_epoch.
    apply guarded_bind.
    + destruct (sampler_is_group self);
        [apply guarded_emit; split; reflexivity | apply guarded_ret].
    + intros _. apply guarded_bind;
        [apply guarded_emit; split; reflexivity |].
      intros _. apply guarded_for_each. intros data ls0.
      apply guarded_train_step; assumption.
  - intros ls. apply guarded_bind; [| intros; apply guarded_ret].
    destruct (_wandb self && is_rank_0 (strategy self));
      [apply guarded_emit; split; reflexivity | apply guarded_ret].
Qed.

(** C2. With [packing_samples] false and [args.add_pretrain_loss]
    false, an iteration of the training loop never returns: once the
    first loss has been computed it reads [packed_input_ids], which the
    padded path never binds, and raises [UnboundLocalError], a
    [NameError].  This is what happens on every padded batch when the
    loss needs no hidden state.  Neither [strategy.backward] nor
    [strategy.optimizer_step] is called, in the iteration or in the
    whole of [fit]. *)
Theorem padded_step_without_pretrain_raises_name_error :
  forall (C : Collaborators) (IGNORE_INDEX : Z) (self : Trainer)
         (args : Args) (data : Batch) (ls : LoopState)
         (h : list event) (l : Locals),
    self_packing_samples self = false ->
    add_pretrain_loss args = false ->
    l_packed_input_ids l = None ->
    let run := train_step C IGNORE_INDEX self args data ls h l in
    (exists e, outcome_of run = Raise e) /\
    (forall f l1 ev1,
       forward_and_loss C self data ls h l = (Ok f, l1, ev1) ->
       outcome_of run = Raise (UnboundLocalError "packed_input_ids")) /\
    (forall chosen_ids c_mask reject_ids r_mask margin chosen_response_len,
       data = NonPackedBatch chosen_ids c_mask reject_ids r_mask margin
                chosen_response_len ->
       needs_prompt_hidden_state self = false ->
       outcome_of run = Raise (UnboundLocalError "packed_input_ids")) /\
    is_NameError (UnboundLocalError "packed_input_ids") = true /\
    Forall no_training_step (events_of run) /\
    l_packed_input_ids (locals_of run) = None /\
    (forall k s h0,
       Forall no_training_step
         (events_of (fit C IGNORE_INDEX self args k s h0 fresh_locals))).
Proof.
  intros C IGN self args data ls h l Hpack Hpre Hunbound run.
  destruct (train_step_never_returns C IGN self args data ls h l
              Hpack Hpre Hunbound) as (e & l1 & ev1 & Hrun & Hev & Hl1).
  assert (Hafter : forall f l2 ev2,
            forward_and_loss C self data ls h l = (Ok f, l2, ev2) ->
            outcome_of run = Raise (UnboundLocalError "packed_input_ids")).
  { intros f l2 ev2 Hfirst. subst run.
    rewrite (train_step_after_first_loss C IGN self args data ls h l
               Hpack Hpre Hunbound f l2 ev2 Hfirst).
    reflexivity. }
  subst run. rewrite Hrun.
  split; [exists e; reflexivity |].
  split; [rewrite <- Hrun; exact Hafter |].
  split.
  { intros chosen_ids c_mask reject_ids r_mask margin crl -> Hloss.
    destruct (forward_and_loss_returns C self chosen_ids c_mask reject_ids
                r_mask margin crl ls h l Hpack Hloss) as (f & l2 & ev2 & Hf).
    rewrite <- Hrun. exact (Hafter f l2 ev2 Hf). }
  split; [reflexivity |].
  split; [exact Hev |].
  split; [exact Hl1 |].
  intros k s h0.
  apply (guarded_fit C IGN self args k s Hpack Hpre h0 fresh_locals).
  reflexivity.
Qed.

Lemma padded_step_without_pretrain_raises_name_error_witness :
  outcome_of
    (train_step ex_collaborators ex_ignore_index ex_non_packed_trainer
       (ex_args false false false) ex_non_packed_batch (mkLoop 1 0 0 0)
       [] fresh_locals)
  = Raise (UnboundLocalError "packed_input_ids") /\
  Forall no_training_step
    (events_of
       (fit ex_collaborators ex_ignore_index ex_non_packed_trainer
          (ex_args false false false) 0 (Some 1) [] fresh_locals)).
Proof.
  destruct (padded_step_without_pretrain_raises_name_error ex_collaborators
              ex_ignore_index ex_non_packed_trainer
              (ex_args false false false) ex_non_packed_batch
              (mkLoop 1 0 0 0) [] fresh_locals eq_refl eq_refl eq_refl)
    as (_ & _ & Hpadded & _ & _ & _ & Hfit).
  split.
  - eapply Hpadded; reflexivity.
  - apply Hfit.
Defined.

(** ** Evaluation on an empty loader *)

Lemma bind_raises_right :
  forall {A B} (m : M A) (k : A -> M B) h l,
    (forall a h1 l1, raised (outcome_of (k a h1 l1)) = true) ->
    raised (outcome_of (bind m k h l)) = true.
Proof.
  intros A B m k h l Hk. unfold bind.
  destruct (m h l) as [[[a | e] l1] ev1]; [| reflexivity].
  specialize (Hk a (h ++ ev1) l1).
  destruct (k a (h ++ ev1) l1) as [[r l2] ev2]. exact Hk.
Qed.

Lemma bind_raises_left :
  forall {A B} (m : M A) (k : A -> M B) h l,
    raised (outcome_of (m h l)) = true ->
    raised (outcome_of (bind m k h l)) = true.
Proof.
  intros A B m k h l Hm. unfold bind.
  destruct (m h l) as [[[a | e] l1] ev1]; [discriminate | reflexivity].
Qed.

Lemma with_no_grad_raises :
  forall {A} (body : M A) h l,
    raised (outcome_of (body (h ++ [ENoGradEnter]) l)) = true ->
    raised (outcome_of (with_no_grad body h l)) = true.
Proof.
  intros A body h l Hbody. unfold with_no_grad.
  destruct (body (h ++ [ENoGradEnter]) l) as [[r l1] ev]. exact Hbody.
Qed.

Lemma call_method_raises :
  forall {A} (m : M A) h l,
    raised (outcome_of (m h fresh_locals)) = true ->
    raised (outcome_of (call_method m h l)) = true.
Proof.
  intros A m h l Hm. unfold call_method.
  destruct (m h fresh_locals) as [[r l1] ev]. exact Hm.
Qed.

(** C8, as the code has it.  When the trainer's own validation loader
    is empty, [evaluate] never returns, whatever loader it is given:
    the mean divides by [self.eval_dataloader.__len__()].  Called on
    the empty loader it leaves the loop at once and raises
    [ZeroDivisionError] before reducing or logging anything, the model
    still in evaluation mode. *)
Theorem evaluate_empty_loader_raises :
  forall (C : Collaborators) (self : Trainer)
         (eval_dataloader_arg : list Batch) (steps : Z)
         (h : list event) (l : Locals),
    eval_dataloader self = [] ->
    raised (outcome_of (evaluate C self eval_dataloader_arg steps h l)) = true /\
    evaluate C self [] steps h l
    = (Raise ZeroDivisionError, l, [EModelEval; ENoGradEnter; ENoGradExit]).
Proof.
  intros C self arg steps h l Hempty. split.
  - unfold evaluate. rewrite Hempty. apply call_method_raises.
    apply bind_raises_right. intros _ h1 l1.
    apply bind_raises_left. apply with_no_grad_raises.
    apply bind_raises_right. intros [loss_sum prob_sum] h2 l2.
    reflexivity.
  - unfold evaluate. rewrite Hempty. reflexivity.
Qed.

Lemma evaluate_empty_loader_raises_witness :
  raised (outcome_of (evaluate ex_collaborators ex_empty_eval_trainer
                        [ex_packed_batch] 0 [] fresh_locals)) = true /\
  evaluate ex_collaborators ex_empty_eval_trainer [] 0 [] fresh_locals
  = (Raise ZeroDivisionError, fresh_locals,
     [EModelEval; ENoGradEnter; ENoGradExit]).
Proof.
  split.
  - apply (evaluate_empty_loader_raises ex_collaborators
             ex_empty_eval_trainer [ex_packed_batch] 0 [] fresh_locals).
    reflexivity.
  - apply (evaluate_empty_loader_raises ex_collaborators
             ex_empty_eval_trainer [] 0 [] fresh_locals).
    reflexivity.
Defined.

(** Against C8 as stated: on a trainer with no validation batch,
    [evaluate] on the empty loader raises. *)
Lemma evaluate_empty_loader_counterexample :
  outcome_of (evaluate ex_collaborators ex_empty_eval_trainer [] 0 []
                fresh_locals)
  = Raise ZeroDivisionError.
Proof. reflexivity. Qed.

(** An empty loader passed to a trainer whose own loader is not empty
    is the one case that returns: the mean is [0]. *)
Lemma evaluate_empty_argument_only :
  outcome_of (evaluate ex_collaborators ex_packed_trainer [] 0 []
                fresh_locals)
  = Ok (Some (0 / inject_Z 1)%Q).
Proof. reflexivity. Qed.

(** ** Moving averages *)

Lemma ema_from_zero : forall x : Q, (ema 0 x == (1 # 10) * x)%Q.
Proof. intros x. unfold ema. ring. Qed.

Lemma ema_twice_from_zero :
  forall x1 x2 : Q, (ema (ema 0 x1) x2 == (9 # 100) * x1 + (1 # 10) * x2)%Q.
Proof. intros x1 x2. unfold ema. ring. Qed.

Lemma bind_lift_ok_run :
  forall {A B} (a : A) (k : A -> M B) h l,
    bind (lift (Ok a)) k h l = k a (h ++ []) l.
Proof.
  intros A B a k h l. unfold bind, lift.
  destruct (k a (h ++ []) l) as [[r l2] ev2]. reflexivity.
Qed.

Lemma events_of_bind_prefix :
  forall {A B} (m : M A) (k : A -> M B) h l,
    exists evs, events_of (bind m k h l) = events_of (m h l) ++ evs.
Proof.
  intros A B m k h l. unfold bind.
  destruct (m h l) as [[[a | e] l1] ev1].
  - destruct (k a (h ++ ev1) l1) as [[r l2] ev2]. exists ev2. reflexivity.
  - exists []. cbn. rewrite app_nil_r. reflexivity.
Qed.

Lemma bind_returns_inv :
  forall {A B} (m : M A) (k : A -> M B) h l,
    raised (outcome_of (bind m k h l)) = false ->
    exists a l1 ev1,
      m h l = (Ok a, l1, ev1) /\
      raised (outcome_of (k a (h ++ ev1) l1)) = false /\
      events_of (bind m k h l) = ev1 ++ events_of (k a (h ++ ev1) l1).
Proof.
  intros A B m k h l Hret. unfold bind in *.
  destruct (m h l) as [[[a | e] l1] ev1]; [| discriminate Hret].
  exists a, l1, ev1. split; [reflexivity |].
  destruct (k a (h ++ ev1) l1) as [[r l2] ev2]. split; [exact Hret |].
  reflexivity.
Qed.

(** C5, as the code has it.  Every epoch of [fit] starts from averages
    equal to [0]: an epoch is the call to the sampler and
    [self.model.train()] followed by the micro-batches of the loader
    run from the state [(step, 0, 0, 0)], whatever averages the
    previous epoch left, so two states that agree on the step counter
    give the same epoch.  Inside an epoch a micro-batch starts from the
    state the previous one returned.  What [fit] does after restoring
    its counters is to run these epochs one after the other. *)
Theorem averages_restart_at_every_epoch :
  forall (C : Collaborators) (IGNORE_INDEX : Z) (self : Trainer)
         (args : Args) (start_epoch consumed epoch : Z)
         (ls ls' : LoopState) (h : list event) (l : Locals),
    step ls = step ls' ->
    let prologue :=
      (if sampler_is_group self
       then [ESetEpoch epoch (if epoch >? start_epoch then 0 else consumed)]
       else [])
      ++ [EModelTrain] in
    let batches :=
      for_each (train_step C IGNORE_INDEX self args) (train_dataloader self)
        (mkLoop (step ls) 0 0 0) (h ++ prologue) l in
    train_epoch C IGNORE_INDEX self args start_epoch consumed epoch ls h l
    = (outcome_of batches, locals_of batches, prologue ++ events_of batches) /\
    train_epoch C IGNORE_INDEX self args start_epoch consumed epoch ls h l
    = train_epoch C IGNORE_INDEX self args start_epoch consumed epoch ls' h l /\
    (forall data rest s h0 l0 s1 l1 ev1,
       train_step C IGNORE_INDEX self args data s h0 l0 = (Ok s1, l1, ev1) ->
       let later :=
         for_each (train_step C IGNORE_INDEX self args) rest s1
           (h0 ++ ev1) l1 in
       for_each (train_step C IGNORE_INDEX self args) (data :: rest) s h0 l0
       = (outcome_of later, locals_of later, ev1 ++ events_of later)) /\
    (forall k S r h0 l0,
       restore self args k S = Ok r ->
       let epochs_run :=
         for_each
           (train_epoch C IGNORE_INDEX self (r_args r) (r_start_epoch r)
              (r_consumed_samples r))
           (py_range (r_start_epoch r) (epochs self))
           (mkLoop (r_step r) 0 0 0) h0 l0 in
       outcome_of (fit C IGNORE_INDEX self args k S h0 l0)
       = outcome_of epochs_run /\
       exists finish,
         events_of (fit C IGNORE_INDEX self args k S h0 l0)
         = events_of epochs_run ++ finish).
Proof.
  intros C IGN self args start_epoch consumed epoch ls ls' h l Hstep
    prologue batches.
  split; [| split; [| split]].
  4: { intros k S r h0 l0 Hr epochs_run. subst epochs_run.
       unfold fit. rewrite Hr, bind_lift_ok_run, app_nil_r. cbv beta.
       unfold bind, emit, ret.
       destruct (for_each _ _ _ h0 l0) as [[[ls1 | e] l1] ev1].
       - destruct (_wandb self && is_rank_0 (strategy self)); cbn;
           (split; [reflexivity | eexists; reflexivity]).
       - cbn. split; [reflexivity |].
         exists []. rewrite app_nil_r. reflexivity. }
  - subst batches prologue.
    unfold train_epoch, epoch_prologue.
    destruct (sampler_is_group self); cbn [app].
    + unfold bind at 1 2. unfold emit. cbn [app].
      rewrite <- !app_assoc. cbn [app].
      destruct (for_each _ _ _ _ _) as [[o l1] ev]. reflexivity.
    + unfold bind at 1 2. unfold emit, ret. cbn [app].
      rewrite !app_nil_r.
      destruct (for_each _ _ _ _ _) as [[o l1] ev]. reflexivity.
  - unfold train_epoch, epoch_prologue. rewrite Hstep. reflexivity.
  - intros data rest s h0 l0 s1 l1 ev1 Hfirst later. subst later.
    cbn [for_each]. apply bind_ok_left. exact Hfirst.
Qed.

Lemma averages_restart_at_every_epoch_witness :
  let args := ex_args true false false in
  let left_by_previous_epoch := mkLoop 5 (3439 # 10000) (1 # 7) (3439 # 10000) in
  train_epoch ex_collaborators ex_ignore_index ex_packed_trainer args 0 0 1
    left_by_previous_epoch [] fresh_locals
  = train_epoch ex_collaborators ex_ignore_index ex_packed_trainer args 0 0 1
      (mkLoop 5 0 0 0) [] fresh_locals /\
  exists ls1,
    outcome_of
      (train_epoch ex_collaborators ex_ignore_index ex_packed_trainer args
         0 0 1 left_by_previous_epoch [] fresh_locals) = Ok ls1 /\
    outcome_of
      (for_each (train_step ex_collaborators ex_ignore_index
                   ex_packed_trainer args)
         [ex_packed_batch; ex_packed_batch] (mkLoop 5 0 0 0)
         [ESetEpoch 1 0; EModelTrain] fresh_locals) = Ok ls1 /\
    (loss_mean ls1 == 3439 # 10000)%Q.
Proof.
  intros args left_by_previous_epoch.
  destruct (averages_restart_at_every_epoch ex_collaborators ex_ignore_index
              ex_packed_trainer args 0 0 1 left_by_previous_epoch
              (mkLoop 5 0 0 0) [] fresh_locals eq_refl)
    as (Hrun & Hsame & _).
  split; [exact Hsame |].
  pose (run := for_each (train_step ex_collaborators ex_ignore_index
                           ex_packed_trainer args)
                 [ex_packed_batch; ex_packed_batch] (mkLoop 5 0 0 0)
                 [ESetEpoch 1 0; EModelTrain] fresh_locals).
  destruct (outcome_of run) as [ls1 | e] eqn:Hout;
    [| vm_compute in Hout; discriminate Hout].
  exists ls1. split; [rewrite Hrun; exact Hout |].
  split; [exact Hout |].
  vm_compute in Hout. injection Hout as <-. reflexivity.
Defined.

(** Against C5 as stated, on a [fit] of two epochs of two micro-batches
    each: the first epoch ends with averages that are not zero; the
    second epoch, run by [fit] after it, ends with the same averages as
    the first, which is not what its micro-batches give when they start
    from the averages the first epoch left. *)
Lemma averages_differ_across_epochs_counterexample :
  let args := ex_args true false false in
  let step_of := train_step ex_collaborators ex_ignore_index
                   ex_packed_trainer args in
  let epoch_of := train_epoch ex_collaborators ex_ignore_index
                    ex_packed_trainer args 0 0 in
  exists ls1 l1 ev1 ls2 l2 ev2 carried,
    epochs ex_packed_trainer = 2 /\
    epoch_of 0 (mkLoop 1 0 0 0) [] fresh_locals = (Ok ls1, l1, ev1) /\
    epoch_of 1 ls1 ev1 l1 = (Ok ls2, l2, ev2) /\
    outcome_of (fit ex_collaborators ex_ignore_index ex_packed_trainer args
                  0 (Some 2) [] fresh_locals) = Ok ls2 /\
    (loss_mean ls1 == 3439 # 10000)%Q /\
    (acc_mean ls1 == 3439 # 10000)%Q /\
    ~ (prob_mean ls1 == 0)%Q /\
    (loss_mean ls2 == loss_mean ls1)%Q /\
    (acc_mean ls2 == acc_mean ls1)%Q /\
    (prob_mean ls2 == prob_mean ls1)%Q /\
    outcome_of
      (for_each step_of (train_dataloader ex_packed_trainer) ls1
         (ev1 ++ [ESetEpoch 1 0; EModelTrain]) l1) = Ok carried /\
    ~ (loss_mean carried == loss_mean ls2)%Q /\
    ~ (acc_mean carried == acc_mean ls2)%Q /\
    ~ (prob_mean carried == prob_mean ls2)%Q.
Proof.
  intros args step_of epoch_of.
  eexists _, _, _, _, _, _, _.
  split; [reflexivity |].
  split; [vm_compute; reflexivity |].
  split; [vm_compute; reflexivity |].
  split; [vm_compute; reflexivity |].
  split; [vm_compute; reflexivity |].
  split; [vm_compute; reflexivity |].
  split; [intros H; vm_compute in H; discriminate H |].
  split; [vm_compute; reflexivity |].
  split; [vm_compute; reflexivity |].
  split; [vm_compute; reflexivity |].
  split; [vm_compute; reflexivity |].
  repeat split; intros H; vm_compute in H; discriminate H.
Qed.

(** C6 on the code.  From averages equal to [0], the first micro-batch
    of the packed example observes the loss [1] twice and ends with
    [loss_mean = 0.19], not [0.1]; accuracy and probability likewise. *)
Theorem first_micro_batch_updates_averages_twice :
  exists ls1 l1 ev1,
    train_step ex_collaborators ex_ignore_index ex_packed_trainer
      (ex_args true false false) ex_packed_batch (mkLoop 1 0 0 0)
      [] fresh_locals
    = (Ok ls1, l1, ev1) /\
    length (loss_calls ev1) = 2%nat /\
    (loss_mean ls1 == 19 # 100)%Q /\ ~ (loss_mean ls1 == (1 # 10) * 1)%Q /\
    (acc_mean ls1 == 19 # 100)%Q /\ ~ (acc_mean ls1 == (1 # 10) * 1)%Q /\
    (prob_mean ls1 == (19 # 100) * (3 # 4))%Q /\
    ~ (prob_mean ls1 == (1 # 10) * (3 # 4))%Q.
Proof.
  eexists _, _, _. split; [vm_compute; reflexivity |].
  split; [reflexivity |].
  repeat split; try (vm_compute; reflexivity);
    intros H; vm_compute in H; discriminate H.
Qed.

(** ** Evaluation against the training step *)

(** C7 on the code.  The trainer built with a prompt head and a value
    head of dimension 4 trains with
    [HighDimGeneralPreferenceMoELoss]: the training step asks the model
    for its outputs and calls the loss with the prompt hidden state and
    [margin = None]; on the same batch [evaluate] does not ask for the
    outputs and calls the loss with three arguments, the third being
    the margin tensor. *)
Theorem evaluate_departs_from_training_step :
  fst (__init__ (ex_strategy false true true) [ex_non_packed_batch] true
         [ex_non_packed_batch] 0 2 true (1 # 10) 4 false)
  = Ok ex_moe_trainer /\
  let train :=
    events_of (forward_and_loss ex_collaborators ex_moe_trainer
                 ex_non_packed_batch (mkLoop 1 0 0 0) [] fresh_locals) in
  let eval :=
    events_of (evaluate_batch ex_collaborators ex_moe_trainer
                 ex_non_packed_batch (0%Q, 0%Q) [] fresh_locals) in
  return_outputs train = [true] /\
  return_outputs eval = [false] /\
  loss_calls train
  = [[LRewards [[1%Q]]; LRewards [[inject_Z 2]]; LHidden [[1%Q]];
      LMargin None]] /\
  loss_calls eval
  = [[LRewards [[1%Q]]; LRewards [[inject_Z 2]]; LMargin (Some [0%Q])]].
Proof. repeat split. Qed.

(** The branch of [evaluate] for the regression form gathers the hidden
    state one position after the one the training step gathers: the
    training step reads position [3 - 1 - 1 = 1], [evaluate] position
    [3 - 1 = 2]. *)
Lemma evaluate_prompt_index_off_by_one :
  loss_calls
    (events_of (forward_and_loss ex_collaborators ex_regression_moe_trainer
                  ex_non_packed_batch (mkLoop 1 0 0 0) [] fresh_locals))
  = [[LRewards [[1%Q]]; LRewards [[inject_Z 2]]; LHidden [[1%Q]];
      LMargin None]] /\
  loss_calls
    (events_of (evaluate_batch ex_collaborators ex_regression_moe_trainer
                  ex_non_packed_batch (0%Q, 0%Q) [] fresh_locals))
  = [[LRewards [[1%Q]]; LRewards [[inject_Z 2]]; LHidden [[inject_Z 2]];
      LMargin (Some [0%Q])]].
Proof. split; reflexivity. Qed.

(** ** Step counter and cadence *)

Ltac bind_inv H :=
  apply bind_ok_inv in H;
  let a := fresh "a" in
  let l1 := fresh "l" in
  let ev1 := fresh "ev" in
  let ev2 := fresh "ev" in
  let Hm := fresh "Hm" in
  let Hev := fresh "Hev" in
  destruct H as (a & l1 & ev1 & ev2 & Hm & H & Hev).

Lemma filter_none :
  forall {A} (f : A -> bool) (xs : list A),
    Forall (fun x => f x = false) xs -> filter f xs = [].
Proof.
  intros A f xs Hall. induction Hall as [| x xs Hx _ IH]; simpl.
  - reflexivity.
  - rewrite Hx. exact IH.
Qed.

Lemma forward_and_loss_step :
  forall C self data ls h l f l1 ev1,
    forward_and_loss C self data ls h l = (Ok f, l1, ev1) ->
    step (f_ls f) = step ls.
Proof.
  intros C self data ls h l f l1 ev1 H. unfold forward_and_loss in H.
  bind_inv H. destruct a as [margin crl].
  bind_inv H. destruct a as [[chosen_reward reject_reward] outputs].
  bind_inv H. destruct a as [preference_loss probs].
  unfold ret in H. injection H as <- _ _. reflexivity.
Qed.

Lemma second_loss_step :
  forall C IGNORE_INDEX self args f h l preference_loss probs ls2 l1 ev1,
    second_loss C IGNORE_INDEX self args f h l
    = (Ok (preference_loss, probs, ls2), l1, ev1) ->
    step ls2 = step (f_ls f).
Proof.
  intros C IGN self args f h l pl probs ls2 l1 ev1 H.
  unfold second_loss in H.
  bind_inv H. destruct a as [[chosen_reward reject_reward] outputs].
  bind_inv H. destruct a as [pl' probs'].
  unfold ret in H. injection H as _ _ <- _ _. reflexivity.
Qed.

(** When [step] is not a multiple of [accumulated_gradient] the
    cadence does nothing. *)
Lemma cadence_off_boundary :
  forall C self args step logs_dict h l,
    step mod accumulated_gradient (strategy self) <> 0 ->
    events_of (cadence C self args step logs_dict h l) = [].
Proof.
  intros C self args step logs_dict h l Hoff.
  unfold cadence, py_mod.
  destruct (accumulated_gradient (strategy self) =? 0); [reflexivity |].
  apply Z.eqb_neq in Hoff.
  unfold bind, lift. rewrite Hoff. reflexivity.
Qed.

Lemma step_and_log_inv :
  forall C self args preference_loss probs ls loss h l ls' l' ev,
    step_and_log C self args preference_loss probs ls loss h l
    = (Ok ls', l', ev) ->
    step ls' = step ls + 1 /\
    exists logs_dict hc,
      ev = EBackward loss :: EOptimizerStep
           :: events_of (cadence C self args (step ls) logs_dict hc l).
Proof.
  intros C self args pl probs ls loss h l ls' l' ev H.
  unfold step_and_log in H.
  unfold bind at 1 2 3 4 in H. unfold emit, ask, ret in H. simpl in H.
  match type of H with
  | context [cadence C self args (step ls) ?logs ?hc l] =>
      destruct (cadence C self args (step ls) logs hc l)
        as [[[[] | e] lc] evc] eqn:Hc;
      [| discriminate];
      injection H as <- _ <-;
      split; [reflexivity |];
      exists logs, hc; rewrite Hc
  end.
  unfold events_of. simpl. rewrite app_nil_r. reflexivity.
Qed.

(** C4, as the code has it.  A micro-batch that completes advances the
    step counter by one and calls [strategy.optimizer_step] exactly
    once, whatever the counter; logging, evaluation and checkpointing
    happen only when the counter is a multiple of
    [accumulated_gradient], and a checkpoint then carries
    [global_step = step // accumulated_gradient]. *)
Theorem optimizer_step_every_micro_batch :
  forall (C : Collaborators) (IGNORE_INDEX : Z) (self : Trainer)
         (args : Args) (data : Batch) (ls ls' : LoopState)
         (h : list event) (l l' : Locals) (ev : list event),
    train_step C IGNORE_INDEX self args data ls h l = (Ok ls', l', ev) ->
    let A := accumulated_gradient (strategy self) in
    step ls' = step ls + 1 /\
    length (filter is_optimizer_step ev) = 1%nat /\
    (step ls mod A <> 0 ->
       Forall (fun e => is_cadence_event e = false) ev) /\
    (forall tag client_states,
       In (ESaveCkpt tag client_states) ev ->
       step ls mod A = 0 /\
       tag = checkpoint_tag (step ls / A) /\
       client_states
       = [("consumed_samples"%string, step ls / A * train_batch_size args)]).
Proof.
  intros C IGN self args data ls ls' h l l' ev Hrun A.
  unfold train_step in Hrun.
  bind_inv Hrun. rename a into f.
  bind_inv Hrun. destruct a as [[preference_loss probs] ls2].
  bind_inv Hrun. rename a into loss.
  apply step_and_log_inv in Hrun.
  destruct Hrun as (Hstep & logs_dict & hc & Hev4).
  pose proof (forward_and_loss_step _ _ _ _ _ _ _ _ _ Hm) as Hs1.
  pose proof (second_loss_step _ _ _ _ _ _ _ _ _ _ _ _ Hm0) as Hs2.
  assert (Hstep2 : step ls2 = step ls) by congruence.
  clear Hs1 Hs2.
  rewrite Hstep2 in *. subst ev ev1 ev3 ev5.
  (* what each phase may emit *)
  assert (Hphase : forall P : event -> Prop,
            (forall c, P (ECustomForward c)) ->
            (forall f0 a, P (ELossFn f0 a)) ->
            (forall i m, P (EModelForward i m)) ->
            (forall a, P (EPtxLossFn a)) ->
            Forall P ev0 /\ Forall P ev2 /\ Forall P ev4).
  { intros P P1 P2 P3 P4.
    pose proof (emits_forward_and_loss C self P P1 P2 data ls h l) as H1.
    pose proof (emits_second_loss C IGN self P P1 P2 P3 P4 args f
                  (h ++ ev0) l0) as H2.
    pose proof (emits_total_loss C IGN self P P3 P4 args preference_loss
                  ((h ++ ev0) ++ ev2) l1) as H3.
    rewrite Hm in H1. rewrite Hm0 in H2. rewrite Hm1 in H3.
    auto. }
  split; [exact Hstep |].
  split; [| split].
  - destruct (Hphase (fun e => is_optimizer_step e = false))
      as (H1 & H2 & H3); try reflexivity.
    assert (Hc : emits_only (fun e => is_optimizer_step e = false)
                   (cadence C self args (step ls) logs_dict))
      by (apply emits_cadence; reflexivity).
    specialize (Hc hc l2).
    rewrite !filter_app. simpl.
    rewrite (filter_none _ _ H1), (filter_none _ _ H2), (filter_none _ _ H3),
      (filter_none _ _ Hc).
    reflexivity.
  - intros Hoff.
    destruct (Hphase (fun e => is_cadence_event e = false))
      as (H1 & H2 & H3); try reflexivity.
    rewrite (cadence_off_boundary C self args (step ls) logs_dict hc l2 Hoff).
    repeat (apply Forall_app; split); try assumption.
    repeat constructor.
  - intros tag client_states Hin.
    destruct (Hphase (fun e => forall t cs, e <> ESaveCkpt t cs))
      as (H1 & H2 & H3); try (intros; discriminate).
    rewrite Forall_forall in H1, H2, H3.
    repeat (apply in_app_or in Hin; destruct Hin as [Hin | Hin]);
      try (exfalso; eapply H1; [exact Hin | reflexivity]);
      try (exfalso; eapply H2; [exact Hin | reflexivity]);
      try (exfalso; eapply H3; [exact Hin | reflexivity]).
    destruct Hin as [Hin | [Hin | Hin]]; try discriminate Hin.
    destruct (Z.eq_dec (step ls mod A) 0) as [Hon | Hoff].
    + split; [exact Hon |].
      assert (Hc : emits_only
                (fun e => forall t cs, e = ESaveCkpt t cs ->
                   t = checkpoint_tag (step ls / A) /\
                   cs = [("consumed_samples"%string,
                          step ls / A * train_batch_size args)])
                (cadence C self args (step ls) logs_dict)).
      { apply emits_cadence; try (intros; discriminate).
        intros t cs Heq. injection Heq as <- <-. split; reflexivity. }
      specialize (Hc hc l2). rewrite Forall_forall in Hc.
      apply (Hc _ Hin). reflexivity.
    + rewrite (cadence_off_boundary C self args (step ls) logs_dict hc l2 Hoff)
        in Hin.
      destruct Hin.
Qed.

Lemma run_eta :
  forall {A} (r : outcome A * Locals * list event),
    r = (outcome_of r, locals_of r, events_of r).
Proof. intros A [[o l] ev]. reflexivity. Qed.

Lemma optimizer_step_every_micro_batch_witness :
  (exists ls1,
     outcome_of
       (train_step ex_collaborators ex_ignore_index ex_packed_trainer
          (ex_args true false false) ex_packed_batch (mkLoop 1 0 0 0)
          [] fresh_locals) = Ok ls1 /\
     step ls1 = 2) /\
  Forall (fun e => is_cadence_event e = false)
    (events_of
       (train_step ex_collaborators ex_ignore_index ex_packed_trainer
          (ex_args true false false) ex_packed_batch (mkLoop 1 0 0 0)
          [] fresh_locals)) /\
  (exists ls2,
     outcome_of
       (train_step ex_collaborators ex_ignore_index ex_packed_trainer
          (ex_args true false false) ex_packed_batch (mkLoop 2 0 0 0)
          [] fresh_locals) = Ok ls2 /\
     step ls2 = 3) /\
  length
    (filter is_optimizer_step
       (events_of
          (train_step ex_collaborators ex_ignore_index ex_packed_trainer
             (ex_args true false false) ex_packed_batch (mkLoop 2 0 0 0)
             [] fresh_locals))) = 1%nat /\
  2 mod accumulated_gradient (strategy ex_packed_trainer) = 0.
Proof.
  pose (run1 := train_step ex_collaborators ex_ignore_index ex_packed_trainer
                  (ex_args true false false) ex_packed_batch (mkLoop 1 0 0 0)
                  [] fresh_locals).
  pose (run2 := train_step ex_collaborators ex_ignore_index ex_packed_trainer
                  (ex_args true false false) ex_packed_batch (mkLoop 2 0 0 0)
                  [] fresh_locals).
  destruct (outcome_of run1) as [ls1 | e1] eqn:Hout1;
    [| vm_compute in Hout1; discriminate Hout1].
  destruct (outcome_of run2) as [ls2 | e2] eqn:Hout2;
    [| vm_compute in Hout2; discriminate Hout2].
  assert (Hrun1 : run1 = (Ok ls1, locals_of run1, events_of run1))
    by (rewrite <- Hout1; apply run_eta).
  assert (Hrun2 : run2 = (Ok ls2, locals_of run2, events_of run2))
    by (rewrite <- Hout2; apply run_eta).
  destruct (optimizer_step_every_micro_batch _ _ _ _ _ _ _ _ _ _ _ Hrun1)
    as (Hstep1 & _ & Hoff1 & _).
  destruct (optimizer_step_every_micro_batch _ _ _ _ _ _ _ _ _ _ _ Hrun2)
    as (Hstep2 & Hone2 & _ & Hsave2).
  assert (Hin : In (ESaveCkpt "global_step1"
                      [("consumed_samples"%string, 128)]) (events_of run2)).
  { vm_compute. repeat (first [left; reflexivity | right]). }
  split; [exists ls1; split; [exact Hout1 | exact Hstep1] |].
  split; [apply Hoff1; vm_compute; discriminate |].
  split; [exists ls2; split; [exact Hout2 | exact Hstep2] |].
  split; [exact Hone2 |].
  exact (proj1 (Hsave2 _ _ Hin)).
Defined.

(** Against C4 as stated: with [accumulated_gradient = 2], the
    micro-batch at [step = 1] completes and calls
    [strategy.optimizer_step]. *)
Lemma optimizer_step_off_boundary_counterexample :
  accumulated_gradient (strategy ex_packed_trainer) = 2 /\
  1 mod 2 <> 0 /\
  exists ls1 l1 ev1,
    train_step ex_collaborators ex_ignore_index ex_packed_trainer
      (ex_args true false false) ex_packed_batch (mkLoop 1 0 0 0)
      [] fresh_locals
    = (Ok ls1, l1, ev1) /\
    In EOptimizerStep ev1.
Proof.
  split; [reflexivity |]. split; [discriminate |].
  eexists _, _, _. split; [vm_compute; reflexivity |].
  repeat (first [left; reflexivity | right]).
Qed.

(** * Further properties *)

(** ** [concatenated_inputs] *)

Lemma pad_to_length_rows_left_padded :
  forall (tensor : Tensor) (w : nat) (pad_value : Z),
    wf_tensor tensor ->
    (t_cols tensor <= w)%nat ->
    pad_to_length tensor (Z.of_nat w) pad_value
    = Ok (mkTensor (t_rows tensor) w
            (map (fun row => repeat pad_value (w - length row) ++ row)
                 (t_data tensor))).
Proof.
  intros tensor w v [Hrows Hcols] Hle.
  rewrite Forall_forall in Hcols.
  destruct (Nat.eq_dec (t_cols tensor) w) as [Heq | Hne].
  - rewrite pad_to_length_unchanged by lia.
    destruct tensor as [rows cols data]. simpl in *. subst w.
    f_equal. f_equal. rewrite <- (map_id data) at 1.
    apply map_ext_in. intros row Hin.
    rewrite (Hcols row Hin), Nat.sub_diag. reflexivity.
  - rewrite pad_to_length_below by lia.
    rewrite prepend_rows by assumption.
    f_equal. f_equal; [lia |].
    apply map_ext_in. intros row Hin.
    rewrite (Hcols row Hin), Z.mul_1_r. f_equal. f_equal. lia.
Qed.

(** X1. [concatenated_inputs] never truncates and never fails on
    well-formed tensors: the ids come back as the chosen rows followed
    by the rejected rows, every row left-padded with the pad token to
    the longer of the two widths; the masks likewise, left-padded with
    [0] to the longer of the two mask widths. *)
Theorem concatenated_inputs_left_pads_both_halves :
  forall (pad_token_id : Z) (chosen_ids c_mask reject_ids r_mask : Tensor),
    wf_tensor chosen_ids -> wf_tensor c_mask ->
    wf_tensor reject_ids -> wf_tensor r_mask ->
    let w := Nat.max (t_cols chosen_ids) (t_cols reject_ids) in
    let wm := Nat.max (t_cols c_mask) (t_cols r_mask) in
    concatenated_inputs pad_token_id chosen_ids c_mask reject_ids r_mask
    = Ok (mkTensor (t_rows chosen_ids + t_rows reject_ids) w
            (map (fun row => repeat pad_token_id (w - length row) ++ row)
                 (t_data chosen_ids ++ t_data reject_ids)),
          mkTensor (t_rows c_mask + t_rows r_mask) wm
            (map (fun row => repeat 0 (wm - length row) ++ row)
                 (t_data c_mask ++ t_data r_mask))).
Proof.
  intros pad ci cm ri rm Hci Hcm Hri Hrm w wm.
  unfold concatenated_inputs. fold w. fold wm.
  rewrite (pad_to_length_rows_left_padded ci w pad Hci) by (subst w; lia).
  rewrite (pad_to_length_rows_left_padded ri w pad Hri) by (subst w; lia).
  rewrite (pad_to_length_rows_left_padded cm wm 0 Hcm) by (subst wm; lia).
  rewrite (pad_to_length_rows_left_padded rm wm 0 Hrm) by (subst wm; lia).
  unfold obind at 1 2. unfold cat at 1. simpl. unfold cat_rows. simpl.
  rewrite Nat.eqb_refl. simpl.
  unfold cat. simpl. unfold cat_rows. simpl.
  rewrite Nat.eqb_refl. simpl.
  rewrite !map_app. reflexivity.
Qed.

Lemma concatenated_inputs_left_pads_both_halves_witness :
  concatenated_inputs 0 (mkTensor 1 3 [[5; 6; 7]]) (mkTensor 1 3 [[1; 1; 1]])
    (mkTensor 1 2 [[8; 9]]) (mkTensor 1 2 [[1; 1]])
  = Ok (mkTensor 2 3 [[5; 6; 7]; [0; 8; 9]],
        mkTensor 2 3 [[1; 1; 1]; [0; 1; 1]]).
Proof.
  apply (concatenated_inputs_left_pads_both_halves 0
           (mkTensor 1 3 [[5; 6; 7]]) (mkTensor 1 3 [[1; 1; 1]])
           (mkTensor 1 2 [[8; 9]]) (mkTensor 1 2 [[1; 1]]));
    (split; [reflexivity | repeat constructor]).
Defined.

(** ** [concatenated_forward], padded path *)

Lemma concatenated_inputs_shape :
  forall pad_token_id chosen_ids c_mask reject_ids r_mask,
    exists input_ids att_masks,
      concatenated_inputs pad_token_id chosen_ids c_mask reject_ids r_mask
      = Ok (input_ids, att_masks) /\
      t_rows input_ids = (t_rows chosen_ids + t_rows reject_ids)%nat /\
      t_rows att_masks = (t_rows c_mask + t_rows r_mask)%nat.
Proof.
  intros pad chosen_ids c_mask reject_ids r_mask.
  unfold concatenated_inputs.
  destruct (pad_to_length_total chosen_ids
              (Z.of_nat (Nat.max (t_cols chosen_ids) (t_cols reject_ids))) pad)
    as (pc & Epc & Rpc & Hpc).
  destruct (pad_to_length_total reject_ids
              (Z.of_nat (Nat.max (t_cols chosen_ids) (t_cols reject_ids))) pad)
    as (pr & Epr & Rpr & Hpr).
  destruct (pad_to_length_total c_mask
              (Z.of_nat (Nat.max (t_cols c_mask) (t_cols r_mask))) 0)
    as (pcm & Epcm & Rpcm & Hpcm).
  destruct (pad_to_length_total r_mask
              (Z.of_nat (Nat.max (t_cols c_mask) (t_cols r_mask))) 0)
    as (prm & Eprm & Rprm & Hprm).
  rewrite Epc, Epr. simpl.
  unfold cat at 1. simpl. unfold cat_rows.
  replace (t_cols pc =? t_cols pr)%nat with true
    by (symmetry; apply Nat.eqb_eq; lia).
  simpl. rewrite Epcm, Eprm. simpl.
  unfold cat. simpl. unfold cat_rows.
  replace (t_cols pcm =? t_cols prm)%nat with true
    by (symmetry; apply Nat.eqb_eq; lia).
  simpl. eexists _, _. split; [reflexivity |]. simpl. lia.
Qed.

(** X2. On the padded path [concatenated_forward] makes one call to
    [custom_forward], on the concatenated inputs, and splits its rows
    at the chosen batch size.  When the model answers one row per
    input row, the chosen rewards are as many as the chosen sequences,
    the rejected rewards as many as the rejected ones, and together
    they are the whole answer. *)
Theorem padded_forward_splits_at_chosen_batch :
  forall (C : Collaborators) (self : Trainer)
         (chosen_ids c_mask reject_ids r_mask : Tensor)
         (return_output : bool) (h : list event) (l : Locals),
    self_packing_samples self = false ->
    exists input_ids att_masks,
      concatenated_inputs (pad_token_id self) chosen_ids c_mask reject_ids
        r_mask = Ok (input_ids, att_masks) /\
      t_rows input_ids = (t_rows chosen_ids + t_rows reject_ids)%nat /\
      let call := mkForwardCall (PTensor input_ids) (PTensor att_masks)
                    return_output None None in
      let answer := custom_forward C (h ++ [ECustomForward call]) call in
      let chosen := firstn (t_rows chosen_ids) (fst answer) in
      let rejected := skipn (t_rows chosen_ids) (fst answer) in
      concatenated_forward C self (PTensor chosen_ids) (PTensor c_mask)
        (PTensor reject_ids) (PTensor r_mask) return_output h l
      = (Ok (chosen, rejected, snd answer), l, [ECustomForward call]) /\
      (length (fst answer) = t_rows input_ids ->
         length chosen = t_rows chosen_ids /\
         length rejected = t_rows reject_ids /\
         chosen ++ rejected = fst answer).
Proof.
  intros C self ci cm ri rm ro h l Hpack.
  destruct (concatenated_inputs_shape (pad_token_id self) ci cm ri rm)
    as (input_ids & att_masks & Hcat & Hrows & _).
  exists input_ids, att_masks.
  split; [exact Hcat |]. split; [exact Hrows |].
  intros call answer chosen rejected. split.
  - unfold concatenated_forward. rewrite Hpack. cbn [negb].
    unfold bind, lift, emit, ask, ret. rewrite Hcat. cbn.
    rewrite !app_nil_r. fold call. fold answer.
    subst chosen rejected.
    destruct answer as [vals outs]. reflexivity.
  - intros Hlen. subst chosen rejected.
    rewrite length_firstn, length_skipn, firstn_skipn.
    repeat split; lia.
Qed.

Lemma padded_forward_splits_at_chosen_batch_witness :
  outcome_of
    (concatenated_forward ex_collaborators ex_non_packed_trainer
       (PTensor (mkTensor 1 3 [[5; 6; 7]])) (PTensor (mkTensor 1 3 [[1; 1; 1]]))
       (PTensor (mkTensor 1 2 [[8; 9]])) (PTensor (mkTensor 1 2 [[1; 1]]))
       false [] fresh_locals)
  = Ok ([[1%Q]], [[inject_Z 2]], None).
Proof.
  destruct (padded_forward_splits_at_chosen_batch ex_collaborators
              ex_non_packed_trainer (mkTensor 1 3 [[5; 6; 7]])
              (mkTensor 1 3 [[1; 1; 1]]) (mkTensor 1 2 [[8; 9]])
              (mkTensor 1 2 [[1; 1]]) false [] fresh_locals eq_refl)
    as (input_ids & att_masks & Hcat & _ & Hrun & _).
  rewrite Hrun. vm_compute in Hcat. injection Hcat as <- <-. reflexivity.
Defined.

(** ** [concatenated_forward], packed path with an odd count *)

(** X3. The packed path does not check that the number of sequence
    lengths is even.  With [n] lengths and at least [n] rows from the
    model it returns [n // 2] chosen rewards and [n - n // 2] rejected
    ones, dropping any row past the [n]-th; with an odd [n] the
    rejected half has one row more than the chosen half, and no
    exception is raised. *)
Theorem packed_split_does_not_check_parity :
  forall (C : Collaborators) (self : Trainer)
         (packed_input_ids packed_attention_masks r_mask : pyarg)
         (packed_seq_lens : list Z) (return_output : bool)
         (h : list event) (l : Locals),
    self_packing_samples self = true ->
    let n := length packed_seq_lens in
    let call :=
      mkForwardCall packed_input_ids packed_attention_masks return_output
        (ring_attn_group (strategy self)) (Some (PList packed_seq_lens)) in
    let answer := custom_forward C (h ++ [ECustomForward call]) call in
    (n <= length (fst answer))%nat ->
    exists chosen rejected,
      concatenated_forward C self packed_input_ids packed_attention_masks
        (PList packed_seq_lens) r_mask return_output h l
      = (Ok (chosen, rejected, snd answer), l, [ECustomForward call]) /\
      length chosen = (n / 2)%nat /\
      length rejected = (n - n / 2)%nat /\
      (Nat.odd n = true -> length rejected = S (length chosen)).
Proof.
  intros C self ids masks r_mask lens ro h l Hpack n call answer Hrows.
  pose proof (concatenated_forward_packed C self Hpack ids masks r_mask lens
                ro h l) as Hrun.
  cbv zeta in Hrun. fold call in Hrun. fold answer in Hrun. fold n in Hrun.
  eexists _, _. split; [exact Hrun |].
  assert (Hhalf : (n / 2 <= n)%nat) by (apply Nat.Div0.div_le_upper_bound; lia).
  unfold slice. rewrite length_firstn, length_skipn, length_firstn.
  split; [lia |]. split; [lia |].
  intros Hodd. apply Nat.odd_spec in Hodd. destruct Hodd as [k Hk].
  assert (Hdiv : (n / 2 = k)%nat).
  { rewrite Hk. rewrite Nat.add_comm, Nat.mul_comm.
    rewrite Nat.div_add by lia. reflexivity. }
  lia.
Qed.

Lemma packed_split_does_not_check_parity_witness :
  exists chosen rejected outputs,
    outcome_of
      (concatenated_forward ex_collaborators ex_packed_trainer
         (PTensor (mkTensor 1 32 [repeat 7 32]))
         (PTensor (mkTensor 1 32 [repeat 1 32]))
         (PList [10; 12; 10]) PNone false [] fresh_locals)
    = Ok (chosen, rejected, outputs) /\
    length chosen = 1%nat /\ length rejected = 2%nat.
Proof.
  destruct (packed_split_does_not_check_parity ex_collaborators
              ex_packed_trainer (PTensor (mkTensor 1 32 [repeat 7 32]))
              (PTensor (mkTensor 1 32 [repeat 1 32])) PNone [10; 12; 10]
              false [] fresh_locals eq_refl)
    as (chosen & rejected & Hrun & Hc & Hr & _).
  - vm_compute. lia.
  - exists chosen, rejected, None. rewrite Hrun.
    split; [reflexivity |]. split; assumption.
Defined.

(** ** [pad_to_length] along the batch dimension *)

(** X4. With [dim] naming the batch dimension ([0] or [-2]),
    [pad_to_length] returns a tensor with at least [length] rows
    unchanged and otherwise prepends rows filled with the pad value up
    to exactly [length] rows, keeping the width; a [dim] outside
    [-2 .. 1] raises [IndexError]. *)
Theorem pad_to_length_dim_batch_and_bounds :
  forall (tensor : Tensor) (len pad_value dim : Z),
    (dim = 0 \/ dim = -2 ->
     Z.of_nat (t_rows tensor) < len ->
       pad_to_length_dim tensor len pad_value dim
       = Ok (mkTensor (Z.to_nat len) (t_cols tensor)
               (repeat (repeat pad_value (t_cols tensor))
                       (Z.to_nat len - t_rows tensor)
                ++ t_data tensor))) /\
    (dim = 0 \/ dim = -2 ->
     len <= Z.of_nat (t_rows tensor) ->
       pad_to_length_dim tensor len pad_value dim = Ok tensor) /\
    (dim < -2 \/ 1 < dim ->
       pad_to_length_dim tensor len pad_value dim = Raise IndexError).
Proof.
  intros tensor len v dim. split; [| split].
  - intros Hdim Hlt.
    unfold pad_to_length_dim, size, pad_size, cat.
    assert (Hcols : (dim =? -1) || (dim =? 1) = false)
      by (destruct Hdim as [-> | ->]; reflexivity).
    assert (Hrows : (dim =? 0) || (dim =? -2) = true)
      by (destruct Hdim as [-> | ->]; reflexivity).
    rewrite Hcols, Hrows. cbn [obind].
    destruct (Z.of_nat (t_rows tensor) >=? len) eqn:E.
    { rewrite Z.geb_leb in E. apply Z.leb_le in E. lia. }
    cbn [obind fst snd]. unfold cat_rows, full. cbn [t_cols t_rows t_data].
    rewrite Nat.eqb_refl, Z.mul_1_r.
    f_equal. f_equal; [lia |]. f_equal. f_equal. lia.
  - intros Hdim Hle.
    unfold pad_to_length_dim, size.
    assert (Hcols : (dim =? -1) || (dim =? 1) = false)
      by (destruct Hdim as [-> | ->]; reflexivity).
    assert (Hrows : (dim =? 0) || (dim =? -2) = true)
      by (destruct Hdim as [-> | ->]; reflexivity).
    rewrite Hcols, Hrows. cbn [obind].
    destruct (Z.of_nat (t_rows tensor) >=? len) eqn:E; [reflexivity |].
    rewrite Z.geb_leb in E. apply Z.leb_gt in E. lia.
  - intros Hdim.
    unfold pad_to_length_dim, size.
    assert (Hcols : (dim =? -1) || (dim =? 1) = false).
    { apply orb_false_intro; apply Z.eqb_neq; lia. }
    assert (Hrows : (dim =? 0) || (dim =? -2) = false).
    { apply orb_false_intro; apply Z.eqb_neq; lia. }
    rewrite Hcols, Hrows. reflexivity.
Qed.

Lemma pad_to_length_dim_batch_and_bounds_witness :
  pad_to_length_dim (mkTensor 1 2 [[8; 9]]) 3 0 0
  = Ok (mkTensor 3 2 [[0; 0]; [0; 0]; [8; 9]]) /\
  pad_to_length_dim (mkTensor 1 2 [[8; 9]]) 1 0 (-2)
  = Ok (mkTensor 1 2 [[8; 9]]) /\
  pad_to_length_dim (mkTensor 1 2 [[8; 9]]) 3 0 2 = Raise IndexError.
Proof.
  destruct (pad_to_length_dim_batch_and_bounds (mkTensor 1 2 [[8; 9]]) 3 0 0)
    as (Hpad & _ & _).
  destruct (pad_to_length_dim_batch_and_bounds (mkTensor 1 2 [[8; 9]]) 1 0 (-2))
    as (_ & Hsame & _).
  destruct (pad_to_length_dim_batch_and_bounds (mkTensor 1 2 [[8; 9]]) 3 0 2)
    as (_ & _ & Hbad).
  split; [apply Hpad; [left; reflexivity | simpl; lia] |].
  split; [apply Hsame; [right; reflexivity | simpl; lia] |].
  apply Hbad. right. lia.
Defined.

(** ** Train and validation split of the command line *)

Lemma skipn_cons_nth_error :
  forall {A} (l : list A) (a : nat) (x : A),
    nth_error l a = Some x -> skipn a l = x :: skipn (S a) l.
Proof.
  intros A l. induction l as [| y l IH]; intros a x Hnth.
  - destruct a; discriminate.
  - destruct a as [| a]; simpl in *.
    + injection Hnth as ->. reflexivity.
    + apply IH. exact Hnth.
Qed.

Lemma select_consecutive :
  forall {A} (data : list A) (n a : nat),
    (a + n <= length data)%nat ->
    select data (map (fun i => Z.of_nat a + Z.of_nat i) (seq 0 n))
    = Ok (firstn n (skipn a data)).
Proof.
  intros A data n. induction n as [| n IH]; intros a Hle.
  - reflexivity.
  - assert (E : (Z.of_nat a + Z.of_nat 0 <? 0) = false)
      by (apply Z.ltb_ge; lia).
    destruct (nth_error data a) as [x |] eqn:Hnth.
    2: { apply nth_error_None in Hnth. lia. }
    cbn [seq map select]. cbv zeta. rewrite !E.
    replace (Z.to_nat (Z.of_nat a + Z.of_nat 0)) with a by lia.
    rewrite Hnth.
    rewrite <- seq_shift, map_map.
    rewrite (map_ext _ (fun i => Z.of_nat (S a) + Z.of_nat i))
      by (intros i; lia).
    rewrite IH by lia. cbn [obind].
    rewrite (skipn_cons_nth_error data a x Hnth). reflexivity.
Qed.

Lemma select_range :
  forall {A} (data : list A) (a b : Z),
    0 <= a <= b -> b <= Z.of_nat (length data) ->
    select data (py_range a b)
    = Ok (skipn (Z.to_nat a) (firstn (Z.to_nat b) data)).
Proof.
  intros A data a b Hab Hb. unfold py_range.
  rewrite (map_ext _ (fun i => Z.of_nat (Z.to_nat a) + Z.of_nat i))
    by (intros i; lia).
  rewrite select_consecutive by lia.
  rewrite firstn_skipn_comm. f_equal. f_equal. f_equal. lia.
Qed.

(** X5. With [train_split_ratio < 1] the split index is
    [int(total_data_length * train_split_ratio)], the product being the
    binary64 one, for [total_data_length = min(max_samples,
    len(total_data))].  Whenever that index lies between [0] and
    [total_data_length], the training part is the examples before the
    index and the validation part those from it up to
    [total_data_length], so the two share no example and miss none of
    the first [total_data_length].  When [train_split_ratio < 1] does
    not hold the training data is the whole dataset, whatever
    [max_samples] is, and there is no validation data. *)
Theorem split_train_eval_partitions :
  forall (A : Type) (total_data : list A) (max_samples : Z)
         (train_split_ratio : spec_float),
    valid_binary 53 1024 train_split_ratio = true ->
    let n := Z.min max_samples (Z.of_nat (length total_data)) in
    (SFltb train_split_ratio float_one = true ->
     forall x k,
       float_of_int n = Ok x ->
       py_int (SFmul 53 1024 x train_split_ratio) = Ok k ->
       0 <= k <= n ->
       exists train_data eval_data,
         split_train_eval total_data max_samples train_split_ratio
         = Ok (train_data, Some eval_data) /\
         train_data = firstn (Z.to_nat k) total_data /\
         train_data ++ eval_data = firstn (Z.to_nat n) total_data /\
         Z.of_nat (length train_data) = k /\
         Z.of_nat (length eval_data) = n - k) /\
    (SFltb train_split_ratio float_one = false ->
       split_train_eval total_data max_samples train_split_ratio
       = Ok (total_data, None)).
Proof.
  intros A total_data max_samples ratio _ n. split.
  - intros Hlt x k Hx Hint Hk.
    assert (Hn : 0 <= n <= Z.of_nat (length total_data)) by (subst n; lia).
    unfold split_train_eval, mul_int_float. fold n.
    rewrite Hlt, Hx. cbn [obind]. rewrite Hint. cbn [obind].
    rewrite (select_range total_data 0 k) by lia.
    rewrite (select_range total_data k n) by lia.
    cbn [obind]. rewrite skipn_O.
    eexists _, _. split; [reflexivity |].
    assert (Hfirst : firstn (Z.to_nat k) total_data
                     = firstn (Z.to_nat k) (firstn (Z.to_nat n) total_data)).
    { rewrite firstn_firstn. f_equal. lia. }
    split; [reflexivity |].
    split; [rewrite Hfirst; apply firstn_skipn |].
    rewrite length_firstn, length_skipn, length_firstn. lia.
  - intros Hge. unfold split_train_eval. rewrite Hge. reflexivity.
Qed.

(** On a hundred examples and the ratio [0.29] the float product is
    [28.999999999999996] and the cut is at 28, not 29. *)
Lemma split_train_eval_partitions_witness :
  split_train_eval (seq 0 100) 1000000 ex_ratio_029
  = Ok (seq 0 28, Some (seq 28 72)) /\
  split_train_eval (seq 0 100) 1000000 float_one = Ok (seq 0 100, None).
Proof.
  destruct (split_train_eval_partitions nat (seq 0 100) 1000000 ex_ratio_029
              eq_refl) as (Hsplit & _).
  destruct (split_train_eval_partitions nat (seq 0 100) 1000000 float_one
              eq_refl) as (_ & Hall).
  split.
  - destruct (Hsplit eq_refl (S754_finite false 7036874417766400 (-46)) 28)
      as (train_data & eval_data & Hrun & Htrain & _ & _);
      [reflexivity | reflexivity | vm_compute; split; discriminate |].
    rewrite Hrun. vm_compute in Hrun. injection Hrun as <- <-. reflexivity.
  - apply Hall. reflexivity.
Defined.

(** ** [evaluate]: modes, return value and probabilities *)

(** The whole of [evaluate] in terms of what happens inside
    [with torch.no_grad()]. *)
Lemma evaluate_shape :
  forall C self eval_dataloader_arg steps h l,
    exists (inner : outcome Q) (ev : list event),
      (forall P : event -> Prop,
         (forall c, P (ECustomForward c)) ->
         (forall f a, P (ELossFn f a)) ->
         (forall m, P (EAllReduce m)) ->
         (forall m, P (EWandbLog m)) ->
         Forall P ev) /\
      evaluate C self eval_dataloader_arg steps h l
      = match inner with
        | Ok loss_mean =>
            (Ok (if is_rank_0 (strategy self) then Some loss_mean else None),
             l,
             EModelEval :: ENoGradEnter
               :: ev ++ [ENoGradExit; EModelTrain; EEmptyCache])
        | Raise e =>
            (Raise e, l, EModelEval :: ENoGradEnter :: ev ++ [ENoGradExit])
        end.
Proof.
  intros C self arg steps h l.
  unfold evaluate, call_method.
  unfold bind at 1. unfold emit at 1. cbn beta iota.
  unfold bind at 1. unfold with_no_grad.
  match goal with
  | |- context [?X ((h ++ [EModelEval]) ++ [ENoGradEnter]) fresh_locals] =>
      assert (HX : forall P : event -> Prop,
                (forall c, P (ECustomForward c)) ->
                (forall f a, P (ELossFn f a)) ->
                (forall m, P (EAllReduce m)) ->
                (forall m, P (EWandbLog m)) ->
                emits_only P X);
      [ intros P P1 P2 P3 P4; emits; apply emits_evaluate_batch; assumption
      | destruct (X ((h ++ [EModelEval]) ++ [ENoGradEnter]) fresh_locals)
          as [[[loss_mean | e] l1] ev] eqn:Hinner ]
  end.
  - exists (Ok loss_mean), ev. split.
    + intros P P1 P2 P3 P4.
      specialize (HX P P1 P2 P3 P4 ((h ++ [EModelEval]) ++ [ENoGradEnter])
                    fresh_locals).
      rewrite Hinner in HX. exact HX.
    + cbn. rewrite <- !app_assoc. reflexivity.
  - exists (Raise e), ev. split.
    + intros P P1 P2 P3 P4.
      specialize (HX P P1 P2 P3 P4 ((h ++ [EModelEval]) ++ [ENoGradEnter])
                    fresh_locals).
      rewrite Hinner in HX. exact HX.
    + reflexivity.
Qed.

Lemma loss_answers_app :
  forall C ev1 ev2 h,
    loss_answers C h (ev1 ++ ev2)
    = loss_answers C h ev1 ++ loss_answers C (h ++ ev1) ev2.
Proof.
  intros C ev1 ev2. induction ev1 as [| e ev1 IH]; intros h.
  - cbn [app loss_answers]. rewrite app_nil_r. reflexivity.
  - cbn [app loss_answers]. rewrite IH, <- !app_assoc. reflexivity.
Qed.

Lemma loss_answers_none :
  forall C ev h,
    Forall (fun e => is_loss_fn e = false) ev -> loss_answers C h ev = [].
Proof.
  intros C ev. induction ev as [| e ev IH]; intros h Hev; [reflexivity |].
  inversion Hev as [| ? ? He Hrest]; subst.
  cbn [loss_answers]. rewrite (IH _ Hrest).
  destruct e; try reflexivity; discriminate He.
Qed.

Lemma call_loss_fn_loss_answer :
  forall C self a h l preference_loss prob l1 ev,
    call_loss_fn C self a h l = (Ok (preference_loss, prob), l1, ev) ->
    loss_answers C h ev = [preference_loss].
Proof.
  intros C self a h l pl prob l1 ev H.
  unfold call_loss_fn, bind, emit, ask in H. cbn in H.
  injection H as Hanswer _ <-.
  cbn [loss_answers app]. rewrite Hanswer. reflexivity.
Qed.

(** One batch of [evaluate] calls the loss once and adds what it
    returns to [loss_sum]. *)
Lemma evaluate_batch_adds_loss :
  forall C self data loss_sum prob_sum h l loss_sum' prob_sum' l' ev,
    evaluate_batch C self data (loss_sum, prob_sum) h l
    = (Ok (loss_sum', prob_sum'), l', ev) ->
    exists loss,
      loss_answers C h ev = [loss] /\ loss_sum' = (loss_sum + loss)%Q.
Proof.
  intros C self data loss_sum prob_sum h l loss_sum' prob_sum' l' ev H.
  unfold evaluate_batch in H.
  bind_inv H. destruct a as [margin crl].
  bind_inv H. destruct a as [[chosen_reward reject_reward] outputs].
  bind_inv H. destruct a as [preference_loss prob].
  bind_inv H. unfold ret in H. injection H as <- _ _ <-.
  unfold lift in Hm2. injection Hm2 as _ _ <-.
  assert (H0 : loss_answers C h ev0 = []).
  { apply loss_answers_none.
    pose proof (emits_unpack_batch self (fun e => is_loss_fn e = false)
                  data h l) as Hsilent.
    rewrite Hm in Hsilent. exact Hsilent. }
  assert (H2 : loss_answers C (h ++ ev0) ev2 = []).
  { apply loss_answers_none.
    pose proof (emits_forward_current_path C self
                  (fun e => is_loss_fn e = false) (fun _ => eq_refl)
                  (if is_HighDimGeneralPreferenceRegressionMoELoss
                        (loss_fn self) then true else false)
                  (h ++ ev0) l0) as Hsilent.
    rewrite Hm0 in Hsilent. exact Hsilent. }
  assert (H4 : loss_answers C ((h ++ ev0) ++ ev2) ev4 = [preference_loss]).
  { destruct (is_HighDimGeneralPreferenceRegressionMoELoss (loss_fn self)).
    - bind_inv Hm1. bind_inv Hm1. bind_inv Hm1.
      repeat match goal with
             | Hx : lift _ _ _ = (_, _, _) |- _ =>
                 unfold lift in Hx; injection Hx as _ _ <-
             | Hx : read_local _ _ _ _ = (_, _, _) |- _ =>
                 unfold read_local in Hx;
                 destruct (l_chosen_ids _);
                 [injection Hx as _ _ <- | discriminate Hx]
             end.
      subst. rewrite !app_nil_r in Hm1. cbn [app].
      exact (call_loss_fn_loss_answer _ _ _ _ _ _ _ _ _ Hm1).
    - exact (call_loss_fn_loss_answer _ _ _ _ _ _ _ _ _ Hm1). }
  exists preference_loss. subst.
  rewrite !loss_answers_app, H0, H2, H4, !app_nil_r. cbn [loss_answers app].
  split; reflexivity.
Qed.

(** The loop of [evaluate] calls the loss once per batch and sums what
    it returns, in the order of the loader. *)
Lemma evaluate_loop_sums :
  forall C self loader loss_sum prob_sum h l loss_sum' prob_sum' l' ev,
    for_each (evaluate_batch C self) loader (loss_sum, prob_sum) h l
    = (Ok (loss_sum', prob_sum'), l', ev) ->
    length (loss_answers C h ev) = length loader /\
    loss_sum' = fold_left Qplus (loss_answers C h ev) loss_sum.
Proof.
  intros C self loader.
  induction loader as [| data loader IH];
    intros loss_sum prob_sum h l loss_sum' prob_sum' l' ev H.
  - cbn in H. unfold ret in H. injection H as <- _ _ <-.
    split; reflexivity.
  - cbn [for_each] in H. bind_inv H. destruct a as [loss_sum1 prob_sum1].
    destruct (evaluate_batch_adds_loss _ _ _ _ _ _ _ _ _ _ _ Hm)
      as (loss & Hanswer & ->).
    destruct (IH _ _ _ _ _ _ _ _ H) as [Hlen Hsum].
    subst ev. rewrite loss_answers_app, Hanswer. cbn [app length fold_left].
    split; [congruence | exact Hsum].
Qed.

(** What [evaluate] returns: the sum of the losses of its batches
    divided by the length of [self.eval_dataloader]. *)
Lemma evaluate_returns_mean :
  forall C self loader steps h l r l' ev,
    evaluate C self loader steps h l = (Ok r, l', ev) ->
    length (loss_answers C h ev) = length loader /\
    r = if is_rank_0 (strategy self)
        then Some (fold_left Qplus (loss_answers C h ev) 0
                   / inject_Z (Z.of_nat (length (eval_dataloader self))))%Q
        else None.
Proof.
  intros C self loader steps h l r l' ev H.
  unfold evaluate, call_method in H.
  match type of H with
  | (match ?body h fresh_locals with _ => _ end) = _ =>
      destruct (body h fresh_locals) as [[o l1] ev1] eqn:Hbody
  end.
  injection H as -> _ ->.
  bind_inv Hbody. unfold emit in Hm. injection Hm as _ <- <-.
  bind_inv Hbody. rename a0 into loss_mean.
  unfold with_no_grad in Hm.
  match type of Hm with
  | (match ?inner ?hh ?ll with _ => _ end) = _ =>
      destruct (inner hh ll) as [[o2 l3] ev3] eqn:Hinner
  end.
  injection Hm as -> <- <-.
  bind_inv Hinner. destruct a0 as [loss_sum prob_sum].
  destruct (evaluate_loop_sums _ _ _ _ _ _ _ _ _ _ _ Hm) as [Hlen Hsum].
  assert (Hrest : Forall (fun e => is_loss_fn e = false) ev4).
  { match type of Hinner with
    | ?k ?hh ?ll = _ =>
        assert (Hk : emits_only (fun e => is_loss_fn e = false) k)
          by emits;
        specialize (Hk hh ll); rewrite Hinner in Hk; exact Hk
    end. }
  assert (Hmean : loss_mean
                  = (loss_sum
                     / inject_Z (Z.of_nat (length (eval_dataloader self))))%Q).
  { unfold py_truediv in Hinner.
    destruct (Z.of_nat (length (eval_dataloader self)) =? 0).
    - unfold bind, lift in Hinner. discriminate Hinner.
    - repeat bind_inv Hinner.
      unfold lift in Hm0. injection Hm0 as <- _ _.
      unfold ret in Hinner. injection Hinner as <- _ _. reflexivity. }
  bind_inv Hbody. bind_inv Hbody.
  unfold emit in Hm0, Hm1. injection Hm0 as _ _ <-. injection Hm1 as _ _ <-.
  unfold ret in Hbody. injection Hbody as <- _ <-.
  subst.
  cbn [app loss_answers]. rewrite !loss_answers_app.
  match goal with
  | Hsilent : Forall (fun e => is_loss_fn e = false) ?rest |- _ =>
      rewrite (loss_answers_none C rest) by exact Hsilent
  end.
  cbn [loss_answers app]. rewrite !app_nil_r.
  split; [exact Hlen | reflexivity].
Qed.

(** X6. [evaluate] on a loader puts the model in evaluation mode first
    and calls [self.model.train()] and [torch.cuda.empty_cache()] only
    when it returns: if anything raises inside, the model is left in
    evaluation mode.  When it returns it has called the loss once per
    batch of its argument, and the result on rank 0 is the sum of the
    losses returned, taken in order from [0], divided by the length of
    [self.eval_dataloader]; it is [None] on the other ranks.  On the
    argument [None] it raises [AttributeError] before touching the
    model.  The caller's local variables are untouched in every
    case. *)
Theorem evaluate_restores_training_mode_only_on_return :
  forall (C : Collaborators) (self : Trainer)
         (eval_dataloader_arg : option (list Batch)) (steps : Z)
         (h : list event) (l : Locals),
    let run := evaluate_argument C self eval_dataloader_arg steps h l in
    locals_of run = l /\
    (eval_dataloader_arg = None -> run = (Raise AttributeError, l, [])) /\
    (forall loader,
       eval_dataloader_arg = Some loader ->
       (forall r,
          outcome_of run = Ok r ->
          (exists evs,
             events_of run
             = EModelEval :: ENoGradEnter
                 :: evs ++ [ENoGradExit; EModelTrain; EEmptyCache] /\
             Forall (fun e => is_model_train e = false) evs) /\
          length (loss_answers C h (events_of run)) = length loader /\
          r = if is_rank_0 (strategy self)
              then Some (fold_left Qplus (loss_answers C h (events_of run)) 0
                         / inject_Z
                             (Z.of_nat (length (eval_dataloader self))))%Q
              else None) /\
       (forall e,
          outcome_of run = Raise e ->
          In EModelEval (events_of run) /\
          Forall (fun ev => is_model_train ev = false) (events_of run))).
Proof.
  intros C self arg steps h l run. subst run.
  destruct arg as [loader |]; cbn [evaluate_argument].
  2: { split; [reflexivity |]. split; [reflexivity |].
       intros loader Hsome. discriminate Hsome. }
  destruct (evaluate_shape C self loader steps h l)
    as (inner & ev & Hev & Hrun).
  specialize (Hev (fun e => is_model_train e = false)
                (fun _ => eq_refl) (fun _ _ => eq_refl)
                (fun _ => eq_refl) (fun _ => eq_refl)).
  pose proof (evaluate_returns_mean C self loader steps h l) as Hmean.
  rewrite Hrun in *. destruct inner as [loss_mean | e0];
    unfold locals_of, outcome_of, events_of; cbn [fst snd].
  - split; [reflexivity |]. split; [intros Hnone; discriminate Hnone |].
    intros loader' Hsome. injection Hsome as <-. split.
    + intros r Hr. injection Hr as <-.
      destruct (Hmean _ _ _ eq_refl) as [Hlen Hvalue].
      split; [exists ev; split; [reflexivity | exact Hev] |].
      split; [exact Hlen | exact Hvalue].
    + intros e He. discriminate He.
  - split; [reflexivity |]. split; [intros Hnone; discriminate Hnone |].
    intros loader' Hsome. injection Hsome as <-. split.
    + intros r Hr. discriminate Hr.
    + intros e _. split; [left; reflexivity |].
      constructor; [reflexivity |]. constructor; [reflexivity |].
      apply Forall_app. split; [exact Hev | repeat constructor].
Qed.

Lemma evaluate_restores_training_mode_only_on_return_witness :
  let run :=
    evaluate_argument ex_counting_collaborators ex_two_eval_batches_trainer
      (Some [ex_packed_batch; ex_packed_batch]) 0 [] fresh_locals in
  let failed :=
    evaluate_argument ex_per_sample_collaborators ex_packed_trainer
      (Some [ex_packed_batch]) 0 [] fresh_locals in
  outcome_of run = Ok (Some (3 # 2)) /\
  loss_answers ex_counting_collaborators [] (events_of run)
  = [inject_Z 1; inject_Z 2] /\
  Some (3 # 2)
  = Some (fold_left Qplus
            (loss_answers ex_counting_collaborators [] (events_of run)) 0
          / inject_Z 2)%Q /\
  outcome_of failed = Raise RuntimeError /\
  In EModelEval (events_of failed) /\
  Forall (fun ev => is_model_train ev = false) (events_of failed) /\
  evaluate_argument ex_collaborators ex_packed_trainer None 0 []
    fresh_locals = (Raise AttributeError, fresh_locals, []).
Proof.
  intros run failed.
  destruct (evaluate_restores_training_mode_only_on_return
              ex_counting_collaborators ex_two_eval_batches_trainer
              (Some [ex_packed_batch; ex_packed_batch]) 0 [] fresh_locals)
    as (_ & _ & Hloader).
  destruct (Hloader _ eq_refl) as (Hok & _).
  destruct (Hok (Some (3 # 2)) eq_refl) as (_ & _ & Hvalue).
  destruct (evaluate_restores_training_mode_only_on_return
              ex_per_sample_collaborators ex_packed_trainer
              (Some [ex_packed_batch]) 0 [] fresh_locals)
    as (_ & _ & Hloader').
  destruct (Hloader' _ eq_refl) as (_ & Hraise).
  destruct (Hraise RuntimeError eq_refl) as (Hin & Hmode).
  destruct (evaluate_restores_training_mode_only_on_return
              ex_collaborators ex_packed_trainer None 0 [] fresh_locals)
    as (_ & Hnone & _).
  split; [reflexivity |].
  split; [reflexivity |].
  split; [exact Hvalue |].
  split; [reflexivity |].
  split; [exact Hin |].
  split; [exact Hmode |].
  exact (Hnone eq_refl).
Defined.

Lemma bind_raises_when :
  forall {A B} (m : M A) (k : A -> M B) h l,
    (forall a l1 ev1,
       m h l = (Ok a, l1, ev1) ->
       raised (outcome_of (k a (h ++ ev1) l1)) = true) ->
    raised (outcome_of (bind m k h l)) = true.
Proof.
  intros A B m k h l Hk. unfold bind.
  destruct (m h l) as [[[a | e] l1] ev1]; [| reflexivity].
  specialize (Hk a l1 ev1 eq_refl).
  destruct (k a (h ++ ev1) l1) as [[r l2] ev2]. exact Hk.
Qed.

Lemma call_loss_fn_answer :
  forall C self args h l r l1 ev,
    call_loss_fn C self args h l = (Ok r, l1, ev) ->
    exists h0, r = loss_fn_call C h0 (loss_fn self) args.
Proof.
  intros C self args h l r l1 ev H.
  unfold call_loss_fn, bind, emit, ask in H. cbn in H.
  injection H as <- _ _. eexists. reflexivity.
Qed.

Lemma item_of_several :
  forall probs : list Q, length probs <> 1%nat -> raised (item probs) = true.
Proof.
  intros [| x [| y rest]] Hlen; simpl in *; congruence.
Qed.

Lemma evaluate_batch_needs_one_probability :
  forall C self,
    (forall h0 args,
       length (snd (loss_fn_call C h0 (loss_fn self) args)) <> 1%nat) ->
    forall data sums h l,
      raised (outcome_of (evaluate_batch C self data sums h l)) = true.
Proof.
  intros C self Hprobs data [loss_sum prob_sum] h l.
  unfold evaluate_batch.
  apply bind_raises_when. intros [margin crl] l1 ev1 _.
  apply bind_raises_when. intros [[chosen_reward reject_reward] outputs] l2 ev2 _.
  apply bind_raises_when. intros [preference_loss prob] l3 ev3 Hloss.
  assert (Hlen : length prob <> 1%nat).
  { destruct (is_HighDimGeneralPreferenceRegressionMoELoss (loss_fn self)).
    - bind_inv Hloss. bind_inv Hloss. bind_inv Hloss.
      apply call_loss_fn_answer in Hloss. destruct Hloss as [h0 Heq].
      pose proof (Hprobs h0 [LRewards chosen_reward; LRewards reject_reward;
                             LHidden a1; LMargin (Some margin)]) as Hp.
      rewrite <- Heq in Hp. exact Hp.
    - apply call_loss_fn_answer in Hloss. destruct Hloss as [h0 Heq].
      pose proof (Hprobs h0 [LRewards chosen_reward; LRewards reject_reward;
                             LMargin (Some margin)]) as Hp.
      rewrite <- Heq in Hp. exact Hp. }
  apply bind_raises_left. unfold lift, outcome_of. simpl.
  apply item_of_several. exact Hlen.
Qed.

Lemma for_each_first_raises :
  forall {A S} (P : event -> Prop) (body : A -> S -> M S) xs s h l,
    xs <> [] ->
    (forall x s h l, raised (outcome_of (body x s h l)) = true) ->
    (forall x s, emits_only P (body x s)) ->
    exists e l1 ev,
      for_each body xs s h l = (Raise e, l1, ev) /\ Forall P ev.
Proof.
  intros A S P body xs s h l Hne Hraise Hemits.
  destruct xs as [| x xs]; [congruence |]. simpl.
  specialize (Hraise x s h l). specialize (Hemits x s h l).
  destruct (body x s h l) as [[[s1 | e] l1] ev] eqn:Hbody;
    [discriminate Hraise |].
  exists e, l1, ev. split; [| exact Hemits].
  apply bind_raise_left. exact Hbody.
Qed.

Lemma evaluate_loop_raises :
  forall C self batches steps h l e l1 ev,
    for_each (evaluate_batch C self) batches (0%Q, 0%Q)
      ((h ++ [EModelEval]) ++ [ENoGradEnter]) fresh_locals
    = (Raise e, l1, ev) ->
    evaluate C self batches steps h l
    = (Raise e, l, EModelEval :: ENoGradEnter :: ev ++ [ENoGradExit]).
Proof.
  intros C self batches steps h l e l1 ev Hloop.
  unfold evaluate, call_method.
  unfold bind at 1. unfold emit at 1. cbn beta iota.
  unfold bind at 1. unfold with_no_grad.
  unfold bind at 1. rewrite Hloop. reflexivity.
Qed.

(** X7. [evaluate] sums [prob.item()], which needs a probability
    tensor of exactly one element.  With a loss that returns any other
    number of probabilities, [evaluate] on a loader that has a batch
    raises on the first batch, before any metric is reduced or
    logged. *)
Theorem evaluate_needs_one_probability_per_batch :
  forall (C : Collaborators) (self : Trainer) (data : Batch)
         (rest : list Batch) (steps : Z) (h : list event) (l : Locals),
    (forall h0 args,
       length (snd (loss_fn_call C h0 (loss_fn self) args)) <> 1%nat) ->
    let run := evaluate C self (data :: rest) steps h l in
    raised (outcome_of run) = true /\
    Forall (fun e => is_all_reduce e = false /\ is_wandb_event e = false)
      (events_of run).
Proof.
  intros C self data rest steps h l Hprobs run.
  destruct (for_each_first_raises
              (fun e => is_all_reduce e = false /\ is_wandb_event e = false)
              (evaluate_batch C self) (data :: rest) (0%Q, 0%Q)
              ((h ++ [EModelEval]) ++ [ENoGradEnter]) fresh_locals)
    as (e & l1 & ev & Hloop & Hev).
  - discriminate.
  - intros x s h0 l0. apply evaluate_batch_needs_one_probability. exact Hprobs.
  - intros x s. apply emits_evaluate_batch; intros; split; reflexivity.
  - subst run. rewrite (evaluate_loop_raises _ _ _ _ _ _ _ _ _ Hloop).
    unfold outcome_of, events_of. cbn [fst snd raised].
    split; [reflexivity |].
    constructor; [split; reflexivity |].
    constructor; [split; reflexivity |].
    apply Forall_app. split; [exact Hev | repeat constructor].
Qed.

Lemma evaluate_needs_one_probability_per_batch_witness :
  raised
    (outcome_of (evaluate ex_per_sample_collaborators ex_packed_trainer
                   [ex_packed_batch] 0 [] fresh_locals)) = true /\
  Forall (fun e => is_all_reduce e = false /\ is_wandb_event e = false)
    (events_of (evaluate ex_per_sample_collaborators ex_packed_trainer
                  [ex_packed_batch] 0 [] fresh_locals)).
Proof.
  apply (evaluate_needs_one_probability_per_batch ex_per_sample_collaborators
           ex_packed_trainer ex_packed_batch [] 0 [] fresh_locals).
  intros h0 args. simpl. discriminate.
Defined.

(** ** [fit]: arguments outside the usable range *)

(** X8. [fit] cannot run with the default of its parameter
    [num_update_steps_per_epoch]: with [None] it raises [TypeError]
    before the first epoch.  Called from the command line with a
    training set smaller than [train_batch_size], the number of steps
    per epoch is [0] and [fit] raises [ZeroDivisionError], again
    before any call to the model, the sampler or the strategy. *)
Theorem fit_stops_on_unusable_step_count :
  forall (C : Collaborators) (IGNORE_INDEX : Z) (self : Trainer)
         (args : Args) (consumed_samples : Z) (h : list event) (l : Locals),
    (train_batch_size args <> 0 ->
       fit C IGNORE_INDEX self args consumed_samples None h l
       = (Raise TypeError, l, [])) /\
    (forall train_dataset_len,
       0 <= train_dataset_len < train_batch_size args ->
       cli_num_update_steps_per_epoch train_dataset_len args = Ok 0 /\
       cli_fit C IGNORE_INDEX self args train_dataset_len consumed_samples h l
       = (Raise ZeroDivisionError, l, [])).
Proof.
  intros C IGN self args k h l. split.
  - intros HB. apply Z.eqb_neq in HB.
    unfold fit, restore, py_floordiv. rewrite HB. reflexivity.
  - intros n Hn.
    assert (HB : (train_batch_size args =? 0) = false)
      by (apply Z.eqb_neq; lia).
    assert (Hsteps : cli_num_update_steps_per_epoch n args = Ok 0).
    { unfold cli_num_update_steps_per_epoch, py_floordiv. rewrite HB.
      rewrite Z.div_small by lia. reflexivity. }
    split; [exact Hsteps |].
    unfold cli_fit. rewrite Hsteps.
    unfold fit, restore, py_floordiv. rewrite HB. reflexivity.
Qed.

Lemma fit_stops_on_unusable_step_count_witness :
  fit ex_collaborators ex_ignore_index ex_packed_trainer
    (ex_args true false false) 0 None [] fresh_locals
  = (Raise TypeError, fresh_locals, []) /\
  cli_fit ex_collaborators ex_ignore_index ex_packed_trainer
    (ex_args true false false) 100 0 [] fresh_locals
  = (Raise ZeroDivisionError, fresh_locals, []).
Proof.
  destruct (fit_stops_on_unusable_step_count ex_collaborators ex_ignore_index
              ex_packed_trainer (ex_args true false false) 0 [] fresh_locals)
    as (Hnone & Hsmall).
  split.
  - apply Hnone. discriminate.
  - apply (Hsmall 100). simpl. lia.
Defined.

(** X9. Resuming after the last epoch trains nothing: with positive
    batch size and steps per epoch, when [consumed_samples] is at least
    [epochs * steps_per_epoch * train_batch_size] the epoch range is
    empty, [fit] returns without any call to the model, the sampler or
    the strategy (wandb is still closed where it is open), and the
    step counter is left at its restored value. *)
Theorem fit_resumed_after_last_epoch_trains_nothing :
  forall (C : Collaborators) (IGNORE_INDEX : Z) (self : Trainer)
         (args : Args) (k S : Z) (h : list event) (l : Locals),
    0 < train_batch_size args ->
    0 < S ->
    epochs self * S * train_batch_size args <= k ->
    exists ls,
      fit C IGNORE_INDEX self args k (Some S) h l
      = (Ok ls, l,
         if _wandb self && is_rank_0 (strategy self)
         then [EWandbFinish] else []) /\
      step ls
      = k / train_batch_size args * accumulated_gradient (strategy self) + 1.
Proof.
  intros C IGN self args k S h l HB HS Hk.
  destruct (restore_ok self args k S) as (args' & Hrestore & _); try lia.
  assert (Hq : epochs self * S <= k / train_batch_size args).
  { apply Z.div_le_lower_bound; [lia | nia]. }
  assert (Hstart : epochs self <= k / train_batch_size args / S).
  { apply Z.div_le_lower_bound; [lia | nia]. }
  unfold fit. rewrite Hrestore.
  unfold bind at 1. unfold lift at 1. cbn [r_args r_start_epoch
    r_consumed_samples r_step].
  unfold py_range.
  replace (Z.to_nat (epochs self - k / train_batch_size args / S))
    with 0%nat by lia.
  cbn [seq map for_each].
  destruct (_wandb self && is_rank_0 (strategy self));
    eexists; split; reflexivity.
Qed.

Lemma fit_resumed_after_last_epoch_trains_nothing_witness :
  exists ls,
    fit ex_collaborators ex_ignore_index ex_packed_trainer
      (ex_args true false false) 256 (Some 1) [] fresh_locals
    = (Ok ls, fresh_locals, []) /\
    step ls = 5.
Proof.
  destruct (fit_resumed_after_last_epoch_trains_nothing ex_collaborators
              ex_ignore_index ex_packed_trainer (ex_args true false false)
              256 1 [] fresh_locals) as (ls & Hrun & Hstep).
  - reflexivity.
  - reflexivity.
  - simpl. lia.
  - exists ls. split; [exact Hrun | exact Hstep].
Defined.

(** ** What a run may call, under conditions on the configuration *)

Lemma emits_if :
  forall {A} (P : event -> Prop) (b : bool) (x y : M A),
    (b = true -> emits_only P x) ->
    (b = false -> emits_only P y) ->
    emits_only P (if b then x else y).
Proof. intros A P [|] x y Hx Hy; auto. Qed.

Lemma emits_save_tail :
  forall (P : event -> Prop) (s : steps) (g : Z) tag cs,
    (divides s g = Ok true -> P (ESaveCkpt tag cs)) ->
    emits_only P
      (bind (lift (divides s g))
         (fun save_now : bool =>
            if save_now then emit (ESaveCkpt tag cs) else ret tt)).
Proof.
  intros P s g tag cs Hsave.
  destruct (divides s g) as [[|] | e].
  - apply emits_bind_lift_ok. apply emits_emit. auto.
  - apply emits_bind_lift_ok. apply emits_ret.
  - apply emits_bind_lift_raise.
Qed.

Lemma emits_for_each_inv :
  forall {A S} (P : event -> Prop) (Inv : S -> Prop) (body : A -> S -> M S),
    (forall x s, Inv s -> emits_only P (body x s)) ->
    (forall x s h l s' l' ev,
       Inv s -> body x s h l = (Ok s', l', ev) -> Inv s') ->
    forall xs s,
      Inv s ->
      emits_only P (for_each body xs s) /\
      (forall h l s' l' ev,
         for_each body xs s h l = (Ok s', l', ev) -> Inv s').
Proof.
  intros A S P Inv body Hemits Hkeep xs.
  induction xs as [| x xs IH]; intros s Hs; simpl.
  - split; [apply emits_ret |].
    intros h l s' l' ev H. unfold ret in H. injection H as <- _ _. exact Hs.
  - split.
    + intros h l. unfold bind.
      pose proof (Hemits x s Hs h l) as H1.
      destruct (body x s h l) as [[[s1 | e] l1] ev1] eqn:Hbody; [| exact H1].
      pose proof (Hkeep x s h l s1 l1 ev1 Hs Hbody) as Hs1.
      destruct (IH s1 Hs1) as [H2 _]. specialize (H2 (h ++ ev1) l1).
      destruct (for_each body xs s1 (h ++ ev1) l1) as [[r l2] ev2].
      unfold events_of in *. simpl in *. apply Forall_app. auto.
    + intros h l s' l' ev H. bind_inv H.
      pose proof (Hkeep x s h l a l0 ev0 Hs Hm) as Hs1.
      destruct (IH a Hs1) as [_ H2]. exact (H2 _ _ _ _ _ H).
Qed.

Ltac emits_when_step :=
  match goal with
  | |- emits_only _ (bind (lift (Raise _)) _) => apply emits_bind_lift_raise
  | |- emits_only _ (bind (lift (Ok _)) _) =>
      apply emits_bind_lift_ok; cbv beta
  | |- emits_only _ (bind (lift (divides _ _)) _) =>
      first [ apply emits_save_tail; intros
            | apply emits_bind; [| intros] ]
  | |- emits_only _ (bind _ _) => apply emits_bind; [| intros]
  | |- emits_only _ (ret _) => apply emits_ret
  | |- emits_only _ (raise _) => apply emits_raise
  | |- emits_only _ (lift _) => apply emits_lift
  | |- emits_only _ (ask _) => apply emits_ask
  | |- emits_only _ (modify_locals _) => apply emits_modify_locals
  | |- emits_only _ (read_local _ _) => apply emits_read_local
  | |- emits_only _ (emit _) => apply emits_emit; auto
  | |- emits_only _ (call_method _) => apply emits_call_method
  | |- emits_only _ (with_no_grad _) => apply emits_with_no_grad; auto
  | |- emits_only _ (for_each _ _ _) => apply emits_for_each; intros
  | |- emits_only _ (if _ then _ else _) => apply emits_if; intros
  | |- emits_only _ (match ?x with _ => _ end) => destruct x
  end.

Ltac emits_when := repeat emits_when_step.

Section ConditionalFacts.

Variable C : Collaborators.
Variable IGNORE_INDEX : Z.
Variable self : Trainer.
Variable P : event -> Prop.

Hypothesis P_custom_forward : forall c, P (ECustomForward c).
Hypothesis P_loss_fn : forall f args, P (ELossFn f args).
Hypothesis P_model_eval : P EModelEval.
Hypothesis P_model_train : P EModelTrain.
Hypothesis P_no_grad_enter : P ENoGradEnter.
Hypothesis P_no_grad_exit : P ENoGradExit.
Hypothesis P_all_reduce : forall m, P (EAllReduce m).
Hypothesis P_empty_cache : P EEmptyCache.
Hypothesis P_wandb_log :
  _wandb self && is_rank_0 (strategy self) = true -> forall m, P (EWandbLog m).

Lemma emits_evaluate_when :
  forall eval_dataloader_arg steps,
    emits_only P (evaluate C self eval_dataloader_arg steps).
Proof.
  intros. unfold evaluate. emits_when.
  apply emits_evaluate_batch; assumption.
Qed.

Lemma emits_save_logs_and_checkpoints_when :
  forall args global_step logs_dict client_states,
    (divides (save_steps args) global_step = Ok true ->
     P (ESaveCkpt (checkpoint_tag global_step) client_states)) ->
    emits_only P
      (save_logs_and_checkpoints C self args global_step logs_dict
         client_states).
Proof.
  intros args g logs cs Hsave. unfold save_logs_and_checkpoints.
  emits_when; try apply emits_evaluate_when; auto.
Qed.

Lemma emits_cadence_when :
  forall args step logs_dict,
    (accumulated_gradient (strategy self) <> 0 ->
     step mod accumulated_gradient (strategy self) = 0 ->
     divides (save_steps args)
       (step / accumulated_gradient (strategy self)) = Ok true ->
     P (ESaveCkpt
          (checkpoint_tag (step / accumulated_gradient (strategy self)))
          [("consumed_samples"%string,
            step / accumulated_gradient (strategy self)
            * train_batch_size args)])) ->
    emits_only P (cadence C self args step logs_dict).
Proof.
  intros args step logs_dict Hsave. unfold cadence, py_mod, py_floordiv.
  destruct (accumulated_gradient (strategy self) =? 0) eqn:HA; cbv iota.
  - emits_when.
  - apply Z.eqb_neq in HA.
    apply emits_bind_lift_ok. cbv beta.
    apply emits_if; intros Hmod; [| apply emits_ret].
    apply Z.eqb_eq in Hmod.
    apply emits_bind_lift_ok. cbv beta.
    apply emits_save_logs_and_checkpoints_when. auto.
Qed.

Variable args : Args.

Hypothesis P_auxiliary :
  add_pretrain_loss args = true ->
  (forall ids mask, P (EModelForward ids mask)) /\
  (forall a, P (EPtxLossFn a)).

Lemma emits_ptx_when :
  add_pretrain_loss args = true ->
  emits_only P (ptx_pair_non_packed C IGNORE_INDEX self) /\
  emits_only P (ptx_chosen_bound C IGNORE_INDEX self) /\
  emits_only P (ptx_chosen_packed C IGNORE_INDEX self) /\
  emits_only P (ptx_pair_packed C IGNORE_INDEX self).
Proof.
  intros Hflag. destruct (P_auxiliary Hflag) as [Hforward Hloss].
  apply emits_ptx; assumption.
Qed.

Lemma emits_second_loss_when :
  forall f, emits_only P (second_loss C IGNORE_INDEX self args f).
Proof.
  intros f. unfold second_loss, second_forward, preference_loss_second.
  emits_when;
    try (apply emits_concatenated_forward; assumption);
    try (apply emits_call_loss_fn; assumption);
    match goal with
    | H : add_pretrain_loss args = true |- _ =>
        destruct (emits_ptx_when H) as (? & ? & ? & ?); assumption
    end.
Qed.

Lemma emits_total_loss_when :
  forall preference_loss,
    emits_only P (total_loss C IGNORE_INDEX self args preference_loss).
Proof.
  intros preference_loss. unfold total_loss.
  emits_when;
    match goal with
    | H : add_pretrain_loss args = true |- _ =>
        destruct (emits_ptx_when H) as (? & ? & ? & ?); assumption
    end.
Qed.

Hypothesis P_backward : forall q, P (EBackward q).
Hypothesis P_optimizer_step : P EOptimizerStep.

Lemma emits_train_step_when :
  forall data ls,
    (accumulated_gradient (strategy self) <> 0 ->
     step ls mod accumulated_gradient (strategy self) = 0 ->
     divides (save_steps args)
       (step ls / accumulated_gradient (strategy self)) = Ok true ->
     P (ESaveCkpt
          (checkpoint_tag (step ls / accumulated_gradient (strategy self)))
          [("consumed_samples"%string,
            step ls / accumulated_gradient (strategy self)
            * train_batch_size args)])) ->
    emits_only P (train_step C IGNORE_INDEX self args data ls).
Proof.
  intros data ls Hsave h l. unfold train_step, bind.
  pose proof (emits_forward_and_loss C self P P_custom_forward P_loss_fn
                data ls h l) as H1.
  destruct (forward_and_loss C self data ls h l)
    as [[[f | e] l1] ev1] eqn:Hfirst; [| exact H1].
  pose proof (forward_and_loss_step _ _ _ _ _ _ _ _ _ Hfirst) as Hs1.
  pose proof (emits_second_loss_when f (h ++ ev1) l1) as H2.
  destruct (second_loss C IGNORE_INDEX self args f (h ++ ev1) l1)
    as [[[[[preference_loss probs] ls2] | e] l2] ev2] eqn:Hsecond.
  2: { unfold events_of in *. simpl in *. apply Forall_app. auto. }
  pose proof (second_loss_step _ _ _ _ _ _ _ _ _ _ _ _ Hsecond) as Hs2.
  pose proof (emits_total_loss_when preference_loss ((h ++ ev1) ++ ev2) l2)
    as H3.
  destruct (total_loss C IGNORE_INDEX self args preference_loss
              ((h ++ ev1) ++ ev2) l2)
    as [[[loss | e] l3] ev3] eqn:Htotal.
  2: { unfold events_of in *. simpl in *.
       repeat (apply Forall_app; split); auto. }
  assert (H4 : emits_only P
                 (step_and_log C self args preference_loss probs ls2 loss)).
  { unfold step_and_log. emits_when.
    apply emits_cadence_when.
    assert (Hstep : step ls2 = step ls) by congruence.
    rewrite Hstep. intros HA Hmod Hdiv. apply Hsave; assumption. }
  specialize (H4 (((h ++ ev1) ++ ev2) ++ ev3) l3).
  destruct (step_and_log C self args preference_loss probs ls2 loss
              (((h ++ ev1) ++ ev2) ++ ev3) l3) as [[r l4] ev4].
  unfold events_of in *. simpl in *.
  repeat (apply Forall_app; split); auto.
Qed.

End ConditionalFacts.

(** ** The step counter over a whole run *)

Lemma train_step_shape :
  forall C IGNORE_INDEX self args data ls h l ls' l' ev,
    train_step C IGNORE_INDEX self args data ls h l = (Ok ls', l', ev) ->
    step ls' = step ls + 1 /\
    length (filter is_optimizer_step ev) = 1%nat /\
    length (filter is_backward ev) = 1%nat.
Proof.
  intros C IGN self args data ls h l ls' l' ev Hrun.
  unfold train_step in Hrun.
  bind_inv Hrun. rename a into f.
  bind_inv Hrun. destruct a as [[preference_loss probs] ls2].
  bind_inv Hrun. rename a into loss.
  apply step_and_log_inv in Hrun.
  destruct Hrun as (Hstep & logs_dict & hc & Hev4).
  pose proof (forward_and_loss_step _ _ _ _ _ _ _ _ _ Hm) as Hs1.
  pose proof (second_loss_step _ _ _ _ _ _ _ _ _ _ _ _ Hm0) as Hs2.
  split; [congruence |].
  subst ev ev1 ev3 ev5.
  assert (Hphase : forall P : event -> Prop,
            (forall c, P (ECustomForward c)) ->
            (forall f0 a, P (ELossFn f0 a)) ->
            (forall i m, P (EModelForward i m)) ->
            (forall a, P (EPtxLossFn a)) ->
            Forall P ev0 /\ Forall P ev2 /\ Forall P ev4).
  { intros P P1 P2 P3 P4.
    pose proof (emits_forward_and_loss C self P P1 P2 data ls h l) as H1.
    pose proof (emits_second_loss C IGN self P P1 P2 P3 P4 args f
                  (h ++ ev0) l0) as H2.
    pose proof (emits_total_loss C IGN self P P3 P4 args preference_loss
                  ((h ++ ev0) ++ ev2) l1) as H3.
    rewrite Hm in H1. rewrite Hm0 in H2. rewrite Hm1 in H3.
    auto. }
  split.
  - destruct (Hphase (fun e => is_optimizer_step e = false))
      as (H1 & H2 & H3); try reflexivity.
    assert (Hc : emits_only (fun e => is_optimizer_step e = false)
                   (cadence C self args (step ls2) logs_dict))
      by (apply emits_cadence; reflexivity).
    specialize (Hc hc l2).
    rewrite !filter_app. simpl.
    rewrite (filter_none _ _ H1), (filter_none _ _ H2), (filter_none _ _ H3),
      (filter_none _ _ Hc).
    reflexivity.
  - destruct (Hphase (fun e => is_backward e = false))
      as (H1 & H2 & H3); try reflexivity.
    assert (Hc : emits_only (fun e => is_backward e = false)
                   (cadence C self args (step ls2) logs_dict))
      by (apply emits_cadence; reflexivity).
    specialize (Hc hc l2).
    rewrite !filter_app. simpl.
    rewrite (filter_none _ _ H1), (filter_none _ _ H2), (filter_none _ _ H3),
      (filter_none _ _ Hc).
    reflexivity.
Qed.

Lemma train_steps_advance :
  forall C IGNORE_INDEX self args batches ls h l ls' l' ev,
    for_each (train_step C IGNORE_INDEX self args) batches ls h l
    = (Ok ls', l', ev) ->
    step ls' = step ls + Z.of_nat (length (filter is_optimizer_step ev)) /\
    length (filter is_backward ev) = length (filter is_optimizer_step ev).
Proof.
  intros C IGN self args batches.
  induction batches as [| data batches IH]; intros ls h l ls' l' ev Hrun.
  - simpl in Hrun. unfold ret in Hrun. injection Hrun as <- _ <-.
    simpl. split; [lia | reflexivity].
  - simpl in Hrun. bind_inv Hrun.
    apply train_step_shape in Hm. destruct Hm as (Hs & Ho & Hb).
    apply IH in Hrun. destruct Hrun as (Hs' & Hb').
    subst ev. rewrite !filter_app, !length_app.
    split; lia.
Qed.

Lemma train_epoch_advances :
  forall C IGNORE_INDEX self args start_epoch consumed epoch ls h l ls' l' ev,
    train_epoch C IGNORE_INDEX self args start_epoch consumed epoch ls h l
    = (Ok ls', l', ev) ->
    step ls' = step ls + Z.of_nat (length (filter is_optimizer_step ev)) /\
    length (filter is_backward ev) = length (filter is_optimizer_step ev).
Proof.
  intros C IGN self args start_epoch consumed epoch ls h l ls' l' ev Hrun.
  unfold train_epoch in Hrun.
  bind_inv Hrun. bind_inv Hrun.
  apply train_steps_advance in Hrun. destruct Hrun as (Hs & Hb).
  assert (Hsampler : filter is_optimizer_step ev0 = []
                     /\ filter is_backward ev0 = []).
  { destruct (sampler_is_group self).
    - unfold emit in Hm. injection Hm as _ _ <-. split; reflexivity.
    - unfold ret in Hm. injection Hm as _ _ <-. split; reflexivity. }
  destruct Hsampler as [Ho0 Hb0].
  unfold emit in Hm0. injection Hm0 as _ _ <-.
  subst ev ev1. rewrite !filter_app, !length_app, Ho0, Hb0.
  simpl in *. split; lia.
Qed.

Lemma train_epochs_advance :
  forall C IGNORE_INDEX self args start_epoch consumed epochs_to_run
         ls h l ls' l' ev,
    for_each (train_epoch C IGNORE_INDEX self args start_epoch consumed)
      epochs_to_run ls h l = (Ok ls', l', ev) ->
    step ls' = step ls + Z.of_nat (length (filter is_optimizer_step ev)) /\
    length (filter is_backward ev) = length (filter is_optimizer_step ev).
Proof.
  intros C IGN self args start_epoch consumed epochs_to_run.
  induction epochs_to_run as [| epoch rest IH];
    intros ls h l ls' l' ev Hrun.
  - simpl in Hrun. unfold ret in Hrun. injection Hrun as <- _ <-.
    simpl. split; [lia | reflexivity].
  - simpl in Hrun. bind_inv Hrun.
    apply train_epoch_advances in Hm. destruct Hm as (Hs & Hb).
    apply IH in Hrun. destruct Hrun as (Hs' & Hb').
    subst ev. rewrite !filter_app, !length_app.
    split; lia.
Qed.

(** X10. The step counter counts micro-batches and is never reset: a
    [fit] that returns has called [strategy.backward] and
    [strategy.optimizer_step] the same number of times, once per
    micro-batch whatever the epoch, and leaves the counter that many
    steps after its restored value [consumed_samples //
    train_batch_size * accumulated_gradient + 1].  Nothing is said of
    how many batches the loader yields in an epoch. *)
Theorem fit_counts_every_micro_batch :
  forall (C : Collaborators) (IGNORE_INDEX : Z) (self : Trainer)
         (args : Args) (k : Z) (S : option Z) (h : list event)
         (l l' : Locals) (ls : LoopState) (ev : list event),
    fit C IGNORE_INDEX self args k S h l = (Ok ls, l', ev) ->
    exists r,
      restore self args k S = Ok r /\
      step ls = r_step r + Z.of_nat (length (filter is_optimizer_step ev)) /\
      length (filter is_backward ev) = length (filter is_optimizer_step ev).
Proof.
  intros C IGN self args k S h l l' ls ev Hrun.
  unfold fit in Hrun.
  bind_inv Hrun. rename a into r.
  unfold lift in Hm. injection Hm as Hrestore _ <-.
  exists r. split; [exact Hrestore |].
  bind_inv Hrun. bind_inv Hrun.
  apply train_epochs_advance in Hm. destruct Hm as (Hs & Hb).
  unfold ret in Hrun. injection Hrun as <- _ <-.
  match type of Hm0 with
  | _ = (_, _, ?e) =>
      assert (Hfinish : filter is_optimizer_step e = []
                        /\ filter is_backward e = [])
  end.
  { destruct (_wandb self && is_rank_0 (strategy self)).
    - unfold emit in Hm0. injection Hm0 as _ _ <-. split; reflexivity.
    - unfold ret in Hm0. injection Hm0 as _ _ <-. split; reflexivity. }
  destruct Hfinish as [Ho2 Hb2].
  subst. cbn [r_step step] in *.
  rewrite !app_nil_l, !app_nil_r, !filter_app, !length_app, Ho2, Hb2.
  cbn [length]. rewrite !Nat.add_0_r.
  split; assumption.
Qed.

Lemma fit_counts_every_micro_batch_witness :
  exists ls l' ev,
    fit ex_collaborators ex_ignore_index ex_packed_trainer
      (ex_args true false false) 0 (Some 1) [] fresh_locals = (Ok ls, l', ev) /\
    length (filter is_optimizer_step ev) = 4%nat /\
    length (filter is_backward ev) = 4%nat /\
    step ls = 5.
Proof.
  pose (run := fit ex_collaborators ex_ignore_index ex_packed_trainer
                 (ex_args true false false) 0 (Some 1) [] fresh_locals).
  destruct (outcome_of run) as [ls | e] eqn:Hout;
    [| vm_compute in Hout; discriminate Hout].
  assert (Hrun : run = (Ok ls, locals_of run, events_of run))
    by (rewrite <- Hout; apply run_eta).
  destruct (fit_counts_every_micro_batch _ _ _ _ _ _ _ _ _ _ _ Hrun)
    as (r & Hr & Hstep & Hback).
  vm_compute in Hr. injection Hr as <-.
  assert (Hopt : length (filter is_optimizer_step (events_of run)) = 4%nat)
    by (vm_compute; reflexivity).
  exists ls, (locals_of run), (events_of run).
  split; [exact Hrun |]. split; [exact Hopt |].
  split; [rewrite Hback; exact Hopt |].
  rewrite Hstep, Hopt. reflexivity.
Defined.

(** ** What [fit] never does under a configuration *)

Lemma restore_fields :
  forall self args k s r,
    restore self args k s = Ok r ->
    train_batch_size args <> 0 /\
    r_step r
    = k / train_batch_size args * accumulated_gradient (strategy self) + 1 /\
    add_pretrain_loss (r_args r) = add_pretrain_loss args /\
    train_batch_size (r_args r) = train_batch_size args /\
    save_steps (r_args r)
    = match save_steps args with
      | Finite n => if n =? -1 then Infinite else Finite n
      | Infinite => Infinite
      end.
Proof.
  intros self args k s r. unfold restore, py_floordiv, py_mod.
  destruct (train_batch_size args =? 0) eqn:HB; [discriminate |].
  apply Z.eqb_neq in HB. cbn [obind].
  destruct s as [s |]; [| discriminate].
  destruct (s =? 0); [discriminate |]. cbn [obind].
  match goal with
  | |- context [if ?c then Raise ZeroDivisionError else _] => destruct c
  end; [discriminate |].
  cbn [obind]. intros Hr. injection Hr as <-. cbn [r_args r_step].
  split; [exact HB |]. split; [reflexivity |].
  clear HB. destruct args as [? ? ? ? ? ? ? ? ev sv ? ? ? ? ?].
  unfold set_save_steps, set_eval_steps. cbn.
  destruct (ev =? -1); cbn; destruct sv as [n |]; cbn;
    try destruct (n =? -1); cbn; repeat split; reflexivity.
Qed.

Section FitFacts.

Variable C : Collaborators.
Variable IGNORE_INDEX : Z.
Variable self : Trainer.
Variable P : event -> Prop.
Variable args : Args.
Variable k : Z.
Variable S : option Z.

(** A property of the step counter kept by [step += 1]. *)
Variable Good : Z -> Prop.

Hypothesis P_custom_forward : forall c, P (ECustomForward c).
Hypothesis P_loss_fn : forall f a, P (ELossFn f a).
Hypothesis P_model_eval : P EModelEval.
Hypothesis P_model_train : P EModelTrain.
Hypothesis P_no_grad_enter : P ENoGradEnter.
Hypothesis P_no_grad_exit : P ENoGradExit.
Hypothesis P_all_reduce : forall m, P (EAllReduce m).
Hypothesis P_empty_cache : P EEmptyCache.
Hypothesis P_backward : forall q, P (EBackward q).
Hypothesis P_optimizer_step : P EOptimizerStep.
Hypothesis P_set_epoch :
  forall r epoch,
    restore self args k S = Ok r ->
    P (ESetEpoch epoch
         (if epoch >? r_start_epoch r then 0 else r_consumed_samples r)).
Hypothesis P_wandb :
  _wandb self && is_rank_0 (strategy self) = true ->
  (forall m, P (EWandbLog m)) /\ P EWandbFinish.
Hypothesis P_auxiliary :
  add_pretrain_loss args = true ->
  (forall ids mask, P (EModelForward ids mask)) /\
  (forall a, P (EPtxLossFn a)).
Hypothesis Good_next : forall z, Good z -> Good (z + 1).
Hypothesis Good_first :
  train_batch_size args <> 0 ->
  Good (k / train_batch_size args * accumulated_gradient (strategy self) + 1).
Hypothesis P_save :
  forall z,
    Good z ->
    accumulated_gradient (strategy self) <> 0 ->
    z mod accumulated_gradient (strategy self) = 0 ->
    divides
      match save_steps args with
      | Finite n => if n =? -1 then Infinite else Finite n
      | Infinite => Infinite
      end
      (z / accumulated_gradient (strategy self)) = Ok true ->
    P (ESaveCkpt (checkpoint_tag (z / accumulated_gradient (strategy self)))
         [("consumed_samples"%string,
           z / accumulated_gradient (strategy self) * train_batch_size args)]).

Lemma emits_fit_when :
  emits_only P (fit C IGNORE_INDEX self args k S).
Proof.
  unfold fit.
  destruct (restore self args k S) as [r | e] eqn:Hr;
    [| apply emits_bind_lift_raise].
  destruct (restore_fields self args k S r Hr)
    as (HB & Hstep & Hpre & Hbatch & Hsave).
  apply emits_bind_lift_ok. cbv beta.
  apply emits_bind.
  - assert (Hstep_ok : forall data ls,
              Good (step ls) ->
              emits_only P (train_step C IGNORE_INDEX self (r_args r) data ls)).
    { intros data ls Hgood.
      apply emits_train_step_when; try assumption.
      - intros Hw. apply P_wandb. exact Hw.
      - rewrite Hpre. exact P_auxiliary.
      - intros HA Hmod Hdiv. rewrite Hsave in Hdiv. rewrite Hbatch.
        apply P_save; assumption. }
    assert (Hstep_keep : forall data ls h l ls' l' ev,
              Good (step ls) ->
              train_step C IGNORE_INDEX self (r_args r) data ls h l
              = (Ok ls', l', ev) ->
              Good (step ls')).
    { intros data ls h l ls' l' ev Hgood Hrun.
      apply train_step_shape in Hrun. destruct Hrun as (Hs & _).
      rewrite Hs. apply Good_next. exact Hgood. }
    assert (Hepoch : forall epoch ls,
              Good (step ls) ->
              emits_only P
                (train_epoch C IGNORE_INDEX self (r_args r) (r_start_epoch r)
                   (r_consumed_samples r) epoch ls)
              /\ (forall h l ls' l' ev,
                    train_epoch C IGNORE_INDEX self (r_args r)
                      (r_start_epoch r) (r_consumed_samples r) epoch ls h l
                    = (Ok ls', l', ev) ->
                    Good (step ls'))).
    { intros epoch ls Hgood.
      destruct (emits_for_each_inv P (fun s => Good (step s))
                  (train_step C IGNORE_INDEX self (r_args r))
                  Hstep_ok Hstep_keep (train_dataloader self)
                  (epoch_prologue ls) Hgood) as [Hloop Hkeep].
      split.
      - unfold train_epoch.
        apply emits_bind;
          [apply emits_if; intros;
           [apply emits_emit; apply P_set_epoch; reflexivity | apply emits_ret]
          | intros].
        apply emits_bind; [apply emits_emit; auto | intros]. exact Hloop.
      - intros h l ls' l' ev Hrun. unfold train_epoch in Hrun.
        bind_inv Hrun. bind_inv Hrun. exact (Hkeep _ _ _ _ _ Hrun). }
    destruct (emits_for_each_inv P (fun s => Good (step s))
                (train_epoch C IGNORE_INDEX self (r_args r) (r_start_epoch r)
                   (r_consumed_samples r))
                (fun epoch ls Hg => proj1 (Hepoch epoch ls Hg))
                (fun epoch ls h l ls' l' ev Hg =>
                   proj2 (Hepoch epoch ls Hg) h l ls' l' ev)
                (py_range (r_start_epoch r) (epochs self))
                (mkLoop (r_step r) 0 0 0)) as [Hall _].
    + cbn [step]. rewrite Hstep. apply Good_first. exact HB.
    + exact Hall.
  - intros ls. emits_when. apply P_wandb. assumption.
Qed.

End FitFacts.

(** ** Resuming from a checkpoint *)

(** A cadence that is due and returns ends with the checkpoint. *)
Lemma cadence_saves :
  forall C self args step logs_dict h l,
    accumulated_gradient (strategy self) <> 0 ->
    step mod accumulated_gradient (strategy self) = 0 ->
    divides (save_steps args) (step / accumulated_gradient (strategy self))
    = Ok true ->
    raised (outcome_of (cadence C self args step logs_dict h l)) = false ->
    exists evs,
      events_of (cadence C self args step logs_dict h l)
      = evs ++ [ESaveCkpt
                  (checkpoint_tag
                     (step / accumulated_gradient (strategy self)))
                  [("consumed_samples"%string,
                    step / accumulated_gradient (strategy self)
                    * train_batch_size args)]].
Proof.
  intros C self args step logs_dict h l HA Hmod Hdiv.
  apply Z.eqb_neq in HA.
  unfold cadence, py_mod, py_floordiv. rewrite HA, Hmod.
  rewrite !bind_lift_ok_run. cbn [Z.eqb]. rewrite !bind_lift_ok_run.
  unfold save_logs_and_checkpoints. intros Hret.
  destruct (bind_returns_inv _ _ _ _ Hret) as (a1 & l1 & ev1 & _ & Hret1 & ->).
  destruct (bind_returns_inv _ _ _ _ Hret1)
    as (a2 & l2 & ev2 & _ & Hret2 & ->).
  destruct (bind_returns_inv _ _ _ _ Hret2)
    as (a3 & l3 & ev3 & _ & Hret3 & ->).
  destruct (bind_returns_inv _ _ _ _ Hret3)
    as (a4 & l4 & ev4 & _ & Hret4 & ->).
  rewrite Hdiv, bind_lift_ok_run. cbn [events_of snd emit].
  exists (ev1 ++ ev2 ++ ev3 ++ ev4). rewrite <- !app_assoc. reflexivity.
Qed.

(** C3. With a non-zero batch size [B] and a non-zero number of steps
    per epoch [S], [fit] called with [consumed_samples = k] starts at
    epoch [k // B // S] with the step counter [k // B *
    accumulated_gradient + 1] and the offset [k % (S * B)]: every
    [set_epoch] call of that [fit] passes the offset for the resumed
    epoch and [0] for a later one, and with the group sampler and an
    epoch left to run the first call of [fit] is [set_epoch(k // B //
    S, k % (S * B))].  Every checkpoint [fit] saves carries a tag
    ["global_step" ++ str(g)] and the client state [consumed_samples =
    g * B]; the cadence reached at [step] on a multiple of
    [accumulated_gradient] and of [save_steps] ends, when it returns,
    with that checkpoint for [g = step // accumulated_gradient]; and
    resuming from [g * B] gives back epoch [g // S], offset
    [(g % S) * B] and the micro-batch counter
    [g * accumulated_gradient + 1]. *)
Theorem resume_round_trip :
  forall (C : Collaborators) (IGNORE_INDEX : Z) (self : Trainer)
         (args : Args) (k S : Z),
    train_batch_size args <> 0 ->
    S <> 0 ->
    let B := train_batch_size args in
    let A := accumulated_gradient (strategy self) in
    exists r,
      restore self args k (Some S) = Ok r /\
      r_step r = k / B * A + 1 /\
      r_start_epoch r = k / B / S /\
      r_consumed_samples r = k mod (S * B) /\
      (forall h l epoch offset,
         In (ESetEpoch epoch offset)
            (events_of (fit C IGNORE_INDEX self args k (Some S) h l)) ->
         offset = if epoch >? k / B / S then 0 else k mod (S * B)) /\
      (forall h l,
         sampler_is_group self = true ->
         k / B / S < epochs self ->
         exists evs,
           events_of (fit C IGNORE_INDEX self args k (Some S) h l)
           = ESetEpoch (k / B / S) (k mod (S * B)) :: evs) /\
      (forall epoch ls h l,
         sampler_is_group self = true ->
         exists evs,
           events_of (train_epoch C IGNORE_INDEX self (r_args r)
                        (r_start_epoch r) (r_consumed_samples r) epoch ls h l)
           = ESetEpoch epoch
               (if epoch >? k / B / S then 0 else k mod (S * B)) :: evs) /\
      (forall h l tag client_states,
         In (ESaveCkpt tag client_states)
            (events_of (fit C IGNORE_INDEX self args k (Some S) h l)) ->
         exists g,
           tag = ("global_step" ++ py_str g)%string /\
           client_states = [("consumed_samples"%string, g * B)]) /\
      (forall step logs_dict h l tag client_states,
         In (ESaveCkpt tag client_states)
            (events_of (cadence C self (r_args r) step logs_dict h l)) ->
         tag = ("global_step" ++ py_str (step / A))%string /\
         client_states = [("consumed_samples"%string, step / A * B)]) /\
      (forall step logs_dict h l,
         A <> 0 ->
         step mod A = 0 ->
         divides (save_steps (r_args r)) (step / A) = Ok true ->
         raised (outcome_of (cadence C self (r_args r) step logs_dict h l))
         = false ->
         exists evs,
           events_of (cadence C self (r_args r) step logs_dict h l)
           = evs ++ [ESaveCkpt ("global_step" ++ py_str (step / A))%string
                       [("consumed_samples"%string, step / A * B)]]) /\
      (forall g,
         exists r',
           restore self args (g * B) (Some S) = Ok r' /\
           r_step r' = g * A + 1 /\
           r_start_epoch r' = g / S /\
           r_consumed_samples r' = g mod S * B).
Proof.
  intros C IGN self args k S HB HS B A.
  destruct (restore_ok self args k S HB HS) as (args' & Hrestore & HB').
  eexists. split; [exact Hrestore |]. cbn [r_step r_start_epoch
    r_consumed_samples r_args].
  split; [reflexivity |]. split; [reflexivity |]. split; [reflexivity |].
  split; [| split; [| split; [| split; [| split; [| split]]]]].
  - intros h l epoch offset Hin.
    assert (Honly : emits_only
              (fun e => forall ep off, e = ESetEpoch ep off ->
                 off = if ep >? k / B / S then 0 else k mod (S * B))
              (fit C IGN self args k (Some S))).
    { apply (emits_fit_when C IGN self _ args k (Some S) (fun _ => True));
        try (intros; discriminate); auto.
      - intros r ep Hr ep' off Heq. injection Heq as <- <-.
        rewrite Hrestore in Hr. injection Hr as <-. reflexivity.
      - intros _. split; intros; discriminate.
      - intros _. split; intros; discriminate. }
    specialize (Honly h l). rewrite Forall_forall in Honly.
    exact (Honly _ Hin epoch offset eq_refl).
  - intros h l Hgroup Hleft. subst B A.
    unfold fit. rewrite Hrestore, bind_lift_ok_run.
    cbn [r_step r_start_epoch r_consumed_samples r_args].
    match goal with
    | |- exists evs, events_of (bind ?m ?kk ?hh ?ll) = _ =>
        destruct (events_of_bind_prefix m kk hh ll) as [evs1 ->]
    end.
    unfold py_range.
    destruct (Z.to_nat (epochs self - k / train_batch_size args / S))
      as [| n] eqn:Hn; [lia |].
    cbn [seq map for_each Z.of_nat]. rewrite Z.add_0_r.
    match goal with
    | |- exists evs, events_of (bind ?m ?kk ?hh ?ll) ++ _ = _ =>
        destruct (events_of_bind_prefix m kk hh ll) as [evs2 ->]
    end.
    match goal with
    | |- exists evs,
          (events_of (train_epoch _ _ _ ?a ?s ?c ?e ?st ?hh ?ll) ++ _) ++ _
          = _ =>
        destruct (train_epoch_sets_epoch_first C IGN self a s c e st hh ll
                    Hgroup) as [evs3 ->]
    end.
    rewrite Z.gtb_ltb, Z.ltb_irrefl.
    exists ((evs3 ++ evs2) ++ evs1). reflexivity.
  - intros epoch ls h l Hgroup.
    apply train_epoch_sets_epoch_first. exact Hgroup.
  - intros h l tag client_states Hin.
    assert (Honly : emits_only
              (fun e => forall t cs, e = ESaveCkpt t cs ->
                 exists g,
                   t = ("global_step" ++ py_str g)%string /\
                   cs = [("consumed_samples"%string, g * B)])
              (fit C IGN self args k (Some S))).
    { apply (emits_fit_when C IGN self _ args k (Some S) (fun _ => True));
        try (intros; discriminate); auto.
      - intros _. split; intros; discriminate.
      - intros _. split; intros; discriminate.
      - intros z _ _ _ _ t cs Heq. injection Heq as <- <-.
        exists (z / accumulated_gradient (strategy self)).
        split; reflexivity. }
    specialize (Honly h l). rewrite Forall_forall in Honly.
    exact (Honly _ Hin tag client_states eq_refl).
  - intros step logs_dict h l tag client_states Hin.
    assert (Honly : emits_only
              (fun e => forall tag cs, e = ESaveCkpt tag cs ->
                 tag = ("global_step" ++ py_str (step / A))%string /\
                 cs = [("consumed_samples"%string, step / A * B)])
              (cadence C self args' step logs_dict)).
    { apply emits_cadence; try (intros; discriminate).
      intros tag0 cs0 Heq. injection Heq as <- <-.
      rewrite HB'. split; reflexivity. }
    specialize (Honly h l). rewrite Forall_forall in Honly.
    apply (Honly _ Hin). reflexivity.
  - intros step logs_dict h l HA Hmod Hdiv Hret.
    destruct (cadence_saves C self args' step logs_dict h l HA Hmod Hdiv Hret)
      as [evs Hevs].
    exists evs. rewrite Hevs, HB'. reflexivity.
  - intros g.
    destruct (restore_ok self args (g * B) S HB HS) as (args'' & Hr & _).
    eexists. split; [exact Hr |]. simpl. subst B A.
    rewrite Z.div_mul by assumption.
    rewrite Z.mul_mod_distr_r by assumption.
    repeat split.
Qed.

Lemma resume_round_trip_witness :
  let run :=
    fit ex_collaborators ex_ignore_index ex_packed_trainer
      (ex_args true false false) 384 (Some 2) [] fresh_locals in
  exists r evs,
    restore ex_packed_trainer (ex_args true false false) 384 (Some 2) = Ok r /\
    r_step r = 7 /\
    r_start_epoch r = 1 /\
    r_consumed_samples r = 128 /\
    events_of run = ESetEpoch 1 128 :: evs /\
    filter is_save_ckpt (events_of run)
    = [ESaveCkpt "global_step4" [("consumed_samples"%string, 512)]] /\
    (exists r',
       restore ex_packed_trainer (ex_args true false false) 512 (Some 2)
       = Ok r' /\
       r_step r' = 9 /\ r_start_epoch r' = 2 /\ r_consumed_samples r' = 0) /\
    (exists r',
       restore ex_packed_trainer (ex_args true false false) 640 (Some 50)
       = Ok r' /\
       r_start_epoch r' = 0 /\ r_consumed_samples r' = 640).
Proof.
  intros run.
  destruct (resume_round_trip ex_collaborators ex_ignore_index
              ex_packed_trainer (ex_args true false false) 384 2)
    as (r & Hr & Hstep & Hepoch & Hoffset & _ & Hfirst & _ & _ & _ & _
        & Hresume);
    [discriminate | discriminate |].
  destruct (resume_round_trip ex_collaborators ex_ignore_index
              ex_packed_trainer (ex_args true false false) 640 50)
    as (r50 & Hr50 & _ & Hepoch50 & Hoffset50 & _);
    [discriminate | discriminate |].
  destruct (Hfirst [] fresh_locals eq_refl eq_refl) as [evs Hevs].
  exists r, evs.
  split; [exact Hr |]. split; [exact Hstep |]. split; [exact Hepoch |].
  split; [exact Hoffset |]. split; [exact Hevs |].
  split; [vm_compute; reflexivity |].
  split; [exact (Hresume 4) |].
  exists r50. split; [exact Hr50 |]. split; [exact Hepoch50 | exact Hoffset50].
Defined.

(** X11. With the default [--save_steps -1], [fit] never writes a
    checkpoint: [-1] becomes infinity, the first global step is at
    least one, and no positive global step is a multiple of infinity.
    This holds for a non-negative [consumed_samples] and positive
    [train_batch_size] and [accumulated_gradient]. *)
Theorem default_save_steps_never_saves :
  forall (C : Collaborators) (IGNORE_INDEX : Z) (self : Trainer)
         (args : Args) (k : Z) (S : option Z) (h : list event) (l : Locals),
    save_steps args = Finite (-1) ->
    0 <= k ->
    0 < train_batch_size args ->
    0 < accumulated_gradient (strategy self) ->
    Forall (fun e => is_save_ckpt e = false)
      (events_of (fit C IGNORE_INDEX self args k S h l)).
Proof.
  intros C IGN self args k S h l Hsave Hk HB HA.
  apply (emits_fit_when C IGN self (fun e => is_save_ckpt e = false) args k S
           (fun z => 1 <= z)); try reflexivity; try (intros; reflexivity).
  - intros _. split; [intros; reflexivity | reflexivity].
  - intros _. split; intros; reflexivity.
  - intros z Hz. lia.
  - intros _.
    assert (0 <= k / train_batch_size args) by (apply Z.div_pos; lia).
    nia.
  - intros z Hz HA' Hmod Hdiv. exfalso.
    rewrite Hsave in Hdiv. simpl in Hdiv.
    injection Hdiv as Hzero. apply Z.eqb_eq in Hzero.
    pose proof (Z.div_mod z (accumulated_gradient (strategy self)) HA').
    nia.
Qed.

Lemma default_save_steps_never_saves_witness :
  Forall (fun e => is_save_ckpt e = false)
    (events_of
       (fit ex_collaborators ex_ignore_index ex_packed_trainer
          (ex_default_args true false) 0 (Some 1) [] fresh_locals)).
Proof.
  apply (default_save_steps_never_saves ex_collaborators ex_ignore_index
           ex_packed_trainer (ex_default_args true false) 0 (Some 1)
           [] fresh_locals); [reflexivity | lia | reflexivity | reflexivity].
Defined.

(** X12. Without [args.add_pretrain_loss], [fit] never calls
    [self.model.forward] nor [self.ptx_loss_fn]: the model is reached
    through [custom_forward] only. *)
Theorem no_auxiliary_call_without_pretrain_loss :
  forall (C : Collaborators) (IGNORE_INDEX : Z) (self : Trainer)
         (args : Args) (k : Z) (S : option Z) (h : list event) (l : Locals),
    add_pretrain_loss args = false ->
    Forall (fun e => is_auxiliary_event e = false)
      (events_of (fit C IGNORE_INDEX self args k S h l)).
Proof.
  intros C IGN self args k S h l Hflag.
  apply (emits_fit_when C IGN self (fun e => is_auxiliary_event e = false)
           args k S (fun _ => True));
    try reflexivity; try (intros; reflexivity); auto.
  intros Htrue. congruence.
Qed.

Lemma no_auxiliary_call_without_pretrain_loss_witness :
  Forall (fun e => is_auxiliary_event e = false)
    (events_of
       (fit ex_collaborators ex_ignore_index ex_packed_trainer
          (ex_args true false false) 0 (Some 1) [] fresh_locals)).
Proof.
  apply (no_auxiliary_call_without_pretrain_loss ex_collaborators
           ex_ignore_index ex_packed_trainer (ex_args true false false)
           0 (Some 1) [] fresh_locals).
  reflexivity.
Defined.

Lemma select_loss_fn_prints_only :
  forall is_gp tau dim prompt_head,
    Forall (fun e => is_wandb_event e = false)
      (snd (select_loss_fn is_gp tau dim prompt_head)).
Proof.
  intros is_gp tau dim prompt_head. unfold select_loss_fn.
  repeat match goal with
         | |- context [if ?c then _ else _] => destruct c
         end; cbn [snd]; repeat constructor.
Qed.

(** X13. On a process that is not rank 0, nothing reaches wandb: the
    constructor does not initialise it whatever [--use_wandb] says, and
    [fit] and [evaluate] of the trainer it builds neither log to it nor
    finish it. *)
Theorem no_wandb_off_rank_0 :
  forall (strategy0 : Strategy) (train_dl : list Batch) (group : bool)
         (eval_dl : list Batch) (pad : Z) (max_epochs : Z) (is_gp : bool)
         (tau : Q) (dim : Z) (packing : bool),
    is_rank_0 strategy0 = false ->
    let built :=
      __init__ strategy0 train_dl group eval_dl pad max_epochs is_gp tau dim
        packing in
    Forall (fun e => is_wandb_event e = false) (snd built) /\
    forall self,
      fst built = Ok self ->
      (forall C IGNORE_INDEX args k S h l,
         Forall (fun e => is_wandb_event e = false)
           (events_of (fit C IGNORE_INDEX self args k S h l))) /\
      (forall C loader steps h l,
         Forall (fun e => is_wandb_event e = false)
           (events_of (evaluate C self loader steps h l))).
Proof.
  intros strategy0 train_dl group eval_dl pad max_epochs is_gp tau dim
    packing Hrank built.
  pose proof (select_loss_fn_prints_only is_gp tau dim
                (add_prompt_head (s_args strategy0))) as Hprints.
  subst built. unfold __init__.
  destruct (select_loss_fn is_gp tau dim (add_prompt_head (s_args strategy0)))
    as [[loss | e] evs]; cbn [fst snd] in *.
  - rewrite Hrank, andb_false_r. rewrite app_nil_r. split; [exact Hprints |].
    intros self Hself. injection Hself as <-.
    split.
    + intros C IGN args k S h l.
      apply (emits_fit_when C IGN _ (fun e => is_wandb_event e = false)
               args k S (fun _ => True));
        try reflexivity; try (intros; reflexivity); auto;
        cbn [_wandb]; discriminate.
    + intros C loader steps h l.
      apply emits_evaluate_when; try reflexivity; try (intros; reflexivity);
        cbn [_wandb]; discriminate.
  - split; [exact Hprints |]. intros self Hself. discriminate.
Qed.

Lemma no_wandb_off_rank_0_witness :
  let built :=
    __init__ ex_rank1_strategy [ex_packed_batch] true [ex_packed_batch] 0 1
      true (1 # 10) 2 true in
  Forall (fun e => is_wandb_event e = false) (snd built) /\
  forall self,
    fst built = Ok self ->
    (forall C IGNORE_INDEX args k S h l,
       Forall (fun e => is_wandb_event e = false)
         (events_of (fit C IGNORE_INDEX self args k S h l))) /\
    (forall C loader steps h l,
       Forall (fun e => is_wandb_event e = false)
         (events_of (evaluate C self loader steps h l))).
Proof.
  apply (no_wandb_off_rank_0 ex_rank1_strategy [ex_packed_batch] true
           [ex_packed_batch] 0 1 true (1 # 10) 2 true).
  reflexivity.
Defined.

(** ** The auxiliary loss and the flag kept by the constructor *)

Lemma calls_bind_right :
  forall {A B} (P : event -> Prop) (m : M A) (k : A -> M B),
    (forall a, calls P (k a)) -> calls P (bind m k).
Proof.
  intros A B P m k Hk h l b l' ev Hrun.
  bind_inv Hrun. subst ev. apply Exists_app. right.
  exact (Hk _ _ _ _ _ _ Hrun).
Qed.

Lemma calls_bind_left :
  forall {A B} (P : event -> Prop) (m : M A) (k : A -> M B),
    calls P m -> calls P (bind m k).
Proof.
  intros A B P m k Hcalls h l b l' ev Hrun.
  bind_inv Hrun. subst ev. apply Exists_app. left.
  exact (Hcalls _ _ _ _ _ Hm).
Qed.

Lemma calls_call_ptx_loss_fn :
  forall C self a, calls is_ptx_loss_fn (call_ptx_loss_fn C self a).
Proof.
  intros C self a h l q l' ev Hrun.
  unfold call_ptx_loss_fn, bind, emit, ask in Hrun.
  injection Hrun as _ _ <-. apply Exists_cons_hd. exists a. reflexivity.
Qed.

Lemma calls_forward_logits :
  forall C IGNORE_INDEX ids mask,
    calls is_model_forward (forward_logits C IGNORE_INDEX ids mask).
Proof.
  intros C IGN ids mask h l q l' ev Hrun.
  unfold forward_logits, bind, emit, ask, ret in Hrun.
  injection Hrun as _ _ <-. apply Exists_cons_hd. exists ids, mask.
  reflexivity.
Qed.

Ltac calls_step :=
  first
    [ apply calls_call_ptx_loss_fn
    | apply calls_bind_left; apply calls_forward_logits
    | apply calls_bind_right; intros ?;
      repeat match goal with
             | p : (_ * _)%type |- _ => destruct p
             end; cbv beta iota ].

Lemma total_loss_calls :
  forall C IGNORE_INDEX self args preference_loss,
    add_pretrain_loss args = true ->
    calls is_model_forward
      (total_loss C IGNORE_INDEX self args preference_loss) /\
    calls is_ptx_loss_fn
      (total_loss C IGNORE_INDEX self args preference_loss).
Proof.
  intros C IGN self args pl Hflag. unfold total_loss. rewrite Hflag.
  split; apply calls_bind_left;
    destruct (is_DPORefFreeLoss (ptx_loss_fn self)),
      (negb (self_packing_samples self));
    unfold ptx_pair_non_packed, ptx_pair_packed, ptx_chosen_bound,
      ptx_chosen_packed, ptx_single, split_packed_chosen;
    repeat calls_step.
Qed.

Lemma train_step_calls :
  forall C IGNORE_INDEX self args data ls,
    add_pretrain_loss args = true ->
    calls is_model_forward
      (train_step C IGNORE_INDEX self args data ls) /\
    calls is_ptx_loss_fn (train_step C IGNORE_INDEX self args data ls).
Proof.
  intros C IGN self args data ls Hflag. unfold train_step.
  split;
    (apply calls_bind_right; intros f;
     apply calls_bind_right; intros [[preference_loss probs] ls2];
     apply calls_bind_left;
     apply total_loss_calls; exact Hflag).
Qed.

(** X14. The constructor clears [self.add_pretrain_loss] when
    [--add_pretrain_loss] comes with a coefficient that is not positive,
    but the training step tests [args.add_pretrain_loss]: every
    micro-batch that completes still runs the auxiliary forward pass and
    calls [self.ptx_loss_fn]. *)
Theorem cleared_pretrain_flag_is_not_consulted :
  forall (strategy0 : Strategy) (train_dl : list Batch) (group : bool)
         (eval_dl : list Batch) (pad : Z) (max_epochs : Z) (is_gp : bool)
         (tau : Q) (dim : Z) (packing : bool) (self : Trainer)
         (C : Collaborators) (IGNORE_INDEX : Z) (data : Batch)
         (ls ls' : LoopState) (h ev : list event) (l l' : Locals),
    add_pretrain_loss (s_args strategy0) = true ->
    (ptx_loss_coef (s_args strategy0) <= 0)%Q ->
    fst (__init__ strategy0 train_dl group eval_dl pad max_epochs is_gp tau
           dim packing) = Ok self ->
    train_step C IGNORE_INDEX self (s_args strategy0) data ls h l
    = (Ok ls', l', ev) ->
    self_add_pretrain_loss self = false /\
    Exists is_model_forward ev /\
    Exists is_ptx_loss_fn ev.
Proof.
  intros strategy0 train_dl group eval_dl pad max_epochs is_gp tau dim
    packing self C IGN data ls ls' h ev l l' Hflag Hcoef Hself Hrun.
  destruct (train_step_calls C IGN self (s_args strategy0) data ls Hflag)
    as [Hforward Hptx].
  split; [| split].
  - unfold __init__ in Hself.
    destruct (select_loss_fn is_gp tau dim
                (add_prompt_head (s_args strategy0))) as [[loss | e] evs];
      cbn [fst] in Hself; [| discriminate].
    injection Hself as <-. cbn [self_add_pretrain_loss].
    rewrite Hflag. apply Qle_bool_iff in Hcoef. rewrite Hcoef. reflexivity.
  - exact (Hforward h l ls' l' ev Hrun).
  - exact (Hptx h l ls' l' ev Hrun).
Qed.

Lemma cleared_pretrain_flag_is_not_consulted_witness :
  let run :=
    train_step ex_collaborators ex_ignore_index ex_zero_coef_trainer
      ex_zero_coef_args ex_non_packed_batch (mkLoop 1 0 0 0) []
      fresh_locals in
  fst (__init__ ex_zero_coef_strategy [ex_non_packed_batch] true
         [ex_non_packed_batch] 0 1 true (1 # 10) 2 false)
  = Ok ex_zero_coef_trainer /\
  (exists ls', outcome_of run = Ok ls') /\
  self_add_pretrain_loss ex_zero_coef_trainer = false /\
  Exists is_model_forward (events_of run) /\
  Exists is_ptx_loss_fn (events_of run).
Proof.
  intros run.
  assert (Hself : fst (__init__ ex_zero_coef_strategy [ex_non_packed_batch]
                         true [ex_non_packed_batch] 0 1 true (1 # 10) 2 false)
                  = Ok ex_zero_coef_trainer) by reflexivity.
  destruct run as [[[ls' | e] l'] ev] eqn:Hrun;
    [| vm_compute in Hrun; discriminate].
  split; [exact Hself |].
  split; [exists ls'; reflexivity |].
  cbn [events_of].
  apply (cleared_pretrain_flag_is_not_consulted ex_zero_coef_strategy
           [ex_non_packed_batch] true [ex_non_packed_batch] 0 1 true (1 # 10)
           2 false ex_zero_coef_trainer ex_collaborators ex_ignore_index
           ex_non_packed_batch (mkLoop 1 0 0 0) ls' [] ev fresh_locals l').
  - reflexivity.
  - vm_compute. discriminate.
  - exact Hself.
  - exact Hrun.
Defined.

(** ** Packed samples with a prompt head *)

Lemma forward_and_loss_keeps_chosen_unbound :
  forall C self data ls,
    self_packing_samples self = true ->
    preserves l_chosen_ids (forward_and_loss C self data ls).
Proof.
  intros C self data ls Hpack.
  unfold forward_and_loss, unpack_batch, forward_current_path,
    preference_loss_first, call_loss_fn.
  rewrite Hpack. cbn [negb].
  preserves_tac; apply preserves_concatenated_forward.
Qed.

Lemma second_forward_keeps_chosen_unbound :
  forall C IGNORE_INDEX self args return_output current,
    self_packing_samples self = true ->
    preserves l_chosen_ids
      (second_forward C IGNORE_INDEX self args return_output current).
Proof.
  intros C IGN self args return_output current Hpack.
  unfold second_forward, ptx_chosen_bound, ptx_pair_non_packed, ptx_single,
    forward_logits, call_ptx_loss_fn.
  rewrite Hpack. cbn [negb].
  destruct (add_pretrain_loss args);
    preserves_tac; apply preserves_concatenated_forward.
Qed.

Lemma second_loss_reads_unbound_chosen_ids :
  forall C IGNORE_INDEX self args f h l,
    self_packing_samples self = true ->
    needs_prompt_hidden_state self = true ->
    l_chosen_ids l = None ->
    raised (outcome_of (second_loss C IGNORE_INDEX self args f h l)) = true /\
    (forall v l1 ev1 hs,
       second_forward C IGNORE_INDEX self args true
         (f_chosen_reward f, f_reject_reward f, f_outputs f) h l
       = (Ok v, l1, ev1) ->
       last_hidden_state (snd v) = Ok hs ->
       outcome_of (second_loss C IGNORE_INDEX self args f h l)
       = Raise (UnboundLocalError "chosen_ids")).
Proof.
  intros C IGN self args f h l Hpack Hneeds Hunbound.
  pose proof (second_forward_keeps_chosen_unbound C IGN self args true
                (f_chosen_reward f, f_reject_reward f, f_outputs f) Hpack h l)
    as Hkeep.
  unfold second_loss. rewrite Hneeds.
  destruct (second_forward C IGN self args true
              (f_chosen_reward f, f_reject_reward f, f_outputs f) h l)
    as [[[[[cr rr] outputs] | e] l1] ev1] eqn:Hsf;
    unfold locals_of in Hkeep; cbn [fst snd] in Hkeep.
  - assert (Hl1 : l_chosen_ids l1 = None) by congruence.
    rewrite (bind_ok_left _ _ _ _ _ _ _ Hsf). cbv beta iota.
    unfold preference_loss_second. rewrite Hneeds.
    unfold outcome_of at 1 2.
    assert (Hraise :
              forall k : Q * list Q -> M (Q * list Q * LoopState),
                raised (outcome_of
                  (bind
                     (hs <- lift (last_hidden_state outputs) ;;
                      chosen_ids <- read_local "chosen_ids" l_chosen_ids ;;
                      prompt_hidden_state <-
                        lift (gather_prompt hs (t_rows chosen_ids)
                                (map (fun crl => Z.of_nat (h_seq hs) - crl - 1)
                                   (f_chosen_response_len f))) ;;
                      call_loss_fn C self
                        [LRewards cr; LRewards rr; LHidden prompt_hidden_state;
                         LMargin (f_margin f)])
                     k (h ++ ev1) l1)) = true /\
                (forall hs,
                   last_hidden_state outputs = Ok hs ->
                   outcome_of
                     (bind
                        (hs <- lift (last_hidden_state outputs) ;;
                         chosen_ids <- read_local "chosen_ids" l_chosen_ids ;;
                         prompt_hidden_state <-
                           lift (gather_prompt hs (t_rows chosen_ids)
                                   (map (fun crl =>
                                           Z.of_nat (h_seq hs) - crl - 1)
                                      (f_chosen_response_len f))) ;;
                         call_loss_fn C self
                           [LRewards cr; LRewards rr;
                            LHidden prompt_hidden_state;
                            LMargin (f_margin f)])
                        k (h ++ ev1) l1)
                   = Raise (UnboundLocalError "chosen_ids"))).
    { intros k. unfold bind, lift, read_local.
      destruct (last_hidden_state outputs) as [hs |];
        [rewrite Hl1 |]; split; try reflexivity; intros; try discriminate;
        reflexivity. }
    split.
    + apply Hraise.
    + intros v l2 ev2 hs Hv Hhs. injection Hv as <- <- <-.
      cbn [snd] in Hhs. apply (proj2 (Hraise _) hs Hhs).
  - rewrite (bind_raise_left _ _ _ _ _ _ _ Hsf).
    split; [reflexivity | intros; discriminate].
Qed.

Lemma packed_prompt_head_step_never_returns :
  forall C IGNORE_INDEX self args data ls h l,
    self_packing_samples self = true ->
    needs_prompt_hidden_state self = true ->
    l_chosen_ids l = None ->
    exists e l1 ev1,
      train_step C IGNORE_INDEX self args data ls h l = (Raise e, l1, ev1) /\
      Forall no_training_step ev1.
Proof.
  intros C IGN self args data ls h l Hpack Hneeds Hunbound.
  pose proof (forward_and_loss_keeps_chosen_unbound C self data ls Hpack h l)
    as Hkeep.
  assert (Hev : emits_only no_training_step (forward_and_loss C self data ls))
    by (apply emits_forward_and_loss; intros; split; reflexivity).
  specialize (Hev h l).
  unfold train_step.
  destruct (forward_and_loss C self data ls h l) as [[[f | e] l1] ev1]
    eqn:Hfirst; unfold locals_of, events_of in *; cbn [fst snd] in *.
  - assert (Hl1 : l_chosen_ids l1 = None) by congruence.
    destruct (second_loss_reads_unbound_chosen_ids C IGN self args f
                (h ++ ev1) l1 Hpack Hneeds Hl1) as [Hraise _].
    assert (Hev2 : emits_only no_training_step
                     (second_loss C IGN self args f))
      by (apply emits_second_loss; intros; split; reflexivity).
    specialize (Hev2 (h ++ ev1) l1).
    rewrite (bind_ok_left _ _ _ _ _ _ _ Hfirst).
    destruct (second_loss C IGN self args f (h ++ ev1) l1)
      as [[[v | e] l2] ev2] eqn:Hsecond;
      unfold outcome_of, events_of in *; cbn [fst snd] in *;
      [discriminate |].
    rewrite (bind_raise_left _ _ _ _ _ _ _ Hsecond).
    cbn [fst snd]. exists e, l2, (ev1 ++ ev2).
    split; [reflexivity |]. apply Forall_app. split; assumption.
  - rewrite (bind_raise_left _ _ _ _ _ _ _ Hfirst).
    exists e, l1, ev1. split; [reflexivity | assumption].
Qed.

Lemma guarded_packed_prompt_head_fit :
  forall C IGNORE_INDEX self args k s,
    self_packing_samples self = true ->
    needs_prompt_hidden_state self = true ->
    guarded chosen_unbound no_training_step
      (fit C IGNORE_INDEX self args k s).
Proof.
  intros C IGN self args k s Hpack Hneeds. unfold fit.
  destruct (restore self args k s) as [r | e] eqn:Hr;
    [| apply guarded_bind_lift_raise].
  apply guarded_bind_lift_ok. apply guarded_bind.
  - apply guarded_for_each. intros epoch ls. unfold train_epoch.
    apply guarded_bind.
    + destruct (sampler_is_group self);
        [apply guarded_emit; split; reflexivity | apply guarded_ret].
    + intros _. apply guarded_bind;
        [apply guarded_emit; split; reflexivity |].
      intros _. apply guarded_for_each. intros data ls0 h l Hinv.
      destruct (packed_prompt_head_step_never_returns C IGN self (r_args r)
                  data ls0 h l Hpack Hneeds Hinv)
        as (e & l1 & ev1 & Hrun & Hev).
      rewrite Hrun. split; [exact Hev | discriminate].
  - intros ls. apply guarded_bind; [| intros; apply guarded_ret].
    destruct (_wandb self && is_rank_0 (strategy self));
      [apply guarded_emit; split; reflexivity | apply guarded_ret].
Qed.

(** X15. With [packing_samples] and a loss that takes the prompt hidden
    state, an iteration of the training loop never returns: after the
    second forward pass the loss block reads [chosen_ids], which the
    packed path has not bound, and raises [UnboundLocalError] as soon as
    the outputs carry a hidden state.  Neither [strategy.backward] nor
    [strategy.optimizer_step] is called, in the iteration or in the
    whole of [fit], whatever [args] is. *)
Theorem packed_step_with_prompt_head_raises :
  forall (C : Collaborators) (IGNORE_INDEX : Z) (self : Trainer)
         (args : Args) (data : Batch) (ls : LoopState)
         (h : list event) (l : Locals),
    self_packing_samples self = true ->
    needs_prompt_hidden_state self = true ->
    l_chosen_ids l = None ->
    let run := train_step C IGNORE_INDEX self args data ls h l in
    (exists e, outcome_of run = Raise e) /\
    (forall f l1 ev1 v l2 ev2 hs,
       forward_and_loss C self data ls h l = (Ok f, l1, ev1) ->
       second_forward C IGNORE_INDEX self args true
         (f_chosen_reward f, f_reject_reward f, f_outputs f) (h ++ ev1) l1
       = (Ok v, l2, ev2) ->
       last_hidden_state (snd v) = Ok hs ->
       outcome_of run = Raise (UnboundLocalError "chosen_ids")) /\
    Forall no_training_step (events_of run) /\
    (forall k s h0,
       Forall no_training_step
         (events_of (fit C IGNORE_INDEX self args k s h0 fresh_locals))).
Proof.
  intros C IGN self args data ls h l Hpack Hneeds Hunbound run.
  destruct (packed_prompt_head_step_never_returns C IGN self args data ls h l
              Hpack Hneeds Hunbound) as (e & l1 & ev1 & Hrun & Hev).
  split; [| split; [| split]].
  - exists e. subst run. rewrite Hrun. reflexivity.
  - intros f l2 ev2 v l3 ev3 hs Hfirst Hsf Hhs. subst run.
    pose proof (forward_and_loss_keeps_chosen_unbound C self data ls Hpack h l)
      as Hkeep.
    rewrite Hfirst in Hkeep. unfold locals_of in Hkeep. cbn [fst snd] in Hkeep.
    assert (Hl2 : l_chosen_ids l2 = None) by congruence.
    destruct (second_loss_reads_unbound_chosen_ids C IGN self args f
                (h ++ ev2) l2 Hpack Hneeds Hl2) as [_ Hexact].
    specialize (Hexact v l3 ev3 hs Hsf Hhs).
    unfold train_step. rewrite (bind_ok_left _ _ _ _ _ _ _ Hfirst).
    unfold outcome_of at 1. cbn [fst].
    destruct (second_loss C IGN self args f (h ++ ev2) l2)
      as [[[w | e'] l4] ev4] eqn:Hsecond;
      unfold outcome_of in Hexact; cbn [fst] in Hexact; [discriminate |].
    rewrite (bind_raise_left _ _ _ _ _ _ _ Hsecond).
    unfold outcome_of. cbn [fst]. injection Hexact as ->. reflexivity.
  - subst run. rewrite Hrun. exact Hev.
  - intros k s h0.
    apply (guarded_packed_prompt_head_fit C IGN self args k s Hpack Hneeds
             h0 fresh_locals).
    reflexivity.
Qed.

Lemma packed_step_with_prompt_head_raises_witness :
  outcome_of
    (train_step ex_collaborators ex_ignore_index ex_packed_moe_trainer
       (ex_args true false true) ex_packed_batch (mkLoop 1 0 0 0)
       [] fresh_locals)
  = Raise (UnboundLocalError "chosen_ids") /\
  Forall no_training_step
    (events_of
       (fit ex_collaborators ex_ignore_index ex_packed_moe_trainer
          (ex_args true false true) 0 (Some 1) [] fresh_locals)).
Proof.
  destruct (packed_step_with_prompt_head_raises ex_collaborators
              ex_ignore_index ex_packed_moe_trainer (ex_args true false true)
              ex_packed_batch (mkLoop 1 0 0 0) [] fresh_locals
              eq_refl eq_refl eq_refl)
    as (_ & _ & _ & Hfit).
  split; [reflexivity | apply Hfit].
Defined.

(** ** The running accuracy *)

Lemma sumQ_gt_half_bounds :
  forall probs,
    (0 <= sumQ (gt_half probs)
     /\ sumQ (gt_half probs) <= inject_Z (Z.of_nat (length probs)))%Q.
Proof.
  induction probs as [| p probs [IHlow IHhigh]].
  - split; cbn; apply Qle_refl.
  - cbn [gt_half map sumQ fold_right length].
    fold (gt_half probs). fold (sumQ (gt_half probs)).
    rewrite Nat2Z.inj_succ. unfold Z.succ. rewrite inject_Z_plus.
    change (inject_Z 1) with 1%Q.
    destruct (Qle_bool p (1 # 2)); split; lra.
Qed.

(** The share of probabilities above one half, of a tensor that has at
    least one element. *)
Lemma accuracy_bounds :
  forall probs,
    probs <> [] -> (0 <= accuracy probs /\ accuracy probs <= 1)%Q.
Proof.
  intros probs Hne. unfold accuracy, mean.
  destruct (sumQ_gt_half_bounds probs) as [Hlow Hhigh].
  unfold gt_half at 2 4. rewrite length_map.
  assert (Hpos : (0 < inject_Z (Z.of_nat (length probs)))%Q).
  { change 0%Q with (inject_Z 0). rewrite <- Zlt_Qlt.
    destruct probs; [congruence | cbn [length]; lia]. }
  split.
  - apply Qle_shift_div_l; [exact Hpos | lra].
  - apply Qle_shift_div_r; [exact Hpos | lra].
Qed.

Lemma ema_bounds :
  forall m x : Q,
    (0 <= m /\ m <= 1)%Q -> (0 <= x /\ x <= 1)%Q ->
    (0 <= ema m x /\ ema m x <= 1)%Q.
Proof. intros m x [Hm0 Hm1] [Hx0 Hx1]. unfold ema. split; lra. Qed.

Section NonEmptyProbabilities.

Variable C : Collaborators.

(** The loss function returns at least one probability. *)
Hypothesis probs_not_empty :
  forall h f a, snd (loss_fn_call C h f a) <> [].

Lemma call_loss_fn_probs :
  forall self a h l preference_loss probs l1 ev,
    call_loss_fn C self a h l = (Ok (preference_loss, probs), l1, ev) ->
    probs <> [].
Proof.
  intros self a h l pl probs l1 ev H.
  destruct (call_loss_fn_answer _ _ _ _ _ _ _ _ H) as [h0 Hr].
  pose proof (probs_not_empty h0 (loss_fn self) a) as Hne.
  rewrite <- Hr in Hne. exact Hne.
Qed.

Lemma preference_loss_first_probs :
  forall self margin crl chosen_reward reject_reward outputs h l
         preference_loss probs l1 ev,
    preference_loss_first C self margin crl chosen_reward reject_reward
      outputs h l = (Ok (preference_loss, probs), l1, ev) ->
    probs <> [].
Proof.
  intros self margin crl cr rr outputs h l pl probs l1 ev H.
  unfold preference_loss_first in H.
  destruct (needs_prompt_hidden_state self).
  - do 3 bind_inv H. exact (call_loss_fn_probs _ _ _ _ _ _ _ _ H).
  - exact (call_loss_fn_probs _ _ _ _ _ _ _ _ H).
Qed.

Lemma preference_loss_second_probs :
  forall self margin crl chosen_reward reject_reward outputs h l
         preference_loss probs l1 ev,
    preference_loss_second C self margin crl chosen_reward reject_reward
      outputs h l = (Ok (preference_loss, probs), l1, ev) ->
    probs <> [].
Proof.
  intros self margin crl cr rr outputs h l pl probs l1 ev H.
  unfold preference_loss_second in H.
  destruct (needs_prompt_hidden_state self).
  - do 3 bind_inv H. exact (call_loss_fn_probs _ _ _ _ _ _ _ _ H).
  - exact (call_loss_fn_probs _ _ _ _ _ _ _ _ H).
Qed.

Lemma forward_and_loss_acc_mean :
  forall self data ls h l f l1 ev1,
    forward_and_loss C self data ls h l = (Ok f, l1, ev1) ->
    exists probs,
      probs <> [] /\
      acc_mean (f_ls f) = ema (acc_mean ls) (accuracy probs).
Proof.
  intros self data ls h l f l1 ev1 H. unfold forward_and_loss in H.
  bind_inv H. destruct a as [margin crl].
  bind_inv H. destruct a as [[chosen_reward reject_reward] outputs].
  bind_inv H. destruct a as [preference_loss probs].
  unfold ret in H. injection H as <- _ _. exists probs.
  split; [| reflexivity].
  exact (preference_loss_first_probs _ _ _ _ _ _ _ _ _ _ _ _ Hm1).
Qed.

Lemma second_loss_acc_mean :
  forall IGNORE_INDEX self args f h l preference_loss probs ls2 l1 ev1,
    second_loss C IGNORE_INDEX self args f h l
    = (Ok (preference_loss, probs, ls2), l1, ev1) ->
    probs <> [] /\
    acc_mean ls2 = ema (acc_mean (f_ls f)) (accuracy probs).
Proof.
  intros IGN self args f h l pl probs ls2 l1 ev1 H.
  unfold second_loss in H.
  bind_inv H. destruct a as [[chosen_reward reject_reward] outputs].
  bind_inv H. destruct a as [pl' probs'].
  unfold ret in H. injection H as _ <- <- _ _.
  split; [| reflexivity].
  exact (preference_loss_second_probs _ _ _ _ _ _ _ _ _ _ _ _ Hm0).
Qed.

Lemma step_and_log_acc_mean :
  forall self args preference_loss probs ls loss h l ls' l' ev,
    step_and_log C self args preference_loss probs ls loss h l
    = (Ok ls', l', ev) ->
    acc_mean ls' = acc_mean ls.
Proof.
  intros self args pl probs ls loss h l ls' l' ev H.
  unfold step_and_log in H. repeat bind_inv H.
  unfold ret in H. injection H as <- _ _. reflexivity.
Qed.

Lemma train_step_acc_mean :
  forall IGNORE_INDEX self args data ls h l ls' l' ev,
    train_step C IGNORE_INDEX self args data ls h l = (Ok ls', l', ev) ->
    exists probs1 probs2,
      probs1 <> [] /\ probs2 <> [] /\
      acc_mean ls'
      = ema (ema (acc_mean ls) (accuracy probs1)) (accuracy probs2).
Proof.
  intros IGN self args data ls h l ls' l' ev Hrun.
  unfold train_step in Hrun.
  bind_inv Hrun. rename a into f.
  bind_inv Hrun. destruct a as [[preference_loss probs] ls2].
  bind_inv Hrun. rename a into loss.
  destruct (forward_and_loss_acc_mean _ _ _ _ _ _ _ _ Hm)
    as (probs1 & Hne1 & H1).
  destruct (second_loss_acc_mean _ _ _ _ _ _ _ _ _ _ _ Hm0) as [Hne2 H2].
  pose proof (step_and_log_acc_mean _ _ _ _ _ _ _ _ _ _ _ Hrun) as H3.
  exists probs1, probs. repeat split; try assumption. congruence.
Qed.

End NonEmptyProbabilities.

(** X16. With a loss function that returns at least one probability
    at every call, the running accuracy stays between 0 and 1: each of
    the two updates of a micro-batch mixes it with the share of
    probabilities above one half, so any number of micro-batches
    started from a value in the interval ends in it.  (On an empty
    probability tensor the share is [nan] in torch; that case is
    excluded by the hypothesis.) *)
Theorem running_accuracy_stays_in_unit_interval :
  forall (C : Collaborators) (IGNORE_INDEX : Z) (self : Trainer)
         (args : Args) (batches : list Batch) (ls ls' : LoopState)
         (h ev : list event) (l l' : Locals),
    (forall h0 f a, snd (loss_fn_call C h0 f a) <> []) ->
    (0 <= acc_mean ls /\ acc_mean ls <= 1)%Q ->
    for_each (train_step C IGNORE_INDEX self args) batches ls h l
    = (Ok ls', l', ev) ->
    (0 <= acc_mean ls' /\ acc_mean ls' <= 1)%Q.
Proof.
  intros C IGN self args batches ls ls' h ev l l' Hne Hls Hrun.
  destruct (emits_for_each_inv (fun _ => True)
              (fun s => (0 <= acc_mean s /\ acc_mean s <= 1)%Q)
              (train_step C IGN self args)) with (xs := batches) (s := ls)
    as [_ Hkeep].
  - intros x s _ h0 l0. apply Forall_forall. intros; exact I.
  - intros x s h0 l0 s' l0' ev0 Hs Hstep.
    destruct (train_step_acc_mean C Hne _ _ _ _ _ _ _ _ _ _ Hstep)
      as (probs1 & probs2 & Hne1 & Hne2 & ->).
    apply ema_bounds; [| apply accuracy_bounds; exact Hne2].
    apply ema_bounds; [exact Hs | apply accuracy_bounds; exact Hne1].
  - exact Hls.
  - exact (Hkeep h l ls' l' ev Hrun).
Qed.

Lemma running_accuracy_stays_in_unit_interval_witness :
  exists ls',
    outcome_of
      (for_each
         (train_step ex_collaborators ex_ignore_index ex_packed_trainer
            (ex_args true false false))
         [ex_packed_batch; ex_packed_batch] (mkLoop 1 0 0 0) []
         fresh_locals) = Ok ls' /\
    (0 <= acc_mean ls' /\ acc_mean ls' <= 1)%Q.
Proof.
  pose (run := for_each
                 (train_step ex_collaborators ex_ignore_index
                    ex_packed_trainer (ex_args true false false))
                 [ex_packed_batch; ex_packed_batch] (mkLoop 1 0 0 0) []
                 fresh_locals).
  destruct (outcome_of run) as [ls' | e] eqn:Hout;
    [| vm_compute in Hout; discriminate Hout].
  assert (Hrun : run = (Ok ls', locals_of run, events_of run))
    by (rewrite <- Hout; apply run_eta).
  exists ls'. split; [exact Hout |].
  apply (running_accuracy_stays_in_unit_interval ex_collaborators
           ex_ignore_index ex_packed_trainer (ex_args true false false)
           [ex_packed_batch; ex_packed_batch] (mkLoop 1 0 0 0) ls' []
           (events_of run) fresh_locals (locals_of run)).
  - intros h0 f a. simpl. discriminate.
  - split; cbn; lra.
  - exact Hrun.
Defined.

(** ** A cadence of zero *)

(** X17. With [--logging_steps 0] the first micro-batch that ends an
    accumulation window is back-propagated and optimised, and then
    [global_step % args.logging_steps] raises [ZeroDivisionError]:
    nothing is logged, evaluated or saved, and [step] is not
    incremented. *)
Theorem zero_logging_steps_raises_after_optimizer_step :
  forall (C : Collaborators) (self : Trainer) (args : Args)
         (preference_loss : Q) (probs : list Q) (ls : LoopState) (loss : Q)
         (h : list event) (l : Locals),
    logging_steps args = 0 ->
    accumulated_gradient (strategy self) <> 0 ->
    step ls mod accumulated_gradient (strategy self) = 0 ->
    step_and_log C self args preference_loss probs ls loss h l
    = (Raise ZeroDivisionError, l, [EBackward loss; EOptimizerStep]).
Proof.
  intros C self args pl probs ls loss h l Hlog HA Hmod.
  apply Z.eqb_neq in HA.
  unfold step_and_log, cadence, save_logs_and_checkpoints, divides,
    py_mod, py_floordiv.
  rewrite Hlog, HA, Hmod.
  reflexivity.
Qed.

Lemma zero_logging_steps_raises_after_optimizer_step_witness :
  step_and_log ex_collaborators ex_packed_trainer
    (mkArgs false 1 false false true false false (1 # 10)
       1 (Finite 1) 0 128 "ckpt" 3 1000)
    1 [3 # 4] (mkLoop 2 0 0 0) 1 [] fresh_locals
  = (Raise ZeroDivisionError, fresh_locals, [EBackward 1; EOptimizerStep]).
Proof.
  apply (zero_logging_steps_raises_after_optimizer_step ex_collaborators
           ex_packed_trainer
           (mkArgs false 1 false false true false false (1 # 10)
              1 (Finite 1) 0 128 "ckpt" 3 1000)
           1 [3 # 4] (mkLoop 2 0 0 0) 1 [] fresh_locals);
    [reflexivity | discriminate | reflexivity].
Defined.
